(** * Drift Guardian: the drift orchestration engine

    A shallow embedding of the service layer of Drift Guardian
    (internal/service/drift.go, internal/service/threshold.go), of the Redis
    repository it stores its records in (internal/repository/redis.go) and of
    the GitLab client it escalates through (package client), followed by the
    properties of the engine.  The handler of the /environments endpoint
    (internal/handler), the authentication middleware (internal/middleware)
    and the command-line wrapper of terraform (ci) come after them, with
    their properties at the end.

    Conventions of the embedding.
    - Go's [int] is the 64-bit integer of the platforms the service is built
      for; it is a [Z] with the range written out where the code depends on it
      ([strconv.Atoi]).
    - A Go function returning [(v, error)] returns a [result]: [Ok v] when the
      error is nil, [Err e] otherwise.  The callers of the repository never
      read the value that comes with a non-nil error, except where they drop
      the error; there the value is the zero value the repository returns.
    - The storage and the issue tracker are interfaces in the source, and
      records of methods here.  A method is a function of the state of the
      system behind it (the Redis server, the GitLab server).
    - Every call the service makes through one of the two interfaces is
      recorded, with its arguments and its error, in a trace.  The trace is a
      ghost field: no definition reads it.
    - Logging ([slog]) has no effect on the state and is left out. *)

From Stdlib Require Import ZArith String Ascii DecimalString DecimalZ DecimalN Lia.
From stdpp Require Import base tactics option strings list gmap.

Open Scope Z_scope.

(** ** Errors and results *)

(** [strconv.ErrSyntax] and [strconv.ErrRange]. *)
Inductive NumErrorKind : Type := ErrSyntax | ErrRange.

(** Go's error values, as far as the service builds them. *)
Inductive error : Type :=
| errorString (msg : string)
    (* fmt.Errorf with no %w verb, errors.New *)
| wrapError (msg : string) (err : error)
    (* fmt.Errorf("msg: %w", err) *)
| NumError (func num : string) (kind : NumErrorKind).
    (* *strconv.NumError *)

Inductive result (A : Type) : Type :=
| Ok (a : A)
| Err (e : error).
Arguments Ok {A} a.
Arguments Err {A} e.

Definition is_ok {A} (r : result A) : bool :=
  match r with Ok _ => true | Err _ => false end.

(** The error of a result, Go's [err] next to the value; [None] is nil. *)
Definition err_of {A} (r : result A) : option error :=
  match r with Ok _ => None | Err e => Some e end.

(** [errors.Unwrap], iterated: the error at the bottom of a chain of %w. *)
Fixpoint root_cause (e : error) : error :=
  match e with
  | wrapError _ e' => root_cause e'
  | _ => e
  end.

(** [if err != nil { return fmt.Errorf("msg: %w", err) }] on a result. *)
Definition wrap_result {A} (msg : string) (r : result A) : result A :=
  match r with Ok a => Ok a | Err e => Err (wrapError msg e) end.

(** ** strconv *)

Module strconv.

Definition minInt : Z := - 2 ^ 63.
Definition maxInt : Z := 2 ^ 63 - 1.

Definition in_int (z : Z) : Prop := minInt <= z <= maxInt.

(** [strconv.Itoa]: the decimal form, with a minus sign below zero. *)
Definition Itoa (z : Z) : string := NilEmpty.string_of_int (Z.to_int z).

(** The digits of [s] after its optional sign. *)
Definition unsigned_part (s : string) : string :=
  match s with
  | String "+" r => r
  | String "-" r => r
  | _ => s
  end.

Definition is_negative (s : string) : bool :=
  match s with
  | String "-" _ => true
  | _ => false
  end.

(** [strconv.Atoi]: an optional sign and one decimal digit or more, nothing
    else; the value has to fit an [int]. *)
Definition Atoi (s : string) : result Z :=
  match unsigned_part s with
  | EmptyString => Err (NumError "Atoi" s ErrSyntax)
  | String _ _ as digits =>
      match NilEmpty.uint_of_string digits with
      | None => Err (NumError "Atoi" s ErrSyntax)
      | Some d =>
          let n := Z.of_N (N.of_uint d) in
          let v := if is_negative s then - n else n in
          if (minInt <=? v) && (v <=? maxInt) then Ok v
          else Err (NumError "Atoi" s ErrRange)
      end
  end.

End strconv.

#[global] Instance NumErrorKind_eq_dec : EqDecision NumErrorKind.
Proof. solve_decision. Defined.

#[global] Instance error_eq_dec : EqDecision error.
Proof. solve_decision. Defined.

(** ** The Redis server, as go-redis shows it to the repository

    A database of hashes: a key that holds no hash reads as the empty hash,
    and a key exists when its hash has a field.  Every command is one round
    trip to the server; [faults] lists what the next round trips meet, [None]
    for a command that reaches the server and [Some reason] for one that fails
    on the way (a timeout, a lost connection) and leaves the data as it was.
    When the list is used up the commands reach the server. *)

Module redis.

Record Server : Type := {
  db : gmap string (gmap string string);
  faults : list (option string);
}.

(** [redis.Nil], the error of a read that finds nothing. *)
Definition Nil : error := errorString "redis: nil".

(** The error of a command that did not reach the server: a network error
    or the deadline of the context, never [redis.Nil]. *)
Definition NetworkError (reason : string) : error :=
  wrapError "redis" (errorString reason).

Definition hash (d : gmap string (gmap string string)) (key : string)
  : gmap string string :=
  default ∅ (d !! key).

Definition with_db (d : gmap string (gmap string string)) (r : Server) : Server :=
  {| db := d; faults := faults r |}.

(** One round trip: the fault it meets, and the server after it. *)
Definition roundtrip (r : Server) : option error * Server :=
  match faults r with
  | [] => (None, r)
  | f :: rest => (NetworkError <$> f, {| db := db r; faults := rest |})
  end.

(** A command: [run] on the data when the round trip goes through. *)
Definition command {A} (r : Server)
    (run : gmap string (gmap string string) ->
           result A * gmap string (gmap string string))
  : result A * Server :=
  match roundtrip r with
  | (Some e, r') => (Err e, r')
  | (None, r') => let '(a, d) := run (db r') in (a, with_db d r')
  end.

(** Redis reads a hash value as an integer only in its canonical decimal
    form (string2ll): no plus sign, no leading zero, within 64 bits. *)
Definition string2ll (v : string) : option Z :=
  match strconv.Atoi v with
  | Ok n => if decide (strconv.Itoa n = v) then Some n else None
  | Err _ => None
  end.

(** EXISTS key *)
Definition Exists (key : string) (r : Server) : result Z * Server :=
  command r (fun d =>
    (Ok (if decide (hash d key = ∅) then 0 else 1), d)).

(** HSET key field value [field value ...] (HMSET is the same command).
    The fields are written in the order of the list; the repository hands
    over a Go map, which has every field once, so that the order is of no
    consequence. *)
Definition write_fields (fields : list (string * string)) (h : gmap string string)
  : gmap string string :=
  foldl (fun h' fv => <[fv.1 := fv.2]> h') h fields.

Definition HMSet (key : string) (fields : list (string * string)) (r : Server)
  : result unit * Server :=
  command r (fun d =>
    (Ok tt, <[key := write_fields fields (hash d key)]> d)).

Definition HSet (key field value : string) (r : Server) : result unit * Server :=
  HMSet key [(field, value)] r.

(** HINCRBY key field increment: an absent field counts as 0. *)
Definition HIncrBy (key field : string) (incr : Z) (r : Server)
  : result Z * Server :=
  command r (fun d =>
    let h := hash d key in
    let old := match h !! field with
               | None => Some 0
               | Some v => string2ll v
               end in
    match old with
    | None => (Err (errorString "ERR hash value is not an integer"), d)
    | Some n =>
        let n' := n + incr in
        if (strconv.minInt <=? n') && (n' <=? strconv.maxInt)
        then (Ok n', <[key := <[field := strconv.Itoa n']> h]> d)
        else (Err (errorString "ERR increment or decrement would overflow"), d)
    end).

(** HGETALL key *)
Definition HGetAll (key : string) (r : Server)
  : result (gmap string string) * Server :=
  command r (fun d => (Ok (hash d key), d)).

(** HGET key field: [redis.Nil] when the field is not there. *)
Definition HGet (key field : string) (r : Server) : result string * Server :=
  command r (fun d =>
    (match hash d key !! field with
     | Some v => Ok v
     | None => Err Nil
     end, d)).

End redis.

(** ** internal/repository: the storage interface and its Redis implementation *)

(** [StorageRepository]: the methods of the interface, over the state [S] of
    the store behind it.  Go's [map[string]string] is a [gmap]. *)
Record StorageRepository (S : Type) : Type := {
  InitializeEnvironment :
    string -> string -> string -> string -> S -> result bool * S;
  UpdateOperationLog : string -> string -> string -> S -> result unit * S;
  IncrementDrift : string -> S -> result Z * S;
  ResetDrift : string -> S -> result unit * S;
  GetEnvironmentData : string -> S -> result (gmap string string) * S;
  SetField : string -> string -> string -> S -> result unit * S;
  GetField : string -> string -> S -> result string * S;
  StorePlanOutput : string -> string -> S -> result unit * S;
}.
Arguments InitializeEnvironment {S} _ _ _ _ _ _.
Arguments UpdateOperationLog {S} _ _ _ _ _.
Arguments IncrementDrift {S} _ _ _.
Arguments ResetDrift {S} _ _ _.
Arguments GetEnvironmentData {S} _ _ _.
Arguments SetField {S} _ _ _ _ _.
Arguments GetField {S} _ _ _ _.
Arguments StorePlanOutput {S} _ _ _ _.

Module RedisRepository.

(** The double quote of the JSON log entry. *)
Definition dquote : string := String (ascii_of_nat 34) EmptyString.

(** [os.Getenv("DEFAULT_DRIFT_THRESHOLD")], read by the repository itself
    when it is handed an empty threshold. *)
Section WithEnvironment.
Variable DEFAULT_DRIFT_THRESHOLD : string.

Definition InitializeEnvironment (key tier projectID threshold : string)
    (r : redis.Server) : result bool * redis.Server :=
  match redis.Exists key r with
  | (Err err, r1) =>
      (Err (wrapError "error checking hash existence" err), r1)
  | (Ok exists_, r1) =>
      if 0 <? exists_ then (Ok false, r1)
      else
        let threshold :=
          if decide (threshold = "") then
            if decide (DEFAULT_DRIFT_THRESHOLD = "") then "1"
            else DEFAULT_DRIFT_THRESHOLD
          else threshold in
        let fields := [ ("driftThreshold", threshold);
                        ("environmentTier", tier);
                        ("projectID", projectID);
                        ("driftIncrement", "0") ] in
        match redis.HMSet key fields r1 with
        | (Err err, r2) =>
            (Err (wrapError "error initializing environment hash" err), r2)
        | (Ok _, r2) => (Ok true, r2)
        end
  end.

End WithEnvironment.

Definition UpdateOperationLog (key timestamp operation : string)
    (r : redis.Server) : result unit * redis.Server :=
  let logEntry :=
    "{" +:+ dquote +:+ "timestamp" +:+ dquote +:+ ": " +:+
    dquote +:+ timestamp +:+ dquote +:+ ", " +:+
    dquote +:+ "operation" +:+ dquote +:+ ": " +:+
    dquote +:+ operation +:+ dquote +:+ "}" in
  match redis.HMSet key [("log", logEntry)] r with
  | (Err err, r1) => (Err (wrapError "error updating operation log" err), r1)
  | (Ok _, r1) => (Ok tt, r1)
  end.

Definition IncrementDrift (key : string) (r : redis.Server)
  : result Z * redis.Server :=
  match redis.HIncrBy key "driftIncrement" 1 r with
  | (Err err, r1) => (Err (wrapError "error incrementing drift" err), r1)
  | (Ok newValue, r1) => (Ok newValue, r1)
  end.

Definition ResetDrift (key : string) (r : redis.Server)
  : result unit * redis.Server :=
  match redis.HSet key "driftIncrement" "0" r with
  | (Err err, r1) => (Err (wrapError "error resetting drift" err), r1)
  | (Ok _, r1) => (Ok tt, r1)
  end.

Definition GetEnvironmentData (key : string) (r : redis.Server)
  : result (gmap string string) * redis.Server :=
  match redis.HGetAll key r with
  | (Err err, r1) =>
      (Err (wrapError "error retrieving environment data" err), r1)
  | (Ok data, r1) =>
      if decide (size data = 0%nat)
      then (Err (errorString ("no data found for key: " +:+ key)), r1)
      else (Ok data, r1)
  end.

Definition SetField (key field value : string) (r : redis.Server)
  : result unit * redis.Server :=
  match redis.HSet key field value r with
  | (Err err, r1) => (Err (wrapError ("error setting field " +:+ field) err), r1)
  | (Ok _, r1) => (Ok tt, r1)
  end.

Definition GetField (key field : string) (r : redis.Server)
  : result string * redis.Server :=
  match redis.HGet key field r with
  | (Err err, r1) =>
      if decide (err = redis.Nil) then (Ok "", r1)
      else (Err (wrapError ("error getting field " +:+ field) err), r1)
  | (Ok value, r1) => (Ok value, r1)
  end.

Definition StorePlanOutput (key planOutput : string) (r : redis.Server)
  : result unit * redis.Server :=
  match redis.HSet key "planOutput" planOutput r with
  | (Err err, r1) => (Err (wrapError "error storing plan output" err), r1)
  | (Ok _, r1) => (Ok tt, r1)
  end.

End RedisRepository.

(** [NewRedisRepository]: the repository as a [StorageRepository]. *)
Definition NewRedisRepository (DEFAULT_DRIFT_THRESHOLD : string)
  : StorageRepository redis.Server := {|
  InitializeEnvironment :=
    RedisRepository.InitializeEnvironment DEFAULT_DRIFT_THRESHOLD;
  UpdateOperationLog := RedisRepository.UpdateOperationLog;
  IncrementDrift := RedisRepository.IncrementDrift;
  ResetDrift := RedisRepository.ResetDrift;
  GetEnvironmentData := RedisRepository.GetEnvironmentData;
  SetField := RedisRepository.SetField;
  GetField := RedisRepository.GetField;
  StorePlanOutput := RedisRepository.StorePlanOutput;
|}.

(** ** internal/config *)

Module Config.
Record t : Type := {
  GitLabToken : string;
  GitLabBaseURL : string;
  ComparisonBranch : string;
  DriftThreshold : Z;
}.
End Config.

(** ** internal/client: the issue tracker interface and the GitLab client *)

Module Issue.
Record t : Type := {
  ID : Z;
  ProjectID : Z;
  Title : string;
  WebURL : string;
  State : string;
}.
End Issue.

(** [IssueTracker]: the three methods of the interface, over the state [T]
    of the tracker behind it. *)
Record IssueTrackerMethods (T : Type) : Type := {
  CreateIssue : Z -> string -> string -> T -> result Issue.t * T;
  CloseIssue : Z -> Z -> string -> T -> result unit * T;
  GetIssueStatus : Z -> Z -> T -> result bool * T;
}.
Arguments CreateIssue {T} _ _ _ _ _.
Arguments CloseIssue {T} _ _ _ _ _.
Arguments GetIssueStatus {T} _ _ _ _.

(** net/http and encoding/json, as the client uses them.  A request carries
    its JSON body as the object that json.Marshal writes; a response carries
    its status and what json.Decoder makes of its body. *)
Module http.

Inductive JSON : Type :=
| JString (s : string)
| JStrings (l : list string).

Record Request : Type := {
  Method : string;
  URL : string;
  Header : list (string * string);
  Body : list (string * JSON);
}.

Record Response : Type := {
  StatusCode : Z;
  Decoded : result Issue.t;
}.

(** [req.Header.Set]: the value of [name] is replaced, or added. *)
Definition Header_Set (name value : string) (req : Request) : Request :=
  {| Method := Method req; URL := URL req;
     Header := (name, value) ::
               filter (fun h => h.1 ≠ name) (Header req);
     Body := Body req |}.

End http.

(** What the GitLab client has of the Go runtime: http.NewRequestWithContext
    (which fails on a URL that does not parse), the Do of its http.Client
    against the server state [T], and time.Now, in the RFC1123 layout. *)
Record Transport (T : Type) : Type := {
  NewRequestWithContext :
    string -> string -> list (string * http.JSON) -> result http.Request;
  Do : http.Request -> T -> result http.Response * T;
  Now_RFC1123 : T -> string;
}.
Arguments NewRequestWithContext {T} _ _ _ _.
Arguments Do {T} _ _ _.
Arguments Now_RFC1123 {T} _ _.

Module GitLabClient.

Record t (T : Type) : Type := {
  httpClient : Transport T;
  baseURL : string;
  token : string;
}.
Arguments httpClient {T} _.
Arguments baseURL {T} _.
Arguments token {T} _.

Section Methods.
Context {T : Type}.
Variable g : t T.

Definition newline : string := String (ascii_of_nat 10) EmptyString.

(** Sprintf("%s/projects/%d/issues", ...) and Sprintf(".../issues/%d", ...) *)
Definition issues_url (projectID : Z) : string :=
  baseURL g +:+ "/projects/" +:+ strconv.Itoa projectID +:+ "/issues".

Definition issue_url (projectID issueID : Z) : string :=
  issues_url projectID +:+ "/" +:+ strconv.Itoa issueID.

(** [title,omitempty], [description], [labels,omitempty] of issueRequest *)
Definition issueRequest (title description : string) (labels : list string)
  : list (string * http.JSON) :=
  (if decide (title = "") then [] else [("title", http.JString title)]) ++
  [("description", http.JString description)] ++
  (match labels with [] => [] | _ => [("labels", http.JStrings labels)] end).

Definition non_success (code : Z) : bool := (code <? 200) || (300 <=? code).

Definition CreateIssue (projectID : Z) (title description : string) (s : T)
  : result Issue.t * T :=
  if decide (token g = "") then
    (Err (errorString "GITLAB_API_TOKEN environment variable not set"), s)
  else
    let issueReq := issueRequest title description ["drift-alert"; "automation"] in
    let url := issues_url projectID in
    match NewRequestWithContext (httpClient g) "POST" url issueReq with
    | Err err => (Err (wrapError "error creating request" err), s)
    | Ok req =>
        let req := http.Header_Set "Content-Type" "application/json" req in
        let req := http.Header_Set "PRIVATE-TOKEN" (token g) req in
        match Do (httpClient g) req s with
        | (Err err, s1) => (Err (wrapError "error sending request" err), s1)
        | (Ok resp, s1) =>
            if non_success (http.StatusCode resp) then
              (Err (errorString ("received non-success status code: " +:+
                                 strconv.Itoa (http.StatusCode resp))), s1)
            else
              match http.Decoded resp with
              | Err err => (Err (wrapError "error decoding response" err), s1)
              | Ok issueResp =>
                  (Ok {| Issue.ID := Issue.ID issueResp;
                         Issue.ProjectID := Issue.ProjectID issueResp;
                         Issue.Title := Issue.Title issueResp;
                         Issue.WebURL := Issue.WebURL issueResp;
                         Issue.State := Issue.State issueResp |}, s1)
              end
        end
    end.

Definition CloseIssue (projectID issueID : Z) (operation : string) (s : T)
  : result unit * T :=
  if decide (token g = "") then
    (Err (errorString "GITLAB_API_TOKEN environment variable not set"), s)
  else
    (* First, add a comment to the issue *)
    let commentURL := issue_url projectID issueID +:+ "/notes" in
    let commentRequest :=
      [("body", http.JString
         ("**Drift Resolved** - Infrastructure drift has been resolved through successful Terraform `" +:+
          operation +:+
          "` operation. Issue automatically closed by Drift Guardian."))] in
    match NewRequestWithContext (httpClient g) "POST" commentURL commentRequest with
    | Err err => (Err (wrapError "error creating comment request" err), s)
    | Ok req =>
        let req := http.Header_Set "PRIVATE-TOKEN" (token g) req in
        let req := http.Header_Set "Content-Type" "application/json" req in
        (* Continue with closing even if comment fails *)
        let s1 := (Do (httpClient g) req s).2 in
        (* Now close the issue *)
        let url := issue_url projectID issueID in
        let updateRequest := [("state_event", http.JString "close")] in
        match NewRequestWithContext (httpClient g) "PUT" url updateRequest with
        | Err err => (Err (wrapError "error creating close request" err), s1)
        | Ok req =>
            let req := http.Header_Set "PRIVATE-TOKEN" (token g) req in
            let req := http.Header_Set "Content-Type" "application/json" req in
            match Do (httpClient g) req s1 with
            | (Err err, s2) =>
                (Err (wrapError "error sending close request" err), s2)
            | (Ok resp, s2) =>
                if non_success (http.StatusCode resp) then
                  (Err (errorString
                          ("received non-success status code for close: " +:+
                           strconv.Itoa (http.StatusCode resp))), s2)
                else (Ok tt, s2)
            end
        end
    end.

Definition GetIssueStatus (projectID issueID : Z) (s : T) : result bool * T :=
  if decide (token g = "") then
    (Err (errorString "GITLAB_API_TOKEN environment variable not set"), s)
  else
    let url := issue_url projectID issueID in
    match NewRequestWithContext (httpClient g) "GET" url [] with
    | Err err => (Err (wrapError "error creating request" err), s)
    | Ok req =>
        let req := http.Header_Set "PRIVATE-TOKEN" (token g) req in
        match Do (httpClient g) req s with
        | (Err err, s1) => (Err (wrapError "error sending request" err), s1)
        | (Ok resp, s1) =>
            if http.StatusCode resp =? 404 then (Ok false, s1)
            else if non_success (http.StatusCode resp) then
              (Err (errorString ("received non-success status code: " +:+
                                 strconv.Itoa (http.StatusCode resp))), s1)
            else
              match http.Decoded resp with
              | Err err => (Err (wrapError "error decoding response" err), s1)
              | Ok issueResp =>
                  (Ok (bool_decide (Issue.State issueResp = "opened")), s1)
              end
        end
    end.

(** The body of a drift issue, up to the line that says who wrote it. *)
Definition drift_description (environment : string)
    (driftIncrement threshold : Z) (planOutput : string) : string :=
  let description :=
    "# Drift report for `" +:+ environment +:+ "` environment" +:+
    newline +:+ newline +:+
    "Environment **" +:+ environment +:+ "** has a drift increment of **" +:+
    strconv.Itoa driftIncrement +:+ "**, " +:+
    "which meets or exceeds the configured threshold of **" +:+
    strconv.Itoa threshold +:+ "**." +:+ newline +:+ newline +:+
    "Please investigate and address this drift as soon as possible." +:+
    newline +:+ newline in
  if decide (planOutput = "") then description
  else description +:+ "## Terraform Plan Output" +:+ newline +:+ newline +:+
       "```" +:+ newline +:+ planOutput +:+ newline +:+ "```" +:+
       newline +:+ newline.

Definition CreateDriftIssue (projectID : Z) (repoName environment : string)
    (driftIncrement threshold : Z) (planOutput : string) (s : T)
  : result Issue.t * T :=
  let title := "Drift: " +:+ environment in
  let description :=
    drift_description environment driftIncrement threshold planOutput +:+
    "*This issue was automatically created by Drift Guardian on " +:+
    Now_RFC1123 (httpClient g) s +:+ "*" in
  CreateIssue projectID title description s.

Definition UpdateIssueDescription (projectID issueID : Z)
    (repoName environment : string) (driftIncrement threshold : Z)
    (planOutput : string) (s : T) : result unit * T :=
  if decide (token g = "") then
    (Err (errorString "GITLAB_API_TOKEN environment variable not set"), s)
  else
    let description :=
      drift_description environment driftIncrement threshold planOutput +:+
      "*This issue was automatically updated by Drift Guardian on " +:+
      Now_RFC1123 (httpClient g) s +:+ "*" in
    let updateRequest := issueRequest "" description [] in
    let url := issue_url projectID issueID in
    match NewRequestWithContext (httpClient g) "PUT" url updateRequest with
    | Err err => (Err (wrapError "error creating request" err), s)
    | Ok req =>
        let req := http.Header_Set "Content-Type" "application/json" req in
        let req := http.Header_Set "PRIVATE-TOKEN" (token g) req in
        match Do (httpClient g) req s with
        | (Err err, s1) => (Err (wrapError "error sending request" err), s1)
        | (Ok resp, s1) =>
            if non_success (http.StatusCode resp) then
              (Err (errorString ("received non-success status code: " +:+
                                 strconv.Itoa (http.StatusCode resp))), s1)
            else (Ok tt, s1)
        end
    end.

End Methods.

(** [NewGitLabClient] *)
Definition NewGitLabClient {T} (transport : Transport T) (cfg : Config.t) : t T :=
  {| httpClient := transport;
     baseURL := Config.GitLabBaseURL cfg;
     token := Config.GitLabToken cfg |}.

End GitLabClient.

(** A value of the interface type [client.IssueTracker]: the pointer to a
    GitLab client, or a value of any other type that has the three methods.
    The type assertion of the service, to a pointer to [client.GitLabClient],
    succeeds on the first and on nothing else. *)
Inductive IssueTracker (T : Type) : Type :=
| GitLabClientPtr (g : GitLabClient.t T)
| OtherIssueTracker (m : IssueTrackerMethods T).
Arguments GitLabClientPtr {T} g.
Arguments OtherIssueTracker {T} m.

(** Method dispatch on a value of the interface. *)
Definition methods_of {T} (tr : IssueTracker T) : IssueTrackerMethods T :=
  match tr with
  | GitLabClientPtr g =>
      {| CreateIssue := GitLabClient.CreateIssue g;
         CloseIssue := GitLabClient.CloseIssue g;
         GetIssueStatus := GitLabClient.GetIssueStatus g |}
  | OtherIssueTracker m => m
  end.

(** ** internal/service: the records of the package *)

Module Payload.
Record t : Type := {
  RepoName : string;
  Branch : string;
  Environment : string;
  EnvironmentTier : string;
  DriftThreshold : string;
  ProjectID : string;
  Operation : string;
  ExitCode : Z;
  Scheduled : bool;
  Timestamp : string;
  PlanOutput : string;
}.
End Payload.

Module DriftResult.
Record t : Type := {
  EnvironmentTier : string;
  ProjectID : string;
  DriftIncrement : string;
  IssueID : string;
  IssueURL : string;
  Log : gmap string string;
}.
End DriftResult.

Module EnvironmentInfo.
Record t : Type := {
  RepoName : string;
  Environment : string;
  ProjectID : string;
  Key : string;
}.
End EnvironmentInfo.

(** ** The calls of the service through its two interfaces

    The storage calls are the eight methods of [StorageRepository].  The
    tracker calls are the two interface methods the service calls, and the two
    methods of the GitLab client it calls after its type assertion.  (The
    service has no call of the interface's [CreateIssue].) *)

Inductive Call : Type :=
| call_InitializeEnvironment (key tier projectID threshold : string)
| call_UpdateOperationLog (key timestamp operation : string)
| call_IncrementDrift (key : string)
| call_ResetDrift (key : string)
| call_GetEnvironmentData (key : string)
| call_SetField (key field value : string)
| call_GetField (key field : string)
| call_StorePlanOutput (key planOutput : string)
| call_GetIssueStatus (projectID issueID : Z)
| call_CloseIssue (projectID issueID : Z) (operation : string)
| call_CreateDriftIssue (projectID : Z) (repoName environment : string)
    (driftIncrement threshold : Z) (planOutput : string)
| call_UpdateIssueDescription (projectID issueID : Z)
    (repoName environment : string) (driftIncrement threshold : Z)
    (planOutput : string).

(** What a call returned. *)
Inductive Value : Type :=
| value_unit
| value_bool (b : bool)
| value_int (z : Z)
| value_string (s : string)
| value_map (m : gmap string string)
| value_issue (i : Issue.t).

Record Event : Type := {
  call : Call;
  returned : result Value;
}.

(** The system one report is processed against: the store, the tracker, and
    the calls made so far. *)
Record World (S T : Type) : Type := {
  store : S;
  tracker : T;
  trace : list Event;
}.
Arguments store {S T} _.
Arguments tracker {S T} _.
Arguments trace {S T} _.

(** ** Go's control flow: state, and return on error *)

Definition M (S T A : Type) : Type := World S T -> result A * World S T.

Definition ret {S T A} (a : A) : M S T A := fun w => (Ok a, w).

Definition bind {S T A B} (c : M S T A) (k : A -> M S T B) : M S T B :=
  fun w =>
    match c w with
    | (Ok a, w') => k a w'
    | (Err e, w') => (Err e, w')
    end.

Notation "x <- c ;; k" := (bind c (fun x => k))
  (at level 20, c at level 99, k at level 200, only parsing).

(** [if err != nil { return fmt.Errorf("msg: %w", err) }] around a call. *)
Definition wrapf {S T A} (msg : string) (c : M S T A) : M S T A :=
  fun w => let '(r, w') := c w in (wrap_result msg r, w').

(** [v, err := f()] with [err] still to be looked at: never returns early. *)
Definition observe {S T A} (c : M S T A) : M S T (result A) :=
  fun w => let '(r, w') := c w in (Ok r, w').

(** A pure step that can fail (strconv.Atoi). *)
Definition pure {S T A} (r : result A) : M S T A := fun w => (r, w).

Definition record {A} (c : Call) (inj : A -> Value) (r : result A) : Event :=
  {| call := c;
     returned := match r with Ok a => Ok (inj a) | Err e => Err e end |}.

(** A call of a storage method: it runs on the store, and is recorded. *)
Definition storage_call {S T A} (c : Call) (inj : A -> Value)
    (method : S -> result A * S) : M S T A :=
  fun w =>
    let '(r, s') := method (store w) in
    (r, {| store := s'; tracker := tracker w;
           trace := trace w ++ [record c inj r] |}).

(** A call of a tracker method. *)
Definition tracker_call {S T A} (c : Call) (inj : A -> Value)
    (method : T -> result A * T) : M S T A :=
  fun w =>
    let '(r, t') := method (tracker w) in
    (r, {| store := store w; tracker := t';
           trace := trace w ++ [record c inj r] |}).

Definition value_of_unit (_ : unit) : Value := value_unit.

(** ** internal/service/threshold.go *)

(** [ThresholdManager]: the interface, over the system [W] it reads. *)
Record ThresholdManager (W : Type) : Type := {
  CheckThreshold : string -> Z -> W -> result bool * W;
  GetThreshold : string -> W -> result Z * W;
}.
Arguments CheckThreshold {W} _ _ _ _.
Arguments GetThreshold {W} _ _ _.

Module ThresholdManagerImpl.

Record t (S : Type) : Type := {
  storage : StorageRepository S;
  config : Config.t;
}.
Arguments storage {S} _.
Arguments config {S} _.

Section Methods.
Context {S T : Type}.
Variable t0 : t S.

Definition GetThreshold (key : string) : M S T Z :=
  thresholdStr <- wrapf "failed to get drift threshold from storage"
    (storage_call (call_GetField key "driftThreshold") value_string
       (GetField (storage t0) key "driftThreshold")) ;;
  if decide (thresholdStr = "") then
    ret (Config.DriftThreshold (config t0))
  else
    threshold <- wrapf "invalid threshold value" (pure (strconv.Atoi thresholdStr)) ;;
    ret threshold.

Definition CheckThreshold (key : string) (currentDrift : Z) : M S T bool :=
  threshold <- wrapf "failed to get threshold" (GetThreshold key) ;;
  ret (threshold <=? currentDrift).

End Methods.
End ThresholdManagerImpl.

(** [NewThresholdManager] *)
Definition NewThresholdManager {S T} (storage : StorageRepository S)
    (cfg : Config.t) : ThresholdManager (World S T) :=
  let t0 := {| ThresholdManagerImpl.storage := storage;
               ThresholdManagerImpl.config := cfg |} in
  {| CheckThreshold := ThresholdManagerImpl.CheckThreshold t0;
     GetThreshold := ThresholdManagerImpl.GetThreshold t0 |}.

(** ** internal/service/drift.go *)

Module DriftServiceImpl.

Record t (S T : Type) : Type := {
  storage : StorageRepository S;
  issueTracker : IssueTracker T;
  threshold : ThresholdManager (World S T);
  config : Config.t;
}.
Arguments storage {S T} _.
Arguments issueTracker {S T} _.
Arguments threshold {S T} _.
Arguments config {S T} _.

(** [ValidatePayload]: nil, or the error of the first check that fails. *)
Definition ValidatePayload (payload : Payload.t) : option error :=
  if decide (Payload.RepoName payload = "") then
    Some (errorString "missing repoName in payload")
  else if decide (Payload.Branch payload = "") then
    Some (errorString "missing branchName in payload")
  else if decide (Payload.Environment payload = "") then
    Some (errorString "missing environment in payload")
  else if decide (Payload.EnvironmentTier payload = "") then
    Some (errorString "missing environmentTier in payload")
  else if decide (Payload.ProjectID payload = "") then
    Some (errorString "missing projectId in payload")
  else if decide (Payload.Operation payload = "") then
    Some (errorString "invalid terraform operation in payload")
  else None.

Definition GenerateKey (repoName environment : string) : string :=
  repoName +:+ ":" +:+ environment.

Section Methods.
Context {S T : Type}.
Variable d : t S T.

(** The condition of the increment (drift.go, line 114). *)
Definition escalates (payload : Payload.t) : bool :=
  Payload.Scheduled payload
  && bool_decide (Payload.Operation payload = "plan")
  && (Payload.ExitCode payload =? 2)
  && bool_decide (Payload.Branch payload = Config.ComparisonBranch (config d)).

(** The condition of the reset (drift.go, line 160). *)
Definition resolves (payload : Payload.t) : bool :=
  bool_decide (Payload.Operation payload = "apply")
  || (bool_decide (Payload.Operation payload = "plan")
      && (Payload.ExitCode payload =? 0)
      && bool_decide (Payload.Branch payload = Config.ComparisonBranch (config d))).

Definition HandleThresholdBreach (env : EnvironmentInfo.t) (driftCount : Z)
  : M S T unit :=
  let key := EnvironmentInfo.Key env in
  (* Check if threshold is exceeded *)
  exceeded <- wrapf "failed to check threshold"
    (CheckThreshold (threshold d) key driftCount) ;;
  if negb exceeded then ret tt
  else
    (* Convert project ID to integer *)
    projectID <- wrapf "invalid project ID"
      (pure (strconv.Atoi (EnvironmentInfo.ProjectID env))) ;;
    (* Check for existing issue *)
    existingIssueIDStr <- wrapf "failed to get existing issue ID"
      (storage_call (call_GetField key "issueID") value_string
         (GetField (storage d) key "issueID")) ;;
    let existingIssueID :=
      if decide (existingIssueIDStr = "") then 0
      else match strconv.Atoi existingIssueIDStr with
           | Ok n => n
           | Err _ => 0 (* Reset if conversion fails *)
           end in
    (* Get plan output if available: the error is dropped *)
    got <- observe
      (storage_call (call_GetField key "planOutput") value_string
         (GetField (storage d) key "planOutput")) ;;
    let planOutput := match got with Ok v => v | Err _ => "" end in
    (* Get threshold value *)
    thresholdValue <- wrapf "failed to get threshold value"
      (GetThreshold (threshold d) key) ;;
    (* Create new issue *)
    let create : M S T unit :=
      match issueTracker d with
      | GitLabClientPtr gitlabClient =>
          let repoName := EnvironmentInfo.RepoName env in
          let environment := EnvironmentInfo.Environment env in
          issue <- wrapf "failed to create drift issue"
            (tracker_call
               (call_CreateDriftIssue projectID repoName environment
                  driftCount thresholdValue planOutput) value_issue
               (GitLabClient.CreateDriftIssue gitlabClient projectID repoName
                  environment driftCount thresholdValue planOutput)) ;;
          (* Store issue details in Redis *)
          _ <- wrapf "failed to store issue ID"
            (storage_call
               (call_SetField key "issueID" (strconv.Itoa (Issue.ID issue)))
               value_of_unit
               (SetField (storage d) key "issueID" (strconv.Itoa (Issue.ID issue)))) ;;
          wrapf "failed to store issue URL"
            (storage_call (call_SetField key "issueURL" (Issue.WebURL issue))
               value_of_unit
               (SetField (storage d) key "issueURL" (Issue.WebURL issue)))
      | OtherIssueTracker _ => ret tt
      end in
    (* Check if existing issue is still open *)
    if 0 <? existingIssueID then
      isOpen <- wrapf "failed to check existing issue status"
        (tracker_call (call_GetIssueStatus projectID existingIssueID) value_bool
           (GetIssueStatus (methods_of (issueTracker d)) projectID existingIssueID)) ;;
      if isOpen then
        (* Update existing issue instead of creating new one *)
        match issueTracker d with
        | GitLabClientPtr gitlabClient =>
            let repoName := EnvironmentInfo.RepoName env in
            let environment := EnvironmentInfo.Environment env in
            wrapf "failed to update existing issue"
              (tracker_call
                 (call_UpdateIssueDescription projectID existingIssueID repoName
                    environment driftCount thresholdValue planOutput)
                 value_of_unit
                 (GitLabClient.UpdateIssueDescription gitlabClient projectID
                    existingIssueID repoName environment driftCount
                    thresholdValue planOutput))
        | OtherIssueTracker _ => ret tt
        end
      else create
    else create.

Definition ResetDriftIncrement (env : EnvironmentInfo.t) (operation : string)
  : M S T unit :=
  let key := EnvironmentInfo.Key env in
  (* Reset drift counter *)
  _ <- wrapf "failed to reset drift"
    (storage_call (call_ResetDrift key) value_of_unit
       (ResetDrift (storage d) key)) ;;
  (* Check for existing open issue that needs to be closed *)
  got <- observe
    (storage_call (call_GetField key "issueID") value_string
       (GetField (storage d) key "issueID")) ;;
  match got with
  | Err _ => ret tt (* No issue to close *)
  | Ok issueIDStr =>
      if decide (issueIDStr = "") then ret tt (* No issue to close *)
      else
        match strconv.Atoi issueIDStr with
        | Err _ => ret tt (* Invalid issue ID *)
        | Ok issueID =>
            if issueID <=? 0 then ret tt (* Invalid issue ID *)
            else
              projectID <- wrapf "invalid project ID"
                (pure (strconv.Atoi (EnvironmentInfo.ProjectID env))) ;;
              (* Check if issue is still open *)
              isOpen <- wrapf "failed to check issue status"
                (tracker_call (call_GetIssueStatus projectID issueID) value_bool
                   (GetIssueStatus (methods_of (issueTracker d)) projectID issueID)) ;;
              if isOpen then
                (* Close the issue *)
                _ <- wrapf "failed to delete issue"
                  (tracker_call (call_CloseIssue projectID issueID operation)
                     value_of_unit
                     (CloseIssue (methods_of (issueTracker d)) projectID issueID
                        operation)) ;;
                (* Clear issue details from Redis *)
                _ <- wrapf "failed to clear issue ID"
                  (storage_call (call_SetField key "issueID" "") value_of_unit
                     (SetField (storage d) key "issueID" "")) ;;
                wrapf "failed to clear issue URL"
                  (storage_call (call_SetField key "issueURL" "") value_of_unit
                     (SetField (storage d) key "issueURL" ""))
              else ret tt
        end
  end.

(** [ProcessDriftDetection]; [now] is time.Now() in the RFC3339 layout. *)
Definition ProcessDriftDetection (now : string) (payload : Payload.t)
  : M S T DriftResult.t :=
  (* Generate Redis key *)
  let key := GenerateKey (Payload.RepoName payload) (Payload.Environment payload) in
  (* Use configured default threshold if payload threshold is empty *)
  let threshold :=
    if decide (Payload.DriftThreshold payload = "")
    then strconv.Itoa (Config.DriftThreshold (config d))
    else Payload.DriftThreshold payload in
  (* Initialize environment if needed *)
  _ <- wrapf "failed to initialize environment"
    (storage_call
       (call_InitializeEnvironment key (Payload.EnvironmentTier payload)
          (Payload.ProjectID payload) threshold) value_bool
       (InitializeEnvironment (storage d) key (Payload.EnvironmentTier payload)
          (Payload.ProjectID payload) threshold)) ;;
  (* Update operation log *)
  let timestamp :=
    if decide (Payload.Timestamp payload = "") then now
    else Payload.Timestamp payload in
  _ <- wrapf "failed to update operation log"
    (storage_call
       (call_UpdateOperationLog key timestamp (Payload.Operation payload))
       value_of_unit
       (UpdateOperationLog (storage d) key timestamp (Payload.Operation payload))) ;;
  let env := {| EnvironmentInfo.RepoName := Payload.RepoName payload;
                EnvironmentInfo.Environment := Payload.Environment payload;
                EnvironmentInfo.ProjectID := Payload.ProjectID payload;
                EnvironmentInfo.Key := key |} in
  (* Handle drift increment for scheduled operations *)
  _ <- (if escalates payload then
         incrementVal <- wrapf "failed to increment drift"
           (storage_call (call_IncrementDrift key) value_int
              (IncrementDrift (storage d) key)) ;;
         (* Store plan output if provided *)
         _ <- (if decide (Payload.PlanOutput payload = "") then ret tt
              else wrapf "failed to store plan output"
                     (storage_call
                        (call_StorePlanOutput key (Payload.PlanOutput payload))
                        value_of_unit
                        (StorePlanOutput (storage d) key (Payload.PlanOutput payload)))) ;;
         (* Check threshold and create GitLab issue if needed *)
         wrapf "failed to handle threshold breach"
           (HandleThresholdBreach env incrementVal)
       else ret tt) ;;
  (* Reset drift increment for successful operations *)
  _ <- (if resolves payload then
         wrapf "failed to reset drift increment"
           (ResetDriftIncrement env (Payload.Operation payload))
       else ret tt) ;;
  (* Get final environment data *)
  environmentData <- wrapf "failed to get environment data"
    (storage_call (call_GetEnvironmentData key) value_map
       (GetEnvironmentData (storage d) key)) ;;
  let field (name : string) := default "" (environmentData !! name) in
  ret {| DriftResult.EnvironmentTier := field "environmentTier";
          DriftResult.ProjectID := field "projectID";
          DriftResult.DriftIncrement := field "driftIncrement";
          DriftResult.IssueID := field "issueID";
          DriftResult.IssueURL := field "issueURL";
          DriftResult.Log := {[ "log" := field "log" ]} |}.

End Methods.

(** [NewDriftService] *)
Definition NewDriftService {S T} (storage : StorageRepository S)
    (issueTracker : IssueTracker T) (threshold : ThresholdManager (World S T))
    (cfg : Config.t) : t S T :=
  {| storage := storage; issueTracker := issueTracker;
     threshold := threshold; config := cfg |}.

End DriftServiceImpl.

(** The service as cmd/server/main.go wires it: one storage for the service
    and for its threshold manager, one configuration for both. *)
Definition wire {S T} (storage : StorageRepository S)
    (issueTracker : IssueTracker T) (cfg : Config.t) : DriftServiceImpl.t S T :=
  DriftServiceImpl.NewDriftService storage issueTracker
    (NewThresholdManager storage cfg) cfg.

(** ** Runs and their traces *)

(** A run of a computation from a store and a tracker, with an empty trace:
    the trace of the world it ends in lists the calls of this run. *)
Definition run {S T A} (c : M S T A) (s : S) (t : T) : result A * World S T :=
  c {| store := s; tracker := t; trace := [] |}.

Definition result_of {S T A} (c : M S T A) (s : S) (t : T) : result A :=
  (run c s t).1.
Definition events_of {S T A} (c : M S T A) (s : S) (t : T) : list Event :=
  trace (run c s t).2.
Definition store_after {S T A} (c : M S T A) (s : S) (t : T) : S :=
  store (run c s t).2.
Definition tracker_after {S T A} (c : M S T A) (s : S) (t : T) : T :=
  tracker (run c s t).2.

Definition succeeded (e : Event) : bool :=
  match returned e with Ok _ => true | Err _ => false end.

(** The number of events of a trace that satisfy [P]. *)
Fixpoint count (P : Event -> bool) (evs : list Event) : nat :=
  match evs with
  | [] => 0
  | e :: rest => (if P e then 1 else 0) + count P rest
  end.

(** The calls of the tracker, and the calls that write to the store. *)
Definition is_tracker_call (c : Call) : bool :=
  match c with
  | call_GetIssueStatus _ _ | call_CloseIssue _ _ _
  | call_CreateDriftIssue _ _ _ _ _ _
  | call_UpdateIssueDescription _ _ _ _ _ _ _ => true
  | _ => false
  end.

Definition is_storage_write (c : Call) : bool :=
  match c with
  | call_InitializeEnvironment _ _ _ _ | call_UpdateOperationLog _ _ _
  | call_IncrementDrift _ | call_ResetDrift _ | call_SetField _ _ _
  | call_StorePlanOutput _ _ => true
  | _ => false
  end.

(** Weakest preconditions: [wp c Q w] when [c], run in [w], ends in a result
    and a world that satisfy [Q]. *)
Definition wp {S T A} (c : M S T A) (Q : result A -> World S T -> Prop)
    (w : World S T) : Prop :=
  Q (c w).1 (c w).2.

(** ** The validation gate, as the specification words it

    The six required fields by their JSON names, in the order of the checks;
    the first of them that is empty; and the error that names it. *)

Definition required_fields : list (string * (Payload.t -> string)) :=
  [ ("repoName", Payload.RepoName);
    ("branchName", Payload.Branch);
    ("environment", Payload.Environment);
    ("environmentTier", Payload.EnvironmentTier);
    ("projectId", Payload.ProjectID);
    ("operation", Payload.Operation) ].

Definition first_missing (payload : Payload.t) : option string :=
  fst <$> List.find (fun nf => bool_decide (nf.2 payload = "")) required_fields.

(** The error text for a field: its name between what comes before it in the
    message and what comes after. *)
Definition MissingField (name : string) : error :=
  errorString
    ((if decide (name = "operation") then "invalid terraform " else "missing ")
     +:+ name +:+ " in payload").

(** ** The record of a key in Redis *)

(** The value of a field of the record of [key], if the field is there. *)
Definition stored (r : redis.Server) (key name : string) : option string :=
  redis.hash (redis.db r) key !! name.

(** What the next command meets on its way to the server. *)
Definition next_fault (r : redis.Server) : option error := (redis.roundtrip r).1.

(** ** The threshold policy, as the specification words it

    The threshold of a record: the stored value when it is there and not
    empty, the process-wide default when it is absent or empty, and an
    invalid-threshold error when it is there and is not an integer. *)

Definition InvalidThresholdValue (cause : error) : error :=
  wrapError "invalid threshold value" cause.

Definition is_InvalidThresholdValue (r : result Z) : bool :=
  match r with
  | Err (wrapError msg _) => bool_decide (msg = "invalid threshold value")
  | _ => false
  end.

Definition threshold_of_record (default_threshold : Z) (value : option string)
  : result Z :=
  match value with
  | None => Ok default_threshold
  | Some v =>
      if decide (v = "") then Ok default_threshold
      else match strconv.Atoi v with
           | Ok n => Ok n
           | Err e => Err (InvalidThresholdValue e)
           end
  end.

(** [isBreached]: the count has reached the threshold. *)
Definition isBreached (threshold currentDriftCount : Z) : bool :=
  bool_decide (currentDriftCount >= threshold).




(** ** What a trace shows of the tracked issue *)







(** A write of [value] to the field [name] of the record of [key], and one
    that succeeded. *)
Definition writes (key name value : string) (e : Event) : bool :=
  match call e with
  | call_SetField k f v =>
      bool_decide (k = key) && bool_decide (f = name) && bool_decide (v = value)
  | _ => false
  end.

Definition wrote (key name value : string) (e : Event) : bool :=
  writes key name value e && succeeded e.

(** A write to the field [name] of any record, whatever the value. *)
Definition writes_field (name : string) (e : Event) : bool :=
  match call e with
  | call_SetField _ f _ => bool_decide (f = name)
  | _ => false
  end.

(** A read of the field [name] of the record of [key] that returned [value]. *)
Definition read (key name value : string) (e : Event) : bool :=
  match call e, returned e with
  | call_GetField k f, Ok (value_string v) =>
      bool_decide (k = key) && bool_decide (f = name) && bool_decide (v = value)
  | _, _ => false
  end.

(** The answers of the tracker to the status queries of a trace, the issues
    updated, the issues created and the fields written: what succeeded, in
    the order of the calls. *)
Definition status_answers (evs : list Event) : list (Z * Z * bool) :=
  omap (fun e => match call e, returned e with
                 | call_GetIssueStatus p i, Ok (value_bool b) => Some (p, i, b)
                 | _, _ => None
                 end) evs.

Definition updated_issues (evs : list Event) : list (Z * Z) :=
  omap (fun e => match call e, returned e with
                 | call_UpdateIssueDescription p i _ _ _ _ _, Ok _ => Some (p, i)
                 | _, _ => None
                 end) evs.

Definition created_issues (evs : list Event) : list (Z * Issue.t) :=
  omap (fun e => match call e, returned e with
                 | call_CreateDriftIssue p _ _ _ _ _, Ok (value_issue i) =>
                     Some (p, i)
                 | _, _ => None
                 end) evs.

Definition field_writes (evs : list Event) : list (string * string * string) :=
  omap (fun e => match call e, returned e with
                 | call_SetField k f v, Ok _ => Some (k, f, v)
                 | _, _ => None
                 end) evs.

(** The issue a record tracks: the number its issueID parses to, when there
    is one and it is positive. *)
Definition tracked_issue (value : option string) : option Z :=
  match value with
  | None => None
  | Some v =>
      match strconv.Atoi v with
      | Ok n => if 0 <? n then Some n else None
      | Err _ => None
      end
  end.

(** ** The two ways a breach ends without error, on Redis

    [breach_updates]: the tracker answered that issue [issueID] of project
    [projectID] is open; its description was updated, nothing was created,
    nothing was written to the store, and every record is as it was.
    [breach_creates]: one issue was created in the project; the decimal form
    of its id and its URL were written to issueID and issueURL of the record,
    which hold them afterwards; the stored id is then another than before,
    unless the string stored before already parsed to the id of the new
    issue. *)

Definition breach_updates (projectID issueID : Z) (evs : list Event)
    (r r' : redis.Server) : Prop :=
  status_answers evs = [(projectID, issueID, true)]
  /\ updated_issues evs = [(projectID, issueID)]
  /\ created_issues evs = []
  /\ field_writes evs = []
  /\ forall k f, stored r' k f = stored r k f.

Definition breach_creates (key : string) (projectID : Z) (evs : list Event)
    (r r' : redis.Server) : Prop :=
  exists issue : Issue.t,
    created_issues evs = [(projectID, issue)]
    /\ updated_issues evs = []
    /\ field_writes evs
       = [ (key, "issueID", strconv.Itoa (Issue.ID issue));
           (key, "issueURL", Issue.WebURL issue) ]
    /\ stored r' key "issueID" = Some (strconv.Itoa (Issue.ID issue))
    /\ stored r' key "issueURL" = Some (Issue.WebURL issue)
    /\ (strconv.in_int (Issue.ID issue) ->
        (forall v, stored r key "issueID" = Some v ->
                   strconv.Atoi v <> Ok (Issue.ID issue)) ->
        stored r' key "issueID" <> stored r key "issueID").

(** ** Test doubles

    The stand-ins the tests of the repository use: a Redis server with given
    records (redismock), an HTTP server that answers with canned responses
    (httptest), and an issue tracker that is not the GitLab client (a mock of
    the interface). *)

Module testing.

Definition redis_with (records : list (string * list (string * string)))
    (faults : list (option string)) : redis.Server :=
  {| redis.db := list_to_map ((fun kv => (kv.1, list_to_map kv.2)) <$> records);
     redis.faults := faults |}.

(** A server that answers the requests it gets with the responses it was
    given, in order, and with 404 once they are used up. *)
Definition httptest : Transport (list http.Response) :=
  {| NewRequestWithContext method url body :=
       Ok {| http.Method := method; http.URL := url; http.Header := [];
             http.Body := body |};
     Do _ responses :=
       match responses with
       | [] => (Ok {| http.StatusCode := 404;
                      http.Decoded := Err (errorString "EOF") |}, [])
       | resp :: rest => (Ok resp, rest)
       end;
     Now_RFC1123 _ := "Mon, 02 Jan 2006 15:04:05 MST" |}.

Definition issue_response (code iid projectID : Z) (url state : string)
  : http.Response :=
  {| http.StatusCode := code;
     http.Decoded := Ok {| Issue.ID := iid; Issue.ProjectID := projectID;
                           Issue.Title := "Drift: production";
                           Issue.WebURL := url; Issue.State := state |} |}.

(** A tracker of another type: it answers [is_open] to every status query,
    and counts the issues it was asked to close. *)
Definition MockIssueTracker (is_open : bool) : IssueTrackerMethods nat :=
  {| CreateIssue _ _ _ closed :=
       (Err (errorString "mock: CreateIssue is not expected"), closed);
     CloseIssue _ _ _ closed := (Ok tt, Datatypes.S closed);
     GetIssueStatus _ _ closed := (Ok is_open, closed) |}.

Definition cfg : Config.t :=
  {| Config.GitLabToken := "glpat-test";
     Config.GitLabBaseURL := "https://gitlab.example/api/v4";
     Config.ComparisonBranch := "main";
     Config.DriftThreshold := 1 |}.

Definition gitlab : IssueTracker (list http.Response) :=
  GitLabClientPtr (GitLabClient.NewGitLabClient httptest cfg).

(** The record of svc:prod with an issue tracked, and the environment of a
    report for it. *)
Definition tracked (issueID : string) : list (string * list (string * string)) :=
  [ ("svc:prod",
     [ ("driftThreshold", "1"); ("environmentTier", "prod");
       ("projectID", "42"); ("driftIncrement", "1");
       ("issueID", issueID);
       ("issueURL", "https://gitlab.example/42/issues/" +:+ issueID) ]) ].

Definition env (projectID : string) : EnvironmentInfo.t :=
  {| EnvironmentInfo.RepoName := "svc";
     EnvironmentInfo.Environment := "prod";
     EnvironmentInfo.ProjectID := projectID;
     EnvironmentInfo.Key := "svc:prod" |}.

(** The report of the example of the specification: a scheduled plan with
    changes on the comparison branch. *)
Definition drift_report : Payload.t :=
  {| Payload.RepoName := "svc"; Payload.Branch := "main";
     Payload.Environment := "prod"; Payload.EnvironmentTier := "prod";
     Payload.DriftThreshold := ""; Payload.ProjectID := "42";
     Payload.Operation := "plan"; Payload.ExitCode := 2;
     Payload.Scheduled := true; Payload.Timestamp := "2025-01-31T10:30:00Z";
     Payload.PlanOutput := "" |}.

Definition apply_report : Payload.t :=
  {| Payload.RepoName := "svc"; Payload.Branch := "main";
     Payload.Environment := "prod"; Payload.EnvironmentTier := "prod";
     Payload.DriftThreshold := ""; Payload.ProjectID := "42";
     Payload.Operation := "apply"; Payload.ExitCode := 0;
     Payload.Scheduled := false; Payload.Timestamp := "2025-01-31T11:00:00Z";
     Payload.PlanOutput := "" |}.

(** A report for the same record that carries another tier, another project
    and another threshold. *)
Definition other_report : Payload.t :=
  {| Payload.RepoName := "svc"; Payload.Branch := "main";
     Payload.Environment := "prod"; Payload.EnvironmentTier := "dev";
     Payload.DriftThreshold := "5"; Payload.ProjectID := "43";
     Payload.Operation := "plan"; Payload.ExitCode := 0;
     Payload.Scheduled := false; Payload.Timestamp := "2025-01-31T12:00:00Z";
     Payload.PlanOutput := "" |}.

(** Redis serves [n] commands, and the one after them is lost. *)
Definition lost_after (n : nat) (reason : string) : list (option string) :=
  replicate n None ++ [Some reason].

(** The answers of GitLab: no such issue, and issue [iid] of a project. *)
Definition not_found : http.Response :=
  {| http.StatusCode := 404; http.Decoded := Err (errorString "EOF") |}.

Definition issue (code iid projectID : Z) (state : string) : http.Response :=
  issue_response code iid projectID
    ("https://gitlab.example/" +:+ strconv.Itoa projectID +:+ "/issues/"
       +:+ strconv.Itoa iid)
    state.

End testing.

(** ** Errors that reach the caller *)

(** [wraps E x]: [E] is [x], or wraps it with %w, at any depth (errors.Is). *)
Inductive wraps : error -> error -> Prop :=
| wraps_refl (x : error) : wraps x x
| wraps_step (msg : string) (E x : error) : wraps E x -> wraps (wrapError msg E) x.

(** The event [e] did not fail, or its failure is one of the [dropped] ones,
    or its error reached the caller inside the result [res]. *)
Definition surfaced {A} (dropped : Call -> bool) (res : result A) (e : Event)
  : Prop :=
  match returned e with
  | Ok _ => True
  | Err x => dropped (call e) = true \/ exists E, res = Err E /\ wraps E x
  end.

(** The read of the field [name] of any record. *)
Definition reads_field (name : string) (c : Call) : bool :=
  match c with
  | call_GetField _ f => bool_decide (f = name)
  | _ => false
  end.

(** The calls of the breach procedure, and the calls of the reset procedure
    after the reset of the counter. *)
Definition breach_call (c : Call) : bool :=
  match c with
  | call_GetField _ _ | call_SetField _ _ _ | call_GetIssueStatus _ _
  | call_CreateDriftIssue _ _ _ _ _ _
  | call_UpdateIssueDescription _ _ _ _ _ _ _ => true
  | _ => false
  end.

Definition cleanup_call (c : Call) : bool :=
  match c with
  | call_GetField _ _ | call_SetField _ _ _ | call_GetIssueStatus _ _
  | call_CloseIssue _ _ _ => true
  | _ => false
  end.

(** The events of the steps of a report. *)
Definition is_IncrementDrift (e : Event) : bool :=
  match call e with call_IncrementDrift _ => true | _ => false end.

Definition is_ResetDrift (e : Event) : bool :=
  match call e with call_ResetDrift _ => true | _ => false end.

Definition increments (key : string) (e : Event) : bool :=
  match call e with
  | call_IncrementDrift k => bool_decide (k = key)
  | _ => false
  end.

Definition resets (key : string) (e : Event) : bool :=
  match call e with
  | call_ResetDrift k => bool_decide (k = key)
  | _ => false
  end.

(** The operation log was updated: step 3 went through, and step 2 before
    it. *)
Definition log_updated (e : Event) : bool :=
  match call e with
  | call_UpdateOperationLog _ _ _ => succeeded e
  | _ => false
  end.

(** The drift counter of a record, as HINCRBY reads it: 0 when the field is
    not there, the number it spells when it is a canonical integer. *)
Definition counter (value : option string) : option Z :=
  match value with
  | None => Some 0
  | Some v => redis.string2ll v
  end.

(** The two reads whose failure the service drops: the read of planOutput in
    the breach procedure (run for a report that escalates) and the read of
    issueID in the reset procedure (run for a report that resolves). *)
Definition dropped_read (escalates resolves : bool) (c : Call) : bool :=
  (escalates && reads_field "planOutput" c)
  || (resolves && reads_field "issueID" c).

(** ** Reports one after the other *)

(** The initialization of a report, and the initialization that created the
    record of [key]: it returned true. *)
Definition is_InitializeEnvironment (e : Event) : bool :=
  match call e with
  | call_InitializeEnvironment _ _ _ _ => true
  | _ => false
  end.

Definition initializes (key : string) (e : Event) : bool :=
  match call e, returned e with
  | call_InitializeEnvironment k _ _ _, Ok (value_bool true) =>
      bool_decide (k = key)
  | _, _ => false
  end.

(** The identity fields of a record. *)
Definition identity_field (name : string) : Prop :=
  name = "environmentTier" \/ name = "projectID" \/ name = "driftThreshold".

(** The threshold a report asks for: its own, or the process-wide default. *)
Definition effective_threshold (cfg : Config.t) (payload : Payload.t) : string :=
  if decide (Payload.DriftThreshold payload = "")
  then strconv.Itoa (Config.DriftThreshold cfg)
  else Payload.DriftThreshold payload.

(** The reports of a list, each with the time it is processed at, run one
    after the other against the same Redis and the same tracker; a report
    that fails does not stop the ones after it. *)
Fixpoint process_all {T : Type} (d : DriftServiceImpl.t redis.Server T)
    (reports : list (string * Payload.t)) (r : redis.Server) (t : T)
  : redis.Server * T :=
  match reports with
  | [] => (r, t)
  | (now, payload) :: rest =>
      let c := DriftServiceImpl.ProcessDriftDetection d now payload in
      process_all d rest (store_after c r t) (tracker_after c r t)
  end.

(** The events of these runs, in order. *)
Fixpoint events_of_all {T : Type} (d : DriftServiceImpl.t redis.Server T)
    (reports : list (string * Payload.t)) (r : redis.Server) (t : T)
  : list Event :=
  match reports with
  | [] => []
  | (now, payload) :: rest =>
      let c := DriftServiceImpl.ProcessDriftDetection d now payload in
      events_of c r t
        ++ events_of_all d rest (store_after c r t) (tracker_after c r t)
  end.

(** ** The repository against a server that every command reaches *)

(** The server with the data [d] and no fault ahead. *)
Definition reachable (d : gmap string (gmap string string)) : redis.Server :=
  {| redis.db := d; redis.faults := [] |}.

(** The record that [InitializeEnvironment] creates. *)
Definition initial_record (DEFAULT_DRIFT_THRESHOLD tier projectID threshold : string)
  : gmap string string :=
  {[ "driftThreshold" :=
       (if decide (threshold = "")
        then (if decide (DEFAULT_DRIFT_THRESHOLD = "") then "1"
              else DEFAULT_DRIFT_THRESHOLD)
        else threshold);
     "environmentTier" := tier;
     "projectID" := projectID;
     "driftIncrement" := "0" ]}.

(** [n] calls of [IncrementDrift] one after the other: what they return, in
    order, and the server after them. *)
Fixpoint IncrementDrift_times (n : nat) (key : string) (r : redis.Server)
  : list (result Z) * redis.Server :=
  match n with
  | O => ([], r)
  | S n' =>
      let '(res, r1) := RedisRepository.IncrementDrift key r in
      let '(rest, r2) := IncrementDrift_times n' key r1 in
      (res :: rest, r2)
  end.
(** ** Keys, and reports that call for nothing *)

(** The string holds the byte [c]. *)
Fixpoint has_byte (c : ascii) (s : string) : bool :=
  match s with
  | EmptyString => false
  | String a rest => bool_decide (a = c) || has_byte c rest
  end.


(** The entry that [UpdateOperationLog] writes. *)
Definition logEntry (timestamp operation : string) : string :=
  "{" +:+ RedisRepository.dquote +:+ "timestamp" +:+ RedisRepository.dquote +:+
  ": " +:+ RedisRepository.dquote +:+ timestamp +:+ RedisRepository.dquote +:+
  ", " +:+ RedisRepository.dquote +:+ "operation" +:+ RedisRepository.dquote +:+
  ": " +:+ RedisRepository.dquote +:+ operation +:+ RedisRepository.dquote +:+ "}".

(** The result that mirrors the record [h]. *)
Definition result_of_record (h : gmap string string) : DriftResult.t :=
  let field (name : string) := default "" (h !! name) in
  {| DriftResult.EnvironmentTier := field "environmentTier";
     DriftResult.ProjectID := field "projectID";
     DriftResult.DriftIncrement := field "driftIncrement";
     DriftResult.IssueID := field "issueID";
     DriftResult.IssueURL := field "issueURL";
     DriftResult.Log := {[ "log" := field "log" ]} |}.

(** The counter that the service keeps: absent, or the canonical decimal form
    of an integer that is not negative. *)
Definition counter_in_order (value : option string) : bool :=
  match counter value with
  | Some n => 0 <=? n
  | None => false
  end.

(** ** The requests of the GitLab client *)

(** A transport that keeps the requests it was asked to send, in order (the
    handler of an httptest server that captures what it gets). *)
Definition recording {T} (tr : Transport T) : Transport (T * list http.Request) :=
  {| NewRequestWithContext := NewRequestWithContext tr;
     Do req s := let '(resp, s') := Do tr req s.1 in (resp, (s', s.2 ++ [req]));
     Now_RFC1123 s := Now_RFC1123 tr s.1 |}.

(** http.NewRequestWithContext on a method and a URL that it accepts. *)
Definition accepts_requests {T} (tr : Transport T) : Prop :=
  forall method url body,
    NewRequestWithContext tr method url body
    = Ok {| http.Method := method; http.URL := url; http.Header := [];
            http.Body := body |}.

Definition token_missing : error :=
  errorString "GITLAB_API_TOKEN environment variable not set".

(** A status in the 2xx range. *)
Definition success (code : Z) : Prop := 200 <= code < 300.

(** ** internal/handler: the /environments endpoint

    The handler sees the drift service and the response writer through their
    interfaces.  A request is what the server reads of it: its method, what
    io.ReadAll makes of its body, and what r.Header.Get gives for its
    Authorization header (the empty string when it has none).  json.Unmarshal, the text of an error
    (its Error method) and http.Error belong to the Go library and are
    parameters of the handler.  The calls of the writer are recorded, as the
    calls of the storage and of the tracker are. *)

(** [err.Error()]: the message of [fmt.Errorf], with the message of the
    wrapped error where the format ends in [: %w]; [Quote] is strconv.Quote,
    which the message of a [*strconv.NumError] shows the input with. *)
Fixpoint Error_ (Quote : string -> string) (e : error) : string :=
  match e with
  | errorString msg => msg
  | wrapError msg err => msg +:+ ": " +:+ Error_ Quote err
  | NumError func num kind =>
      "strconv." +:+ func +:+ ": " +:+ "parsing " +:+ Quote num +:+ ": " +:+
      match kind with
      | ErrSyntax => "invalid syntax"
      | ErrRange => "value out of range"
      end
  end.

Module handler.

Record Request : Type := {
  Method : string;
  Body : result string;
  Authorization : string;
}.

(** [service.DriftService], over the system [X] behind the service. *)
Record DriftService (X : Type) : Type := {
  ProcessDriftDetection : Payload.t -> X -> result DriftResult.t * X;
  ValidatePayload : Payload.t -> option error;
  GenerateKey : string -> string -> string;
  HandleThresholdBreach : EnvironmentInfo.t -> Z -> X -> result unit * X;
  ResetDriftIncrement : EnvironmentInfo.t -> string -> X -> result unit * X;
}.
Arguments ProcessDriftDetection {X} _ _ _.
Arguments ValidatePayload {X} _ _.
Arguments GenerateKey {X} _ _ _.
Arguments HandleThresholdBreach {X} _ _ _ _.
Arguments ResetDriftIncrement {X} _ _ _ _.

(** [ResponseWriter], over the state [W] of the http.ResponseWriter it
    writes to; the payload the handler hands over is a string. *)
Record ResponseWriter (W : Type) : Type := {
  WriteSuccess : W -> string -> gmap string string -> result unit * W;
  WriteError : W -> string -> Z -> result unit * W;
}.
Arguments WriteSuccess {W} _ _ _ _.
Arguments WriteError {W} _ _ _ _.

(** The calls that write a response. *)
Inductive Written : Type :=
| call_WriteError (message : string) (statusCode : Z)
| call_WriteSuccess (payload : string) (headers : gmap string string)
| call_http_Error (error : string) (code : Z).

Record World (X W : Type) : Type := {
  system : X;
  w : W;
  written : list Written;
}.
Arguments system {X W} _.
Arguments w {X W} _.
Arguments written {X W} _.

Record EnvironmentHandlerImpl (X W : Type) : Type := {
  driftService : DriftService X;
  writer : ResponseWriter W;
}.
Arguments driftService {X W} _.
Arguments writer {X W} _.

Definition NewEnvironmentHandler {X W} (driftService : DriftService X)
    (writer : ResponseWriter W) : EnvironmentHandlerImpl X W :=
  {| driftService := driftService; writer := writer |}.

Section HandleEnvironments.
Context {X W : Type}.
Variable Unmarshal : string -> result Payload.t.
Variable Quote : string -> string.
Variable http_Error : string -> Z -> W -> W.
Variable h : EnvironmentHandlerImpl X W.

(** [_ = h.writer.WriteError(w, message, statusCode); return] *)
Definition respond_error (message : string) (statusCode : Z) (hw : World X W)
  : World X W :=
  {| system := system hw;
     w := (WriteError (writer h) (w hw) message statusCode).2;
     written := written hw ++ [call_WriteError message statusCode] |}.

(** The headers of the response: the fields of the result that are set. *)
Definition response_headers (result : DriftResult.t) : gmap string string :=
  let set (name value : string) (headers : gmap string string) :=
    if decide (value = "") then headers else <[name := value]> headers in
  set "X-Issue-URL" (DriftResult.IssueURL result)
    (set "X-Issue-ID" (DriftResult.IssueID result)
       (set "X-Project-ID" (DriftResult.ProjectID result)
          (set "X-Drift-Increment" (DriftResult.DriftIncrement result)
             (set "X-Environment-Tier" (DriftResult.EnvironmentTier result) ∅)))).

(** The body of the response; the two characters after the name of the
    environment are a backslash and an n. *)
Definition response_body (payload : Payload.t) (result : DriftResult.t) : string :=
  let quoted (name value : string) :=
    RedisRepository.dquote +:+ name +:+ RedisRepository.dquote +:+ ": " +:+
    RedisRepository.dquote +:+ value +:+ RedisRepository.dquote in
  "Environment values retrieved for repository: " +:+ Payload.RepoName payload +:+
  ", environment: " +:+ Payload.Environment payload +:+
  String (ascii_of_nat 92) "nValues: {" +:+
  quoted "environmentTier" (DriftResult.EnvironmentTier result) +:+ ", " +:+
  quoted "projectID" (DriftResult.ProjectID result) +:+ ", " +:+
  quoted "driftIncrement" (DriftResult.DriftIncrement result) +:+ ", " +:+
  quoted "issueID" (DriftResult.IssueID result) +:+ ", " +:+
  quoted "issueURL" (DriftResult.IssueURL result) +:+ ", " +:+
  RedisRepository.dquote +:+ "log" +:+ RedisRepository.dquote +:+ ": " +:+
  default "" (DriftResult.Log result !! "log") +:+ "}".

Definition HandleEnvironments (r : Request) (hw : World X W) : World X W :=
  (* Only accept POST requests *)
  if decide (Method r <> "POST") then
    respond_error "Method not allowed" 405 hw
  else
    (* Read the request body *)
    match Body r with
    | Err _ => respond_error "Error reading request body" 400 hw
    | Ok body =>
        (* Parse the JSON payload *)
        match Unmarshal body with
        | Err _ => respond_error "Error parsing JSON payload" 400 hw
        | Ok payload =>
            (* Validate the payload *)
            match ValidatePayload (driftService h) payload with
            | Some err => respond_error (Error_ Quote err) 400 hw
            | None =>
                (* Process drift detection *)
                match ProcessDriftDetection (driftService h) payload (system hw) with
                | (Err err, x) =>
                    respond_error (Error_ Quote err) 500
                      {| system := x; w := w hw; written := written hw |}
                | (Ok result, x) =>
                    let headers := response_headers result in
                    let responseBody := response_body payload result in
                    (* Write successful response *)
                    let '(err, w1) :=
                      WriteSuccess (writer h) (w hw) responseBody headers in
                    let written1 :=
                      written hw ++ [call_WriteSuccess responseBody headers] in
                    match err with
                    | Ok _ => {| system := x; w := w1; written := written1 |}
                    | Err _ =>
                        (* Fallback error response *)
                        {| system := x;
                           w := http_Error "Internal server error" 500 w1;
                           written := written1 ++
                             [call_http_Error "Internal server error" 500] |}
                    end
                end
            end
        end
    end.

End HandleEnvironments.

End handler.

(** The drift service behind the interface; [now] is what time.Now() gives
    while the report is processed. *)
Definition DriftService_of {S T} (now : string) (d : DriftServiceImpl.t S T)
  : handler.DriftService (World S T) :=
  {| handler.ProcessDriftDetection :=
       DriftServiceImpl.ProcessDriftDetection d now;
     handler.ValidatePayload := DriftServiceImpl.ValidatePayload;
     handler.GenerateKey := DriftServiceImpl.GenerateKey;
     handler.HandleThresholdBreach := DriftServiceImpl.HandleThresholdBreach d;
     handler.ResetDriftIncrement := DriftServiceImpl.ResetDriftIncrement d |}.

(** The status of a response, as the call that wrote it tells it. *)
Definition status_of (c : handler.Written) : Z :=
  match c with
  | handler.call_WriteError _ statusCode => statusCode
  | handler.call_WriteSuccess _ _ => 200
  | handler.call_http_Error _ code => code
  end.

(** The report that a request carries, when it carries one that the
    validation accepts. *)
Definition accepted_report {X} (Unmarshal : string -> result Payload.t)
    (service : handler.DriftService X) (r : handler.Request) : option Payload.t :=
  if decide (handler.Method r = "POST") then
    match handler.Body r with
    | Ok body =>
        match Unmarshal body with
        | Ok payload =>
            match handler.ValidatePayload service payload with
            | None => Some payload
            | Some _ => None
            end
        | Err _ => None
        end
    | Err _ => None
    end
  else None.

(** A field that is set: there, and not the empty string. *)
Definition nonempty (value : string) : option string :=
  if decide (value = "") then None else Some value.

(** ** internal/config and internal/middleware: bearer token authentication

    [config.Config] is the whole configuration; [Config.t] above is what the
    service layer and the GitLab client read of it.  strings.TrimSpace is a
    parameter of the middleware, http.Error of a response is recorded as the
    handler's is. *)

Module config.

Record Config : Type := {
  LogLevel : string;
  EnableAuthentication : bool;
  BearerToken : string;
  RedisURL : string;
  GitLabToken : string;
  GitLabBaseURL : string;
  GitLabSkipTLS : bool;
  ComparisonBranch : string;
  DriftThreshold : Z;
  Port : string;
}.

End config.

Module middleware.

(** [s[n:]], for [n] within the string. *)
Fixpoint slice_from (n : nat) (s : string) : string :=
  match n, s with
  | O, _ => s
  | Datatypes.S n', String _ s' => slice_from n' s'
  | Datatypes.S _, EmptyString => EmptyString
  end.

Definition bearerPrefix : string := "Bearer ".

(** [validateToken]: no token is valid when none is configured. *)
Definition validateToken (token expectedToken : string) : bool :=
  if decide (expectedToken = "") then false
  else bool_decide (token = expectedToken).

Section AuthenticationMiddleware.
Context {X W : Type}.
Variable TrimSpace : string -> string.
Variable http_Error : string -> Z -> W -> W.

Definition extractBearerToken (r : handler.Request) : string :=
  let authHeader := handler.Authorization r in
  if decide (authHeader = "") then ""
  else if negb (String.prefix bearerPrefix authHeader) then ""
  else TrimSpace (slice_from (String.length bearerPrefix) authHeader).

(** [http.Error(w, message, http.StatusUnauthorized); return] *)
Definition unauthorized (message : string) (hw : handler.World X W)
  : handler.World X W :=
  {| handler.system := handler.system hw;
     handler.w := http_Error message 401 (handler.w hw);
     handler.written :=
       handler.written hw ++ [handler.call_http_Error message 401] |}.

Definition AuthenticationMiddleware (cfg : config.Config)
    (next : handler.Request -> handler.World X W -> handler.World X W)
    (r : handler.Request) (hw : handler.World X W) : handler.World X W :=
  (* Check if authentication is enabled *)
  if negb (config.EnableAuthentication cfg) then next r hw
  else
    (* Extract bearer token from Authorization header *)
    let token := extractBearerToken r in
    if decide (token = "") then
      unauthorized "Unauthorized: Bearer token required" hw
    else if negb (validateToken token (config.BearerToken cfg)) then
      unauthorized "Unauthorized: Invalid token" hw
    else
      (* Authentication successful, proceed to next handler *)
      next r hw.

End AuthenticationMiddleware.

End middleware.

(** A request that carries [token] as its bearer token: its Authorization
    header is the prefix followed by text that trims to the token. *)
Definition carries_token (TrimSpace : string -> string) (r : handler.Request)
    (token : string) : Prop :=
  exists rest,
    handler.Authorization r = middleware.bearerPrefix +:+ rest
    /\ TrimSpace rest = token.

(** ** ci: the command-line wrapper of terraform

    The wrapper runs terraform with the arguments it was given and reports
    the run to the /environments endpoint.  Its inputs are what flag.Parse
    makes of the command line and the environment of the process; terraform
    and the service are parameters.  debugLog and the other prints have no
    effect on what follows and are left out. *)

Module ci.

(** The payload of the wrapper, with the JSON tags of [service.Payload]. *)
Record Payload : Type := {
  RepoName : string;
  Branch : string;
  Environment : string;
  EnvironmentTier : string;
  DriftThreshold : string;
  ProjectID : string;
  Operation : string;
  ExitCode : Z;
  Scheduled : bool;
  Timestamp : string;
  PlanOutput : string;
}.

(** [strconv.ParseBool] *)
Definition ParseBool (str : string) : result bool :=
  if bool_decide (str ∈ ["1"; "t"; "T"; "TRUE"; "true"; "True"]) then Ok true
  else if bool_decide (str ∈ ["0"; "f"; "F"; "FALSE"; "false"; "False"]) then
    Ok false
  else Err (NumError "ParseBool" str ErrSyntax).

(** [os.Getenv]: the value of the variable, empty when it is not set. *)
Definition Getenv (env : gmap string string) (key : string) : string :=
  default "" (env !! key).

(** The three flags, and [flag.Args()]. *)
Record Flags : Type := {
  terraform_version : string;
  drift_endpoint : string;
  drift_scheduled : bool;
  Args : list string;
}.

(** What [flag.Parse] makes of the command line.  The flag set of the
    command line exits on errors: flag.Parse returns when it has accepted the
    flags, and ends the process otherwise, with status 0 when the error is
    flag.ErrHelp (-h or -help, which are not defined) and with status 2 for
    any other error (a flag that is not defined, a flag without its value, a
    value that does not parse). *)
Inductive Parse : Type :=
| ErrHelp
| ParseError
| Parsed (flags : Flags).

(** The error of [cmd.Run]: an [*exec.ExitError] with its exit code, or
    another error (the command could not be started, or its output could not
    be copied). *)
Inductive RunError : Type :=
| ExitError (ExitCode : Z)
| OtherError.

Record Run : Type := {
  Stdout : string;
  Stderr : string;
  err : option RunError;
}.

(** The request of the webhook, with the payload that json.Marshal wrote
    into its body. *)
Record Request : Type := {
  Method : string;
  URL : string;
  Header : list (string * string);
  Body : Payload;
}.

(** What is behind [client.Do]: the state [N] of the service and of the
    network, the requests that were handed to it with what came back (the
    status of the response, or an error), and the seconds slept. *)
Record Net (N : Type) : Type := {
  server : N;
  requests : list (Request * result Z);
  slept : list Z;
}.
Arguments server {N} _.
Arguments requests {N} _.
Arguments slept {N} _.

Section sendWebhook.
Context {N : Type}.
(** [url.Parse], the one way for http.NewRequest to fail here. *)
Variable url_Parse : string -> option error.
Variable Do : Request -> N -> result Z * N.

Definition NewRequest (method url : string) (body : Payload) : result Request :=
  match url_Parse url with
  | Some e => Err e
  | None => Ok {| Method := method; URL := url; Header := []; Body := body |}
  end.

Definition Header_Set (name value : string) (req : Request) : Request :=
  {| Method := Method req; URL := URL req;
     Header := (name, value) :: filter (fun h => h.1 ≠ name) (Header req);
     Body := Body req |}.

(** The loop of sendWebhook from attempt [i] on; [left] is [3 - i]. *)
Fixpoint attempts (req : Request) (left : nat) (i : Z) (n : Net N) : Net N :=
  match left with
  | O => n
  | Datatypes.S left' =>
      let '(resp, server1) := Do req (server n) in
      let n1 := {| server := server1;
                   requests := requests n ++ [(req, resp)];
                   slept := slept n |} in
      let retry :=
        if i <? 2 then
          (* Wait before retrying (exponential backoff) *)
          let backoff := Z.shiftl 1 i in
          attempts req left' (i + 1)
            {| server := server n1; requests := requests n1;
               slept := slept n1 ++ [backoff] |}
        else n1 in
      match resp with
      | Err _ => retry
      | Ok StatusCode =>
          if (StatusCode <? 200) || (300 <=? StatusCode) then retry else n1
      end
  end.

(** json.Marshal has no error on a [Payload]. *)
Definition sendWebhook (endpoint : string) (payload : Payload) (n : Net N)
  : Net N :=
  match NewRequest "POST" (endpoint +:+ "/environments") payload with
  | Err _ => n
  | Ok req =>
      let req := Header_Set "Content-Type" "application/json" req in
      attempts req 3 0 n
  end.

End sendWebhook.

(** What a run of the wrapper leaves: its exit status, the commands it ran
    (with their arguments and environment), and the network. *)
Record Exit (N : Type) : Type := {
  status : Z;
  commands : list (string * list string * gmap string string);
  net : Net N;
}.
Arguments status {N} _.
Arguments commands {N} _.
Arguments net {N} _.

Definition maxOutputSize : nat := Z.to_nat 50000.

Definition truncated : string :=
  String (ascii_of_nat 10)
    ("... [output truncated due to size]" +:+ String (ascii_of_nat 10) "").

Section main.
Context {N : Type}.
Variable url_Parse : string -> option error.
Variable Do : Request -> N -> result Z * N.
(** [exec.Command(name, args...).Run()] in an environment. *)
Variable exec_Command : string -> list string -> gmap string string -> Run.
(** [time.Now().Format(time.RFC3339)] *)
Variable now : string.

Definition exitCode_of (err : option RunError) : Z :=
  match err with
  | None => 0
  | Some (ExitError code) => code
  | Some OtherError => 1
  end.

Definition main (parse : Parse) (env : gmap string string) (n : Net N) : Exit N :=
  (* Parse command line flags *)
  match parse with
  | ErrHelp => {| status := 0; commands := []; net := n |}
  | ParseError => {| status := 2; commands := []; net := n |}
  | Parsed flags =>
  let tfArgs := Args flags in
  match tfArgs with
  | [] => {| status := 1; commands := []; net := n |}
  | operation :: rest =>
      (* For 'plan' operation, ensure -detailed-exitcode is included *)
      let tfArgs :=
        if decide (operation = "plan") then
          if bool_decide ("-detailed-exitcode" ∈ rest) then tfArgs
          else tfArgs ++ ["-detailed-exitcode"]
        else tfArgs in
      let endpoint :=
        if decide (drift_endpoint flags = "") then
          Getenv env "DRIFT_GUARDIAN_ENDPOINT"
        else drift_endpoint flags in
      let terraformVersion :=
        if decide (terraform_version flags = "") then
          Getenv env "TERRAFORM_VERSION"
        else terraform_version flags in
      let env := <["TFENV_TERRAFORM_VERSION" := terraformVersion]> env in
      let scheduled :=
        if drift_scheduled flags then true
        else
          let scheduledEnv := Getenv env "SCHEDULED" in
          if decide (scheduledEnv = "") then false
          else match ParseBool scheduledEnv with
               | Ok parsedValue => parsedValue
               | Err _ => false
               end in
      let or_default (value : string) :=
        if decide (value = "") then "default" else value in
      let projectID := or_default (Getenv env "CI_PROJECT_ID") in
      let repoName :=
        if decide (Getenv env "CI_PROJECT_NAME" = "") then
          or_default (Getenv env "CI_PROJECT_TITLE")
        else Getenv env "CI_PROJECT_NAME" in
      let environment := or_default (Getenv env "CI_ENVIRONMENT_NAME") in
      let environmentTier := or_default (Getenv env "CI_ENVIRONMENT_TIER") in
      let driftThreshold := Getenv env "DRIFT_THRESHOLD" in
      let branchName := or_default (Getenv env "CI_COMMIT_BRANCH") in
      let terraformBinary :=
        if decide (Getenv env "TERRAFORM_BINARY" = "") then "terraform"
        else Getenv env "TERRAFORM_BINARY" in
      (* Create and execute the terraform command *)
      let cmd := exec_Command terraformBinary tfArgs env in
      let '(planOutput, exitCode) :=
        if decide (operation = "plan") then
          (Stdout cmd +:+ Stderr cmd, exitCode_of (err cmd))
        else ("", exitCode_of (err cmd)) in
      (* If endpoint is configured, send webhook to track drift *)
      let n :=
        if decide (endpoint = "") then n
        else
          let payload :=
            {| RepoName := repoName;
               Branch := branchName;
               Environment := environment;
               EnvironmentTier := environmentTier;
               DriftThreshold := driftThreshold;
               ProjectID := projectID;
               Operation := operation;
               ExitCode := exitCode;
               Scheduled := scheduled;
               Timestamp := now;
               PlanOutput :=
                 (* Add plan output for plan operations with drift detected *)
                 if bool_decide (operation = "plan") && (exitCode =? 2) then
                   if (maxOutputSize <? String.length planOutput)%nat then
                     substring 0 maxOutputSize planOutput +:+ truncated
                   else planOutput
                 else "" |} in
          if bool_decide (operation = "plan") || bool_decide (operation = "apply")
             || bool_decide (operation = "destroy") then
            sendWebhook url_Parse Do endpoint payload n
          else n in
      {| status := match err cmd with
                   | Some OtherError => 1
                   | _ => 0
                   end;
         commands := [(terraformBinary, tfArgs, env)];
         net := n |}
  end
  end.

End main.

End ci.

(** The payload that the service reads from the JSON of the wrapper's: the
    two structs have the same tags. *)
Definition received (payload : ci.Payload) : Payload.t :=
  {| Payload.RepoName := ci.RepoName payload;
     Payload.Branch := ci.Branch payload;
     Payload.Environment := ci.Environment payload;
     Payload.EnvironmentTier := ci.EnvironmentTier payload;
     Payload.DriftThreshold := ci.DriftThreshold payload;
     Payload.ProjectID := ci.ProjectID payload;
     Payload.Operation := ci.Operation payload;
     Payload.ExitCode := ci.ExitCode payload;
     Payload.Scheduled := ci.Scheduled payload;
     Payload.Timestamp := ci.Timestamp payload;
     Payload.PlanOutput := ci.PlanOutput payload |}.

(** An answer that makes sendWebhook try again: an error, or a status
    outside of the 2xx range. *)
Definition failed (answer : result Z) : bool :=
  match answer with
  | Err _ => true
  | Ok code => (code <? 200) || (300 <=? code)
  end.

(** ** More test doubles *)

Module fixtures.

(** The records of the tests, as the data of a server. *)
Definition tracked (issueID : string) : gmap string (gmap string string) :=
  redis.db (testing.redis_with (testing.tracked issueID) []).

(** A record whose threshold does not spell a number. *)
Definition unreadable_threshold : gmap string (gmap string string) :=
  redis.db (testing.redis_with
              [("svc:prod", [("driftThreshold", "many");
                             ("environmentTier", "prod");
                             ("projectID", "42");
                             ("driftIncrement", "1")])] []).

(** A report that neither escalates nor resolves. *)
Definition destroy_report : Payload.t :=
  {| Payload.RepoName := "svc"; Payload.Branch := "main";
     Payload.Environment := "prod"; Payload.EnvironmentTier := "prod";
     Payload.DriftThreshold := ""; Payload.ProjectID := "42";
     Payload.Operation := "destroy"; Payload.ExitCode := 0;
     Payload.Scheduled := false; Payload.Timestamp := "2025-01-31T13:00:00Z";
     Payload.PlanOutput := "" |}.

(** A request whose body decodes to the destroy report, a decoder that knows
    this one body, and a writer that never fails. *)
Definition post : handler.Request :=
  {| handler.Method := "POST"; handler.Body := Ok "destroy";
     handler.Authorization := "" |}.

Definition Unmarshal (body : string) : result Payload.t :=
  if decide (body = "destroy") then Ok destroy_report
  else Err (errorString "unexpected end of JSON input").

Definition writer : handler.ResponseWriter unit :=
  {| handler.WriteSuccess w _ _ := (Ok tt, w);
     handler.WriteError w _ _ := (Ok tt, w) |}.

Definition is_WriteSuccess (c : option handler.Written) : bool :=
  match c with
  | Some (handler.call_WriteSuccess _ _) => true
  | _ => false
  end.

End fixtures.

(** * Properties *)

(** ** strconv: printing and parsing are inverse on [int] *)

Section strconv_facts.
Import strconv.

Lemma string_of_uint_first (d : Decimal.uint) :
  d <> Decimal.Nil ->
  exists c rest, NilEmpty.string_of_uint d = String c rest
                 /\ c <> "+"%char /\ c <> "-"%char.
Proof.
  destruct d; intros Hd; try congruence; simpl; eexists _, _;
    (split; [reflexivity | split; discriminate]).
Qed.

Lemma Pos_to_uint_nonnil (p : positive) : Pos.to_uint p <> Decimal.Nil.
Proof.
  intros H. pose proof (DecimalPos.Unsigned.of_to p) as Hp.
  rewrite H in Hp. discriminate.
Qed.

Lemma Atoi_unsigned (d : Decimal.uint) (n : Z) :
  d <> Decimal.Nil -> Z.of_N (N.of_uint d) = n -> in_int n ->
  Atoi (NilEmpty.string_of_uint d) = Ok n.
Proof.
  intros Hd Hn [Hlo Hhi].
  destruct (string_of_uint_first d Hd) as (c & rest & Hs & Hplus & Hminus).
  unfold Atoi.
  assert (Hu : unsigned_part (NilEmpty.string_of_uint d) = String c rest).
  { rewrite Hs. unfold unsigned_part.
    destruct c as [[] [] [] [] [] [] [] []]; try reflexivity; congruence. }
  assert (Hneg : is_negative (NilEmpty.string_of_uint d) = false).
  { rewrite Hs. unfold is_negative.
    destruct c as [[] [] [] [] [] [] [] []]; try reflexivity; congruence. }
  rewrite Hu, <- Hs, NilEmpty.usu, Hneg, Hn.
  destruct (Z.leb_spec minInt n), (Z.leb_spec n maxInt); simpl; try lia.
  reflexivity.
Qed.

Lemma Atoi_negative (p : positive) :
  in_int (Z.neg p) ->
  Atoi (String "-" (NilEmpty.string_of_uint (Pos.to_uint p))) = Ok (Z.neg p).
Proof.
  intros [Hlo Hhi]. unfold Atoi. simpl unsigned_part. simpl is_negative.
  destruct (string_of_uint_first _ (Pos_to_uint_nonnil p))
    as (c & rest & Hs & _ & _).
  rewrite Hs, <- Hs, NilEmpty.usu.
  change (Pos.to_uint p) with (N.to_uint (N.pos p)).
  rewrite DecimalN.Unsigned.of_to. simpl Z.of_N.
  change (- Z.pos p) with (Z.neg p).
  destruct (Z.leb_spec minInt (Z.neg p)), (Z.leb_spec (Z.neg p) maxInt);
    simpl; try lia.
  reflexivity.
Qed.

(** Atoi reads back what Itoa printed. *)
Lemma Atoi_Itoa (z : Z) : in_int z -> Atoi (Itoa z) = Ok z.
Proof.
  intros Hz. unfold Itoa. destruct z as [|p|p]; simpl.
  - reflexivity.
  - apply Atoi_unsigned; [apply Pos_to_uint_nonnil | | exact Hz].
    change (Pos.to_uint p) with (N.to_uint (N.pos p)).
    now rewrite DecimalN.Unsigned.of_to.
  - apply Atoi_negative, Hz.
Qed.

Lemma Itoa_inj (a b : Z) : Itoa a = Itoa b -> a = b.
Proof.
  unfold Itoa. intros H.
  assert (Hi : Z.to_int a = Z.to_int b).
  { pose proof (NilEmpty.isi (Z.to_int a)) as Ha.
    pose proof (NilEmpty.isi (Z.to_int b)) as Hb.
    rewrite H in Ha. congruence. }
  rewrite <- (DecimalZ.of_to a), <- (DecimalZ.of_to b). now rewrite Hi.
Qed.

Lemma Itoa_nonempty (z : Z) : Itoa z <> "".
Proof.
  unfold Itoa. destruct z as [|p|p]; simpl; try discriminate.
  destruct (string_of_uint_first _ (Pos_to_uint_nonnil p))
    as (c & rest & Hs & _ & _).
  rewrite Hs. discriminate.
Qed.

(** A result of Atoi is an [int]. *)
Lemma Atoi_in_int (s : string) (n : Z) : Atoi s = Ok n -> in_int n.
Proof.
  unfold Atoi, in_int. intros H.
  destruct (unsigned_part s); [discriminate|].
  destruct (NilEmpty.uint_of_string _); [|discriminate].
  destruct (Z.leb_spec minInt (if is_negative s then - Z.of_N (N.of_uint u)
                               else Z.of_N (N.of_uint u)));
    destruct (Z.leb_spec (if is_negative s then - Z.of_N (N.of_uint u)
                          else Z.of_N (N.of_uint u)) maxInt);
    simpl in H; try discriminate.
  injection H as <-. lia.
Qed.

(** A stored string that is not the decimal form of [n] does not become it:
    what Itoa prints for a number is the only canonical spelling of it. *)
Lemma Itoa_differs (s : string) (n : Z) :
  in_int n -> Atoi s <> Ok n -> Itoa n <> s.
Proof. intros Hn Hs Heq. apply Hs. rewrite <- Heq. now apply Atoi_Itoa. Qed.

End strconv_facts.

Lemma string2ll_Itoa (n : Z) :
  strconv.in_int n -> redis.string2ll (strconv.Itoa n) = Some n.
Proof.
  intros Hn. unfold redis.string2ll. rewrite Atoi_Itoa by assumption.
  now rewrite decide_True.
Qed.

Lemma string2ll_canonical (v : string) (n : Z) :
  redis.string2ll v = Some n -> v = strconv.Itoa n /\ strconv.in_int n.
Proof.
  unfold redis.string2ll. destruct (strconv.Atoi v) as [m|] eqn:Hv; [|discriminate].
  destruct (decide _) as [He|]; [|discriminate].
  intros [= <-]. split; [now symmetry | eapply Atoi_in_int; eassumption].
Qed.

(** ** The rules of the weakest precondition *)

Section wp_rules.
Context {S T : Type}.

Lemma wp_ret {A} (a : A) (Q : result A -> World S T -> Prop) w :
  Q (Ok a) w -> wp (ret a) Q w.
Proof. exact id. Qed.

Lemma wp_pure {A} (r : result A) (Q : result A -> World S T -> Prop) w :
  Q r w -> wp (pure r) Q w.
Proof. exact id. Qed.

Lemma wp_bind {A B} (c : M S T A) (k : A -> M S T B)
    (Q : result B -> World S T -> Prop) w :
  wp c (fun r w' => match r with
                    | Ok a => wp (k a) Q w'
                    | Err e => Q (Err e) w'
                    end) w ->
  wp (bind c k) Q w.
Proof. unfold wp, bind. destruct (c w) as [[a|e] w']; exact id. Qed.

Lemma wp_wrapf {A} (msg : string) (c : M S T A)
    (Q : result A -> World S T -> Prop) w :
  wp c (fun r w' => Q (wrap_result msg r) w') w -> wp (wrapf msg c) Q w.
Proof. unfold wp, wrapf. destruct (c w) as [r w']; exact id. Qed.

Lemma wp_observe {A} (c : M S T A)
    (Q : result (result A) -> World S T -> Prop) w :
  wp c (fun r w' => Q (Ok r) w') w -> wp (observe c) Q w.
Proof. unfold wp, observe. destruct (c w) as [r w']; exact id. Qed.

Lemma wp_storage_call {A} (c : Call) (inj : A -> Value)
    (method : S -> result A * S) (Q : result A -> World S T -> Prop) w :
  (forall r s', method (store w) = (r, s') ->
     Q r {| store := s'; tracker := tracker w;
            trace := trace w ++ [record c inj r] |}) ->
  wp (storage_call c inj method) Q w.
Proof.
  unfold wp, storage_call. intros H.
  destruct (method (store w)) as [r s'] eqn:E. now apply H.
Qed.

Lemma wp_tracker_call {A} (c : Call) (inj : A -> Value)
    (method : T -> result A * T) (Q : result A -> World S T -> Prop) w :
  (forall r t', method (tracker w) = (r, t') ->
     Q r {| store := store w; tracker := t';
            trace := trace w ++ [record c inj r] |}) ->
  wp (tracker_call c inj method) Q w.
Proof.
  unfold wp, tracker_call. intros H.
  destruct (method (tracker w)) as [r t'] eqn:E. now apply H.
Qed.

Lemma wp_mono {A} (c : M S T A) (Q Q' : result A -> World S T -> Prop) w :
  wp c Q w -> (forall r w', Q r w' -> Q' r w') -> wp c Q' w.
Proof. unfold wp. auto. Qed.

End wp_rules.

Lemma count_app (P : Event -> bool) (l1 l2 : list Event) :
  count P (l1 ++ l2) = (count P l1 + count P l2)%nat.
Proof. induction l1 as [|e l1 IH]; simpl; [reflexivity | rewrite IH; lia]. Qed.

(** One step of the symbolic run of a computation. *)
Ltac wp_step :=
  cbn [store tracker trace wrap_result];
  lazymatch goal with
  | |- wp (ret _) _ _ => apply wp_ret
  | |- wp (pure ?r) _ _ => apply wp_pure; destruct r eqn:?
  | |- wp (bind _ _) _ _ => apply wp_bind
  | |- wp (wrapf _ _) _ _ => apply wp_wrapf
  | |- wp (observe _) _ _ => apply wp_observe
  | |- wp (storage_call _ _ _) _ _ =>
      apply wp_storage_call; intros [?|?] ? ?
  | |- wp (tracker_call _ _ _) _ _ =>
      apply wp_tracker_call; intros [?|?] ? ?
  | |- wp (if ?b then _ else _) _ _ => destruct b eqn:?
  | |- wp (match ?x with _ => _ end) _ _ => destruct x eqn:?
  end.

(** ** The validation gate *)

(** C9. [ValidatePayload] rejects a report exactly when one of the six
    required fields is empty, and the error it returns is the one that names
    the first empty field in the order repoName, branchName, environment,
    environmentTier, projectId, operation; a report with the six fields set
    passes with no error.  The function is pure: it has no access to the store
    or to the tracker, and returns nothing but the error. *)
Theorem ValidatePayload_names_first_missing (payload : Payload.t) :
  DriftServiceImpl.ValidatePayload payload
    = MissingField <$> first_missing payload
  /\ (is_Some (DriftServiceImpl.ValidatePayload payload)
      <-> Exists (fun nf => nf.2 payload = "") required_fields)
  /\ (DriftServiceImpl.ValidatePayload payload = None
      <-> Forall (fun nf => nf.2 payload <> "") required_fields).
Proof.
  unfold DriftServiceImpl.ValidatePayload, first_missing, required_fields.
  cbn [List.find snd fst].
  repeat setoid_rewrite Forall_cons. repeat setoid_rewrite Exists_cons.
  rewrite Forall_nil, Exists_nil. cbn [snd]. unfold bool_decide.
  repeat case_decide; try (exfalso; congruence);
    cbn [fmap option_fmap option_map fst];
    (split; [reflexivity|]); split; split;
    solve [ intros [? ?]; discriminate
          | intros ?; eexists; reflexivity
          | discriminate
          | tauto
          | intros; exfalso; tauto ].
Qed.

(** ** The threshold policy *)

Lemma roundtrip_db (r : redis.Server) :
  redis.db (redis.roundtrip r).2 = redis.db r.
Proof. unfold redis.roundtrip. destruct (redis.faults r); reflexivity. Qed.

(** What [GetField] of the Redis repository returns, and that it leaves the
    data alone. *)
Lemma next_fault_not_Nil (r : redis.Server) (e : error) :
  next_fault r = Some e -> e <> redis.Nil.
Proof.
  unfold next_fault, redis.roundtrip.
  destruct (redis.faults r) as [|[reason|] rest]; simpl; try discriminate.
  intros [= <-]. discriminate.
Qed.

Lemma RedisRepository_GetField_spec (key name : string) (r : redis.Server) :
  (RedisRepository.GetField key name r).1
    = match next_fault r with
      | None => Ok (default "" (stored r key name))
      | Some e => Err (wrapError ("error getting field " +:+ name) e)
      end
  /\ redis.db (RedisRepository.GetField key name r).2 = redis.db r.
Proof.
  unfold RedisRepository.GetField, redis.HGet, redis.command, stored.
  pose proof (roundtrip_db r) as Hdb.
  pose proof (next_fault_not_Nil r) as Hnil. unfold next_fault in *.
  destruct (redis.roundtrip r) as [[e|] r']; simpl in *.
  - rewrite decide_False by auto. simpl; auto.
  - rewrite Hdb. destruct (redis.hash (redis.db r) key !! name); simpl.
    + auto.
    + try rewrite decide_True by reflexivity. simpl. auto.
Qed.

(** C8. The threshold of a key, read from Redis.  When the read reaches the
    server, [GetThreshold] returns the threshold of the record as the
    specification words it: the stored value when present and not empty, the
    process-wide default when the field is absent or empty, the
    invalid-threshold error when the value is not an integer.  When the read
    fails, the error is the storage error.  So the result is an
    invalid-threshold error exactly when the read went through and found a
    value that is not empty and does not parse. *)
Theorem GetThreshold_of_record {T : Type} (env_default : string)
    (cfg : Config.t) (key : string) (r : redis.Server) (t : T) :
  let c := GetThreshold
             (NewThresholdManager (NewRedisRepository env_default) cfg) key in
  let value := stored r key "driftThreshold" in
  result_of c r t
    = match next_fault r with
      | None => threshold_of_record (Config.DriftThreshold cfg) value
      | Some e =>
          Err (wrapError "failed to get drift threshold from storage"
                 (wrapError "error getting field driftThreshold" e))
      end
  /\ (is_InvalidThresholdValue (result_of c r t) = true
      <-> next_fault r = None
          /\ exists v e, value = Some v /\ v <> "" /\ strconv.Atoi v = Err e).
Proof.
  intros c value. subst c value.
  unfold result_of, run. cbn [NewThresholdManager GetThreshold].
  unfold ThresholdManagerImpl.GetThreshold, bind, wrapf, storage_call, pure, ret.
  cbn [store tracker trace ThresholdManagerImpl.storage
       ThresholdManagerImpl.config NewRedisRepository GetField].
  destruct (RedisRepository_GetField_spec key "driftThreshold" r) as [Hres _].
  destruct (RedisRepository.GetField key "driftThreshold" r) as [res r'].
  cbn [fst] in Hres. subst res.
  destruct (next_fault r) as [e|].
  - cbn. split; [reflexivity|].
    split; [discriminate | intros [? _]; discriminate].
  - unfold threshold_of_record.
    destruct (stored r key "driftThreshold") as [v|]; cbn.
    + destruct (decide (v = "")) as [->|Hv]; cbn.
      * split; [reflexivity|]. split; [discriminate|].
        intros [_ (v & e & [= <-] & Hne & _)]. congruence.
      * destruct (strconv.Atoi v) as [n|e] eqn:Hp; cbn.
        -- split; [reflexivity|]. split; [discriminate|].
           intros [_ (v' & e & [= <-] & _ & He)]. congruence.
        -- split; [reflexivity|]. split; [|reflexivity].
           intros _. split; [reflexivity|]. eauto.
    + split; [reflexivity|]. split; [discriminate|].
      intros [_ (v & e & Hv & _)]. discriminate.
Qed.

(** C6. [CheckThreshold] answers true exactly when the count has reached the
    threshold of the key: it returns [isBreached] of the threshold that
    [GetThreshold] reads (and the error of that read, wrapped, when there is
    none to compare with).  A count equal to the threshold is breached, a
    count one below it is not.  The check makes one call, the read of the
    stored threshold: no call that writes to the store, and no call of the
    tracker; on Redis the data is the same after the check as before. *)
Theorem CheckThreshold_reached {S T : Type} (st : StorageRepository S)
    (cfg : Config.t) (key : string) (n : Z) (s : S) (t : T) :
  let tm := NewThresholdManager st cfg in
  result_of (CheckThreshold tm key n) s t
    = match result_of (GetThreshold tm key) s t with
      | Ok threshold => Ok (isBreached threshold n)
      | Err e => Err (wrapError "failed to get threshold" e)
      end
  /\ (forall threshold, isBreached threshold threshold = true
                        /\ isBreached threshold (threshold - 1) = false)
  /\ (exists r, events_of (CheckThreshold tm key n) s t
                = [record (call_GetField key "driftThreshold") value_string r])
  /\ count (fun e => is_storage_write (call e) || is_tracker_call (call e))
       (events_of (CheckThreshold tm key n) s t) = 0%nat
  /\ (forall env_default (r : redis.Server),
        redis.db (store_after
                    (CheckThreshold
                       (NewThresholdManager (NewRedisRepository env_default) cfg)
                       key n) r t)
        = redis.db r).
Proof.
  intros tm. subst tm.
  assert (Hb : forall th m, (th <=? m) = isBreached th m).
  { intros th m. unfold isBreached.
    destruct (Z.leb_spec th m).
    - now rewrite bool_decide_eq_true_2 by lia.
    - now rewrite bool_decide_eq_false_2 by lia. }
  unfold result_of, events_of, store_after, run.
  cbn [NewThresholdManager CheckThreshold GetThreshold].
  unfold ThresholdManagerImpl.CheckThreshold, ThresholdManagerImpl.GetThreshold,
    bind, wrapf, storage_call, pure, ret.
  cbn [store tracker trace ThresholdManagerImpl.storage
       ThresholdManagerImpl.config].
  split; [|split; [|split; [|split]]].
  - destruct (GetField st key "driftThreshold" s) as [[v|e] s']; cbn; [|reflexivity].
    destruct (decide (v = "")); cbn; [now rewrite Hb|].
    destruct (strconv.Atoi v); cbn; [now rewrite Hb | reflexivity].
  - intros th. unfold isBreached.
    rewrite bool_decide_eq_true_2 by lia.
    now rewrite bool_decide_eq_false_2 by lia.
  - destruct (GetField st key "driftThreshold" s) as [[v|e] s']; cbn;
      [|eexists; reflexivity].
    destruct (decide (v = "")); cbn; [eexists; reflexivity|].
    destruct (strconv.Atoi v); cbn; eexists; reflexivity.
  - destruct (GetField st key "driftThreshold" s) as [[v|e] s']; cbn;
      [|reflexivity].
    destruct (decide (v = "")); cbn; [reflexivity|].
    destruct (strconv.Atoi v); cbn; reflexivity.
  - intros env_default r. cbn [NewRedisRepository GetField].
    destruct (RedisRepository_GetField_spec key "driftThreshold" r) as [_ Hdb].
    destruct (RedisRepository.GetField key "driftThreshold" r) as [[v|e] r'];
      cbn in *; [|assumption].
    destruct (decide (v = "")); cbn; [assumption|].
    destruct (strconv.Atoi v); cbn; assumption.
Qed.

(** ** The Redis repository: what each method does to the records *)

Section redis_facts.
Import redis.

Lemma hash_insert (d : gmap string (gmap string string)) key h k :
  hash (<[key := h]> d) k = if decide (k = key) then h else hash d k.
Proof.
  unfold hash. rewrite lookup_insert.
  destruct (decide (key = k)), (decide (k = key)); simpl; congruence.
Qed.

Lemma HMSet_spec key fields r res r' :
  HMSet key fields r = (res, r') ->
  forall k f,
    stored r' k f
    = if is_ok res && bool_decide (k = key)
      then write_fields fields (hash (db r) key) !! f
      else stored r k f.
Proof.
  unfold HMSet, command, stored. pose proof (roundtrip_db r) as Hdb.
  destruct (roundtrip r) as [[e|] r1]; simpl in *; intros [= <- <-] k f; simpl.
  - now rewrite Hdb.
  - rewrite hash_insert, Hdb.
    destruct (decide (k = key)) as [->|Hk].
    + now rewrite bool_decide_eq_true_2.
    + now rewrite bool_decide_eq_false_2.
Qed.

Lemma HSet_spec key name value r res r' :
  HSet key name value r = (res, r') ->
  forall k f,
    stored r' k f
    = if is_ok res && bool_decide (k = key) && bool_decide (f = name)
      then Some value else stored r k f.
Proof.
  unfold HSet. intros H k f. rewrite (HMSet_spec _ _ _ _ _ H).
  destruct (is_ok res); simpl; [|reflexivity].
  destruct (decide (k = key)) as [->|Hk].
  - rewrite bool_decide_eq_true_2 by reflexivity. simpl.
    rewrite lookup_insert.
    destruct (decide (f = name)) as [->|Hf].
    + rewrite bool_decide_eq_true_2 by reflexivity.
      now rewrite decide_True.
    + rewrite bool_decide_eq_false_2 by assumption.
      now rewrite decide_False by congruence.
  - now rewrite bool_decide_eq_false_2.
Qed.

End redis_facts.

(** A method that is one HSET: the field it writes, when it succeeds. *)
Lemma SetField_spec key name value r res r' :
  RedisRepository.SetField key name value r = (res, r') ->
  forall k f,
    stored r' k f
    = if is_ok res && bool_decide (k = key) && bool_decide (f = name)
      then Some value else stored r k f.
Proof.
  unfold RedisRepository.SetField.
  destruct (redis.HSet key name value r) as [[[]|e] r1] eqn:H;
    intros [= <- <-]; exact (HSet_spec _ _ _ _ _ _ H).
Qed.

Lemma ResetDrift_spec key r res r' :
  RedisRepository.ResetDrift key r = (res, r') ->
  forall k f,
    stored r' k f
    = if is_ok res && bool_decide (k = key) && bool_decide (f = "driftIncrement")
      then Some "0" else stored r k f.
Proof.
  unfold RedisRepository.ResetDrift.
  destruct (redis.HSet key "driftIncrement" "0" r) as [[[]|e] r1] eqn:H;
    intros [= <- <-]; exact (HSet_spec _ _ _ _ _ _ H).
Qed.

Lemma StorePlanOutput_spec key planOutput r res r' :
  RedisRepository.StorePlanOutput key planOutput r = (res, r') ->
  forall k f,
    stored r' k f
    = if is_ok res && bool_decide (k = key) && bool_decide (f = "planOutput")
      then Some planOutput else stored r k f.
Proof.
  unfold RedisRepository.StorePlanOutput.
  destruct (redis.HSet key "planOutput" planOutput r) as [[[]|e] r1] eqn:H;
    intros [= <- <-]; exact (HSet_spec _ _ _ _ _ _ H).
Qed.

Lemma UpdateOperationLog_spec key timestamp operation r res r' :
  RedisRepository.UpdateOperationLog key timestamp operation r = (res, r') ->
  forall k f,
    f <> "log" -> stored r' k f = stored r k f.
Proof.
  unfold RedisRepository.UpdateOperationLog.
  match goal with |- context [redis.HMSet key [("log", ?v)] r] =>
    change (redis.HMSet key [("log", v)] r) with (redis.HSet key "log" v r);
    destruct (redis.HSet key "log" v r) as [[[]|e] r1] eqn:H
  end; intros [= <- <-] k f Hf; rewrite (HSet_spec _ _ _ _ _ _ H);
    rewrite (bool_decide_eq_false_2 (f = "log")) by assumption;
    now rewrite andb_false_r.
Qed.

Lemma GetField_spec key name r res r' :
  RedisRepository.GetField key name r = (res, r') ->
  redis.db r' = redis.db r
  /\ res = match next_fault r with
           | None => Ok (default "" (stored r key name))
           | Some e => Err (wrapError ("error getting field " +:+ name) e)
           end.
Proof.
  intros H. destruct (RedisRepository_GetField_spec key name r) as [H1 H2].
  rewrite H in H1, H2. simpl in *. auto.
Qed.

Lemma GetField_stored key name r res r' :
  RedisRepository.GetField key name r = (res, r') ->
  forall k f, stored r' k f = stored r k f.
Proof.
  intros H k f. apply GetField_spec in H as [H _]. unfold stored. now rewrite H.
Qed.

Lemma GetEnvironmentData_stored key r res r' :
  RedisRepository.GetEnvironmentData key r = (res, r') ->
  forall k f, stored r' k f = stored r k f.
Proof.
  unfold RedisRepository.GetEnvironmentData, redis.HGetAll, redis.command, stored.
  pose proof (roundtrip_db r) as Hdb.
  destruct (redis.roundtrip r) as [[e|] r1]; simpl in *.
  - intros [= <- <-] k f. now rewrite Hdb.
  - destruct (decide _); intros [= <- <-] k f; simpl; now rewrite Hdb.
Qed.

(** HINCRBY by one: the counter a successful increment returns is one more
    than the counter that was stored (0 when there was none), and it is what
    is stored afterwards; a failed increment changes nothing. *)
Lemma IncrementDrift_spec key r res r' :
  RedisRepository.IncrementDrift key r = (res, r') ->
  match res with
  | Ok n =>
      counter (stored r key "driftIncrement") = Some (n - 1)
      /\ strconv.in_int n
      /\ forall k f,
           stored r' k f
           = if bool_decide (k = key) && bool_decide (f = "driftIncrement")
             then Some (strconv.Itoa n) else stored r k f
  | Err _ => forall k f, stored r' k f = stored r k f
  end.
Proof.
  unfold RedisRepository.IncrementDrift, redis.HIncrBy, redis.command, stored,
    counter.
  pose proof (roundtrip_db r) as Hdb.
  destruct (redis.roundtrip r) as [[e|] r1]; simpl in *.
  { intros [= <- <-] k f. now rewrite Hdb. }
  rewrite Hdb.
  assert (Hframe : forall n k f,
    redis.hash (<[key := <[ "driftIncrement" := strconv.Itoa n]>
                           (redis.hash (redis.db r) key)]> (redis.db r)) k !! f
    = if bool_decide (k = key) && bool_decide (f = "driftIncrement")
      then Some (strconv.Itoa n) else redis.hash (redis.db r) k !! f).
  { intros n k f. rewrite hash_insert.
    destruct (decide (k = key)) as [->|Hk].
    - rewrite bool_decide_eq_true_2 by reflexivity. simpl.
      rewrite lookup_insert. destruct (decide (f = "driftIncrement")) as [->|Hf].
      + rewrite bool_decide_eq_true_2 by reflexivity. now rewrite decide_True.
      + rewrite bool_decide_eq_false_2 by assumption.
        now rewrite decide_False by congruence.
    - now rewrite bool_decide_eq_false_2. }
  destruct (redis.hash (redis.db r) key !! "driftIncrement") as [v|] eqn:Hv.
  - destruct (redis.string2ll v) as [old|] eqn:Hold.
    + destruct (Z.leb_spec strconv.minInt (old + 1)),
               (Z.leb_spec (old + 1) strconv.maxInt); simpl;
        intros [= <- <-]; simpl; try (intros k f; reflexivity).
      split; [f_equal; lia|].
      split; [split; assumption|]. apply Hframe.
    + intros [= <- <-] k f. reflexivity.
  - change (0 + 1) with 1. simpl. intros [= <- <-]. simpl.
    split; [reflexivity|].
    split; [unfold strconv.in_int, strconv.minInt, strconv.maxInt; lia|].
    apply Hframe.
Qed.

(** [InitializeEnvironment]: a record is written when the key has none, with
    the four fields of a new record; when the key has a record, and when a
    command fails, nothing is written. *)
Lemma InitializeEnvironment_spec env_default key tier projectID threshold r res r' :
  RedisRepository.InitializeEnvironment env_default key tier projectID threshold r
    = (res, r') ->
  match res with
  | Ok true =>
      (forall f, stored r key f = None)
      /\ stored r' key "driftThreshold"
         = Some (if decide (threshold = "")
                 then (if decide (env_default = "") then "1" else env_default)
                 else threshold)
      /\ stored r' key "environmentTier" = Some tier
      /\ stored r' key "projectID" = Some projectID
      /\ stored r' key "driftIncrement" = Some "0"
      /\ (forall k f, k <> key -> stored r' k f = stored r k f)
  | Ok false =>
      redis.hash (redis.db r) key <> ∅
      /\ forall k f, stored r' k f = stored r k f
  | Err _ => forall k f, stored r' k f = stored r k f
  end.
Proof.
  unfold RedisRepository.InitializeEnvironment, redis.Exists.
  unfold redis.command at 1. pose proof (roundtrip_db r) as Hdb.
  destruct (redis.roundtrip r) as [[e|] r1]; simpl in *.
  { intros [= <- <-] k f. unfold stored. now rewrite Hdb. }
  rewrite Hdb.
  destruct (decide (redis.hash (redis.db r) key = ∅)) as [Hempty|Hexists]; simpl.
  - match goal with |- context [redis.HMSet key ?fs ?x] =>
      destruct (redis.HMSet key fs x) as [[[]|e] r2] eqn:H end;
      intros [= <- <-]; pose proof (HMSet_spec _ _ _ _ _ H) as Hs;
      cbn [is_ok andb] in Hs.
    + split; [intros f; unfold stored; rewrite Hempty; apply lookup_empty|].
      repeat split;
        try (rewrite Hs, bool_decide_eq_true_2 by reflexivity;
             unfold redis.write_fields; cbn [foldl fst snd];
             repeat (rewrite lookup_insert_ne by discriminate);
             apply lookup_insert_eq).
      * intros k f Hk. rewrite Hs, bool_decide_eq_false_2 by assumption.
        reflexivity.
    + intros k f. rewrite Hs. reflexivity.
  - intros [= <- <-]. split; [assumption|].
    intros k f. reflexivity.
Qed.

(** ** Symbolic runs of the service *)

Lemma run_wp {S T A} (c : M S T A) (s : S) (t : T)
    (P : result A -> list Event -> S -> T -> Prop) :
  wp c (fun r w' => P r (trace w') (store w') (tracker w'))
     {| store := s; tracker := t; trace := [] |} ->
  P (result_of c s t) (events_of c s t) (store_after c s t) (tracker_after c s t).
Proof. exact id. Qed.

(** The fields of the wired service, and the methods of its threshold
    manager. *)
Ltac wp_wiring :=
  cbn [wire DriftServiceImpl.NewDriftService DriftServiceImpl.storage
       DriftServiceImpl.issueTracker DriftServiceImpl.threshold
       DriftServiceImpl.config NewThresholdManager CheckThreshold GetThreshold
       ThresholdManagerImpl.storage ThresholdManagerImpl.config
       EnvironmentInfo.Key EnvironmentInfo.ProjectID EnvironmentInfo.RepoName
       EnvironmentInfo.Environment methods_of
       store tracker trace wrap_result app] in *.

Ltac wp_run :=
  repeat first
    [ progress wp_wiring
    | wp_step
    | progress unfold ThresholdManagerImpl.CheckThreshold,
                      ThresholdManagerImpl.GetThreshold ].

(** On Redis, the reads leave the records as they are. *)
Ltac redis_reads :=
  repeat match goal with
  | H : RedisRepository.GetField _ _ _ = _ |- _ =>
      pose proof (GetField_stored _ _ _ _ _ H); clear H
  | H : RedisRepository.GetEnvironmentData _ _ = _ |- _ =>
      pose proof (GetEnvironmentData_stored _ _ _ _ H); clear H
  end.

Ltac chain_stored :=
  repeat match goal with
  | H : forall k f, stored _ k f = _ |- _ => rewrite !H; clear H
  end.

(** ** The threshold breach procedure *)


(** On Redis, what each call of a run did to the records. *)
Ltac redis_effects :=
  cbn [NewRedisRepository InitializeEnvironment UpdateOperationLog
       IncrementDrift ResetDrift GetEnvironmentData SetField GetField
       StorePlanOutput] in *;
  redis_reads;
  repeat match goal with
  | H : RedisRepository.SetField _ _ _ _ = _ |- _ =>
      pose proof (SetField_spec _ _ _ _ _ _ H); clear H
  | H : RedisRepository.ResetDrift _ _ = _ |- _ =>
      pose proof (ResetDrift_spec _ _ _ _ H); clear H
  | H : RedisRepository.StorePlanOutput _ _ _ = _ |- _ =>
      pose proof (StorePlanOutput_spec _ _ _ _ _ H); clear H
  end.

(** The comparisons of keys and field names that a leaf is left with. *)
Ltac decide_names :=
  repeat match goal with u : unit |- _ => destruct u end;
  unfold wrote, writes, writes_field, read; cbn;
  repeat first
    [ rewrite bool_decide_eq_true_2 by reflexivity
    | rewrite bool_decide_eq_false_2 by discriminate
    | progress cbn ].


(** ** The reset procedure *)


(** ** The threshold breach procedure with the GitLab client *)

Lemma CheckThreshold_result {S T} (st : StorageRepository S) (cfg : Config.t)
    (key : string) (n : Z) (s : S) (t : T) :
  result_of (CheckThreshold (NewThresholdManager st cfg) key n) s t
  = match (GetField st key "driftThreshold" s).1 with
    | Ok v =>
        if decide (v = "") then Ok (Config.DriftThreshold cfg <=? n)
        else match strconv.Atoi v with
             | Ok th => Ok (th <=? n)
             | Err e => Err (wrapError "failed to get threshold"
                               (wrapError "invalid threshold value" e))
             end
    | Err e => Err (wrapError "failed to get threshold"
                      (wrapError "failed to get drift threshold from storage" e))
    end.
Proof.
  unfold result_of, run. cbn [NewThresholdManager CheckThreshold].
  unfold ThresholdManagerImpl.CheckThreshold, ThresholdManagerImpl.GetThreshold,
    bind, wrapf, storage_call, pure, ret.
  cbn [store tracker trace ThresholdManagerImpl.storage
       ThresholdManagerImpl.config].
  destruct (GetField st key "driftThreshold" s) as [[v|e] s']; cbn; [|reflexivity].
  destruct (decide (v = "")); cbn; [reflexivity|].
  destruct (strconv.Atoi v); reflexivity.
Qed.

Lemma GetField_ok key name r v r' :
  RedisRepository.GetField key name r = (Ok v, r') ->
  v = default "" (stored r key name).
Proof.
  intros H. apply GetField_spec in H as [_ H].
  destruct (next_fault r); [discriminate|]. congruence.
Qed.

Lemma tracked_issue_read (o : option string) :
  tracked_issue o = tracked_issue (Some (default "" o)).
Proof. destruct o; reflexivity. Qed.

Lemma tracked_issue_existing (v : string) :
  tracked_issue (Some v)
  = (let id := if decide (v = "") then 0
               else match strconv.Atoi v with Ok n => n | Err _ => 0 end in
     if 0 <? id then Some id else None).
Proof.
  unfold tracked_issue. destruct (decide (v = "")) as [->|]; [reflexivity|].
  destruct (strconv.Atoi v); reflexivity.
Qed.

Lemma stored_id_changes (o : option string) (id : Z) :
  strconv.in_int id ->
  (forall v, o = Some v -> strconv.Atoi v <> Ok id) ->
  Some (strconv.Itoa id) <> o.
Proof.
  intros Hid Ho Heq. apply (Ho (strconv.Itoa id)); [now symmetry|].
  now apply Atoi_Itoa.
Qed.

(** C4, as amended.  The tracker is the GitLab client and the store is
    Redis.  Take a breach (the threshold check answers true) that
    [HandleThresholdBreach] handles without error.  The project id of the
    report is a number.  If the stored issueID parses to a positive integer,
    the tracker is asked for the status of that issue of the project, once:
    when it answers open, the description of that issue is updated and the
    record is unchanged, the stored issueID with it; when it answers closed, a
    new issue is created.  If the stored issueID is absent or is not a
    positive integer, the tracker is not asked and a new issue is created.
    The id and the URL of a new issue are written to issueID and issueURL of
    the record. *)
Theorem HandleThresholdBreach_with_GitLab_client {T : Type}
    (g : GitLabClient.t T) (cfg : Config.t) (env_default : string)
    (env : EnvironmentInfo.t) (driftCount : Z) (r : redis.Server) (t : T) :
  let st := NewRedisRepository env_default in
  let key := EnvironmentInfo.Key env in
  let c := DriftServiceImpl.HandleThresholdBreach
             (wire st (GitLabClientPtr g) cfg) env driftCount in
  let evs := events_of c r t in
  let r' := store_after c r t in
  result_of (CheckThreshold (NewThresholdManager (T:=T) st cfg) key driftCount) r t
    = Ok true ->
  result_of c r t = Ok tt ->
  exists projectID,
    strconv.Atoi (EnvironmentInfo.ProjectID env) = Ok projectID
    /\ match tracked_issue (stored r key "issueID") with
       | Some issueID =>
           breach_updates projectID issueID evs r r'
           \/ (status_answers evs = [(projectID, issueID, false)]
               /\ breach_creates key projectID evs r r')
       | None =>
           status_answers evs = [] /\ breach_creates key projectID evs r r'
       end.
Proof.
  intros st key c evs r' Hbreach. subst evs r'.
  rewrite CheckThreshold_result in Hbreach.
  refine (run_wp c r t (fun res evs r' _ => res = Ok tt ->
    exists projectID,
      strconv.Atoi (EnvironmentInfo.ProjectID env) = Ok projectID
      /\ match tracked_issue (stored r key "issueID") with
         | Some issueID =>
             breach_updates projectID issueID evs r r'
             \/ (status_answers evs = [(projectID, issueID, false)]
                 /\ breach_creates key projectID evs r r')
         | None =>
             status_answers evs = [] /\ breach_creates key projectID evs r r'
         end) _).
  subst c key st. unfold DriftServiceImpl.HandleThresholdBreach.
  wp_run; try (intros ?; discriminate); intros _;
    cbn [NewRedisRepository GetField SetField] in *.
  (* the leaves where the threshold is not reached *)
  all: try (exfalso; rewrite H in Hbreach; cbn in Hbreach;
            repeat match goal with
            | Hd : decide _ = _ |- _ => rewrite Hd in Hbreach
            | Hp : strconv.Atoi _ = _ |- _ => rewrite Hp in Hbreach
            end;
            apply negb_true_iff in Heqb; congruence).
  all: eexists; (split; [reflexivity|]).
  all: rewrite tracked_issue_read.
  all: repeat match goal with
       | Hg : RedisRepository.GetField _ "issueID" _ = (Ok _, _) |- _ =>
           pose proof (GetField_ok _ _ _ _ _ Hg);
           pose proof (GetField_stored _ _ _ _ _ Hg); clear Hg
       end.
  all: redis_effects.
  all: repeat match goal with
       | Hv : ?v = default "" (stored ?r1 _ _),
         Hr : forall k f, stored ?r1 k f = _ |- _ => rewrite Hr in Hv
       end.
  all: match goal with Hv : ?v = default "" _ |- _ => rewrite <- Hv end.
  all: rewrite tracked_issue_existing; cbv zeta;
       match goal with Hb : (0 <? _) = _ |- _ => rewrite Hb end.
  all: unfold breach_updates, breach_creates; cbn.
  all: first
    [ left; repeat split; try reflexivity; intros k f; chain_stored; reflexivity
    | try right; repeat split; try reflexivity;
      eexists; repeat split; try reflexivity;
      try (chain_stored; decide_names; reflexivity);
      intros Hin Hold;
      match goal with |- ?new <> ?old =>
        let Hn := fresh in
        assert (Hn : new = Some (strconv.Itoa (Issue.ID _)))
          by (chain_stored; decide_names; reflexivity);
        rewrite Hn; apply stored_id_changes; assumption
      end ].
Qed.

(** ** The two procedures, from any world *)

Lemma count_none (P : Event -> bool) (evs : list Event) :
  Forall (fun e => P e = false) evs -> count P evs = 0%nat.
Proof. induction 1 as [|e evs He _ IH]; simpl; [reflexivity | now rewrite He]. Qed.

Lemma Forall_surfaced_wrap {A B} (dropped : Call -> bool) (msg : string)
    (res : result A) (res' : result B) (evs : list Event) :
  (forall E, res = Err E -> res' = Err (wrapError msg E)) ->
  Forall (surfaced dropped res) evs -> Forall (surfaced dropped res') evs.
Proof.
  intros Hres Hall. eapply Forall_impl; [exact Hall|].
  intros e. unfold surfaced.
  destruct (returned e) as [v|x]; [trivial|].
  intros [Hd|(E & -> & Hw)]; [now left|right].
  eexists. split; [apply Hres; reflexivity|]. now constructor.
Qed.

Lemma Forall_surfaced_weaken {A} (dropped dropped' : Call -> bool)
    (res : result A) (evs : list Event) :
  (forall c, dropped c = true -> dropped' c = true) ->
  Forall (surfaced dropped res) evs -> Forall (surfaced dropped' res) evs.
Proof.
  intros Hd Hall. eapply Forall_impl; [exact Hall|].
  intros e. unfold surfaced.
  destruct (returned e) as [v|x]; [trivial|].
  intros [H|H]; [left; auto | now right].
Qed.

(** The events of a successful stretch of a run are surfaced whatever the
    result is. *)
Lemma Forall_surfaced_ok {A} (dropped : Call -> bool) (res : result A)
    (evs : list Event) :
  Forall (fun e => succeeded e = true) evs -> Forall (surfaced dropped res) evs.
Proof.
  intros Hall. eapply Forall_impl; [exact Hall|].
  intros e. unfold surfaced, succeeded.
  destruct (returned e); [trivial | discriminate].
Qed.

(** The leaves of the runs below: a trace that is a prefix and a list of
    events, each of which has a property that computes. *)
Ltac trace_leaf :=
  eexists; split;
  [ rewrite <- ?app_assoc; cbn [app]; reflexivity
  | repeat split;
    repeat first
      [ apply Forall_nil
      | apply Forall_cons; split
      | reflexivity
      | exact I
      | left; reflexivity
      | right; eexists; split; [reflexivity | repeat constructor] ] ].

Section procedures.
Context {S T : Type}.
Variables (st : StorageRepository S) (tr : IssueTracker T) (cfg : Config.t).

(** [HandleThresholdBreach]: its calls are reads, writes of fields and calls
    of the tracker; a failure of any of them reaches the caller, the read of
    planOutput apart. *)
Lemma HandleThresholdBreach_summary (env : EnvironmentInfo.t) (n : Z)
    (w : World S T) :
  wp (DriftServiceImpl.HandleThresholdBreach (wire st tr cfg) env n)
     (fun res w' =>
        exists evs, trace w' = trace w ++ evs
          /\ Forall (fun e => breach_call (call e) = true) evs
          /\ Forall (surfaced (reads_field "planOutput") res) evs) w.
Proof.
  unfold DriftServiceImpl.HandleThresholdBreach.
  destruct tr; wp_run; trace_leaf.
Qed.

(** [ResetDriftIncrement]: its first call is the reset of the counter of the
    key; the calls after it are the read of the issue id, calls of the
    tracker and writes of fields; a failure of any of them reaches the
    caller, the read of issueID apart. *)
Lemma ResetDriftIncrement_summary (env : EnvironmentInfo.t) (operation : string)
    (w : World S T) :
  wp (DriftServiceImpl.ResetDriftIncrement (wire st tr cfg) env operation)
     (fun res w' =>
        exists e0 evs, trace w' = trace w ++ e0 :: evs
          /\ call e0 = call_ResetDrift (EnvironmentInfo.Key env)
          /\ (succeeded e0 = false -> evs = [] /\ is_ok res = false)
          /\ Forall (fun e => cleanup_call (call e) = true) evs
          /\ Forall (surfaced (reads_field "issueID") res) (e0 :: evs)) w.
Proof.
  unfold DriftServiceImpl.ResetDriftIncrement.
  wp_run; eexists; trace_leaf; try discriminate.
Qed.

End procedures.

Lemma count_calls_none (Q : Call -> bool) (P : Event -> bool) (evs : list Event) :
  (forall e, Q (call e) = true -> P e = false) ->
  Forall (fun e => Q (call e) = true) evs -> count P evs = 0%nat.
Proof.
  intros HQ Hall. apply count_none. eapply Forall_impl; [exact Hall|]. exact HQ.
Qed.

(** A run of [ProcessDriftDetection]: the two procedures are run by their
    summaries. *)
Ltac procedure_step :=
  lazymatch goal with
  | |- wp (DriftServiceImpl.HandleThresholdBreach _ _ _) _ _ =>
      eapply wp_mono; [apply HandleThresholdBreach_summary|];
      cbn beta; intros [[]|?] ? (? & ? & ? & ?)
  | |- wp (DriftServiceImpl.ResetDriftIncrement _ _ _) _ _ =>
      eapply wp_mono; [apply ResetDriftIncrement_summary|];
      cbn beta; intros [[]|?] ? (? & ? & ? & ? & ? & ? & ?)
  end.

Ltac report_run :=
  repeat first [ progress wp_wiring | wp_step | procedure_step ].

Lemma wp_and {S T A} (c : M S T A) (Q1 Q2 : result A -> World S T -> Prop) w :
  wp c Q1 w -> wp c Q2 w -> wp c (fun r w' => Q1 r w' /\ Q2 r w') w.
Proof. unfold wp. auto. Qed.

Lemma escalates_resolves_exclusive {S T} (d : DriftServiceImpl.t S T)
    (payload : Payload.t) :
  DriftServiceImpl.escalates d payload = true ->
  DriftServiceImpl.resolves d payload = false.
Proof.
  unfold DriftServiceImpl.escalates, DriftServiceImpl.resolves.
  rewrite !andb_true_iff, !bool_decide_eq_true, Z.eqb_eq.
  intros [[[_ Hop] Hcode] _]. rewrite Hop, Hcode. reflexivity.
Qed.

(** ** The two procedures on Redis: the fields they leave alone *)

Section procedures_on_redis.
Context {T : Type}.
Variables (env_default : string) (tr : IssueTracker T) (cfg : Config.t).

(** [HandleThresholdBreach] changes no record but that of its key, and of
    that record no field but issueID and issueURL. *)
Lemma HandleThresholdBreach_frame (env : EnvironmentInfo.t) (n : Z)
    (w : World redis.Server T) :
  wp (DriftServiceImpl.HandleThresholdBreach
        (wire (NewRedisRepository env_default) tr cfg) env n)
     (fun _ w' =>
        forall k f,
          k <> EnvironmentInfo.Key env \/ (f <> "issueID" /\ f <> "issueURL") ->
          stored (store w') k f = stored (store w) k f) w.
Proof.
  unfold DriftServiceImpl.HandleThresholdBreach.
  destruct tr; wp_run; redis_effects; intros k f Hkf; chain_stored;
    cbn [is_ok andb];
    repeat match goal with
    | |- context [bool_decide (?k0 = ?key) && bool_decide (?f0 = ?name)] =>
        replace (bool_decide (k0 = key) && bool_decide (f0 = name)) with false
          by (symmetry; apply andb_false_iff;
              rewrite !bool_decide_eq_false; tauto)
    end;
    rewrite ?andb_false_r; cbn; reflexivity.
Qed.

(** [ResetDriftIncrement] changes no record but that of its key, and of that
    record no field but driftIncrement, issueID and issueURL; when it returns
    without error the counter of the record is 0. *)
Lemma ResetDriftIncrement_frame (env : EnvironmentInfo.t) (operation : string)
    (w : World redis.Server T) :
  wp (DriftServiceImpl.ResetDriftIncrement
        (wire (NewRedisRepository env_default) tr cfg) env operation)
     (fun res w' =>
        (forall k f,
           k <> EnvironmentInfo.Key env
           \/ (f <> "driftIncrement" /\ f <> "issueID" /\ f <> "issueURL") ->
           stored (store w') k f = stored (store w) k f)
        /\ (is_ok res = true ->
            stored (store w') (EnvironmentInfo.Key env) "driftIncrement"
            = Some "0")
        /\ (stored (store w') (EnvironmentInfo.Key env) "driftIncrement"
              = stored (store w) (EnvironmentInfo.Key env) "driftIncrement"
            \/ stored (store w') (EnvironmentInfo.Key env) "driftIncrement"
               = Some "0")) w.
Proof.
  unfold DriftServiceImpl.ResetDriftIncrement.
  wp_run; redis_effects;
    (split; [intros k f Hkf | split; [intros Hok; try discriminate|]]).
  all: let finish :=
         (chain_stored; cbn [is_ok andb];
          repeat match goal with
          | |- context [bool_decide (?k0 = ?key) && bool_decide (?f0 = ?name)] =>
              replace (bool_decide (k0 = key) && bool_decide (f0 = name))
                with false
                by (symmetry; apply andb_false_iff;
                    rewrite !bool_decide_eq_false; tauto)
          end;
          rewrite ?andb_false_r; decide_names; reflexivity) in
       first [ finish | left; finish | right; finish ].
Qed.

End procedures_on_redis.

(** The counts of the steps in the trace of a report. *)
Ltac count_leaf :=
  repeat match goal with
  | H : trace ?w = _ |- context [trace ?w] => rewrite H
  end;
  rewrite ?count_app; cbn [count];
  repeat match goal with
  | H : Forall (fun e => breach_call (call e) = true) ?x
    |- context [count ?P ?x] =>
      rewrite (count_calls_none breach_call P x)
        by first [ exact H | intros [[] ?] ?; cbn in *; congruence ]
  | H : Forall (fun e => cleanup_call (call e) = true) ?x
    |- context [count ?P ?x] =>
      rewrite (count_calls_none cleanup_call P x)
        by first [ exact H | intros [[] ?] ?; cbn in *; congruence ]
  end;
  unfold is_IncrementDrift, is_ResetDrift, increments, resets, log_updated,
    initializes;
  repeat match goal with
  | H : call ?e = _ |- context [call ?e] => rewrite H
  end;
  cbn;
  repeat first
    [ rewrite bool_decide_eq_true_2 by reflexivity
    | progress cbn ];
  rewrite ?andb_false_r.

(** A leaf where the report both escalates and resolves: there is none. *)
Ltac exclusive :=
  match goal with
  | He : DriftServiceImpl.escalates _ _ = true,
    Hr : DriftServiceImpl.resolves _ _ = true |- _ =>
      apply escalates_resolves_exclusive in He; congruence
  end.

(** The two procedures, run on Redis by their frames. *)
Ltac frame_step :=
  lazymatch goal with
  | |- wp (DriftServiceImpl.HandleThresholdBreach _ _ _) _ _ =>
      eapply wp_mono; [apply HandleThresholdBreach_frame|];
      cbn beta; intros [[]|?] ? ?
  | |- wp (DriftServiceImpl.ResetDriftIncrement _ _ _) _ _ =>
      eapply wp_mono; [apply ResetDriftIncrement_frame|];
      cbn beta; intros [[]|?] ? (? & ? & ?)
  end.

Ltac report_run_redis :=
  repeat first [ progress wp_wiring | wp_step | frame_step ].

(** ** The steps of a report on Redis, field by field *)

(** What the steps of a report did to the field [f0] of the record of [key]. *)
Ltac focus key f0 :=
  cbn [NewRedisRepository InitializeEnvironment UpdateOperationLog
       IncrementDrift ResetDrift GetEnvironmentData SetField GetField
       StorePlanOutput] in *;
  repeat match goal with
  | H : RedisRepository.UpdateOperationLog _ _ _ _ = _ |- _ =>
      pose proof (UpdateOperationLog_spec _ _ _ _ _ _ H key f0
                    ltac:(discriminate)); clear H
  | H : RedisRepository.StorePlanOutput _ _ _ = _ |- _ =>
      pose proof (StorePlanOutput_spec _ _ _ _ _ H key f0); clear H
  | H : RedisRepository.GetEnvironmentData _ _ = _ |- _ =>
      pose proof (GetEnvironmentData_stored _ _ _ _ H key f0); clear H
  | H : RedisRepository.IncrementDrift _ _ = (Ok _, _) |- _ =>
      let Hc := fresh "Hcounter" in
      let Hi := fresh "Hint" in
      let Hn := fresh "Hnew" in
      destruct (IncrementDrift_spec _ _ _ _ H) as (Hc & Hi & Hn);
      specialize (Hn key f0); clear H
  | H : RedisRepository.IncrementDrift _ _ = (Err _, _) |- _ =>
      pose proof (IncrementDrift_spec _ _ _ _ H key f0); clear H
  | H : forall k f, k <> _ \/ _ -> stored _ k f = stored _ k f |- _ =>
      specialize (H key f0);
      lazymatch type of H with
      | _ \/ ?B -> _ =>
          let HB := fresh in
          assert (HB : B) by (repeat split; discriminate);
          specialize (H (or_intror HB)); clear HB
      end
  end;
  repeat match goal with
  | H : stored _ _ _ = _ |- _ =>
      progress (cbn in H;
                repeat first
                  [ rewrite bool_decide_eq_true_2 in H by reflexivity
                  | rewrite bool_decide_eq_false_2 in H by discriminate
                  | rewrite andb_false_r in H
                  | progress cbn in H ])
  end.

Lemma InitializeEnvironment_counter env_default key tier projectID threshold
    r res r' :
  RedisRepository.InitializeEnvironment env_default key tier projectID threshold r
    = (res, r') ->
  counter (stored r' key "driftIncrement")
    = counter (stored r key "driftIncrement")
  /\ (stored r' key "driftIncrement" = stored r key "driftIncrement"
      \/ stored r' key "driftIncrement" = Some "0").
Proof.
  intros H. apply InitializeEnvironment_spec in H.
  destruct res as [[]|e].
  - destruct H as (Hnone & _ & _ & _ & Hzero & _).
    rewrite Hzero, Hnone. split; [reflexivity | now right].
  - destruct H as [_ H]. rewrite H. split; [reflexivity | now left].
  - rewrite H. split; [reflexivity | now left].
Qed.

(** The drift counter of the record of the key, after a report on Redis: one
    more than before when the report escalates and is processed without
    error; the same as before, or 0, when it does not escalate; 0 when it
    resolves and is processed without error. *)
Lemma counter_after_report {T : Type} (env_default : string)
    (tr : IssueTracker T) (cfg : Config.t) (now : string) (p : Payload.t)
    (r : redis.Server) (t : T) :
  let d := wire (NewRedisRepository env_default) tr cfg in
  let key := DriftServiceImpl.GenerateKey (Payload.RepoName p)
               (Payload.Environment p) in
  let c := DriftServiceImpl.ProcessDriftDetection d now p in
  let r' := store_after c r t in
  (is_ok (result_of c r t) = true -> DriftServiceImpl.escalates d p = true ->
   exists old, counter (stored r key "driftIncrement") = Some old
               /\ stored r' key "driftIncrement" = Some (strconv.Itoa (old + 1)))
  /\ (DriftServiceImpl.escalates d p = false ->
      stored r' key "driftIncrement" = stored r key "driftIncrement"
      \/ stored r' key "driftIncrement" = Some "0")
  /\ (is_ok (result_of c r t) = true -> DriftServiceImpl.resolves d p = true ->
      stored r' key "driftIncrement" = Some "0").
Proof.
  intros d key c r'. subst r'.
  refine (run_wp c r t (fun res _ r' _ =>
    (is_ok res = true -> DriftServiceImpl.escalates d p = true ->
     exists old, counter (stored r key "driftIncrement") = Some old
                 /\ stored r' key "driftIncrement" = Some (strconv.Itoa (old + 1)))
    /\ (DriftServiceImpl.escalates d p = false ->
        stored r' key "driftIncrement" = stored r key "driftIncrement"
        \/ stored r' key "driftIncrement" = Some "0")
    /\ (is_ok res = true -> DriftServiceImpl.resolves d p = true ->
        stored r' key "driftIncrement" = Some "0")) _).
  subst c d key. unfold DriftServiceImpl.ProcessDriftDetection.
  remember (DriftServiceImpl.GenerateKey (Payload.RepoName p)
              (Payload.Environment p)) as key eqn:Hkey.
  clear Hkey.
  report_run_redis; try exclusive.
  all: cbn [NewRedisRepository InitializeEnvironment] in *.
  all: repeat match goal with
       | H : RedisRepository.InitializeEnvironment _ _ _ _ _ _ = _ |- _ =>
           apply InitializeEnvironment_counter in H as [Hinit0 Hinit1]
       end.
  all: focus key "driftIncrement".
  all: (split; [intros Hok Hesc; try discriminate; try congruence
               | split; [intros Hesc; try congruence
                        | intros Hok Hres; try discriminate; try congruence]]).
  all: try match goal with
       | Hc : counter _ = Some (?n - 1) |- exists _, _ =>
           exists (n - 1); split;
           [congruence | replace (n - 1 + 1) with n by lia; congruence]
       end.
  all: repeat match goal with
       | H : _ \/ _ |- _ => destruct H
       | H : is_ok (Ok _) = true -> _ |- _ => specialize (H eq_refl)
       end;
       first [ congruence | left; congruence | right; congruence ].
Qed.

(** ** The escalation and the resolution of a report *)

(** C1. The drift counter is incremented by a report exactly when the report
    is scheduled, its operation is plan, its exit code is 2 and its branch is
    the comparison branch.  In the trace of a report there is one call of
    [IncrementDrift] when the four conditions hold and the report came to
    step 4 (the operation log was updated), and none otherwise; the call is
    for the key of the report.  On Redis the increment is HINCRBY by 1: after
    a report that meets the four conditions and is processed without error,
    the counter of the record is its counter before (0 for a record that was
    not there) plus one; after a report that fails one of the conditions it
    is what it was before, or 0. *)
Theorem ProcessDriftDetection_increments_counter {S T : Type}
    (st : StorageRepository S) (tr : IssueTracker T) (cfg : Config.t)
    (now : string) (payload : Payload.t) (s : S) (t : T) :
  let d := wire st tr cfg in
  let key := DriftServiceImpl.GenerateKey (Payload.RepoName payload)
               (Payload.Environment payload) in
  let c := DriftServiceImpl.ProcessDriftDetection d now payload in
  let evs := events_of c s t in
  (DriftServiceImpl.escalates d payload = true
   <-> Payload.Scheduled payload = true
       /\ Payload.Operation payload = "plan"
       /\ Payload.ExitCode payload = 2
       /\ Payload.Branch payload = Config.ComparisonBranch cfg)
  /\ count is_IncrementDrift evs
     = (if DriftServiceImpl.escalates d payload
           && (0 <? count log_updated evs)%nat then 1 else 0)%nat
  /\ count (increments key) evs = count is_IncrementDrift evs
  /\ (forall env_default (r : redis.Server),
        let c := DriftServiceImpl.ProcessDriftDetection
                   (wire (NewRedisRepository env_default) tr cfg) now payload in
        let r' := store_after c r t in
        (is_ok (result_of c r t) = true ->
         DriftServiceImpl.escalates d payload = true ->
         exists old,
           counter (stored r key "driftIncrement") = Some old
           /\ stored r' key "driftIncrement" = Some (strconv.Itoa (old + 1)))
        /\ (DriftServiceImpl.escalates d payload = false ->
            stored r' key "driftIncrement" = stored r key "driftIncrement"
            \/ stored r' key "driftIncrement" = Some "0")).
Proof.
  intros d key c evs. subst evs. split; [|split; [|split]].
  - unfold DriftServiceImpl.escalates. subst d. cbn [wire
      DriftServiceImpl.NewDriftService DriftServiceImpl.config].
    rewrite !andb_true_iff, !bool_decide_eq_true, Z.eqb_eq. tauto.
  - refine (run_wp c s t (fun _ evs _ _ =>
      count is_IncrementDrift evs
      = (if DriftServiceImpl.escalates d payload
            && (0 <? count log_updated evs)%nat then 1 else 0)%nat) _).
    subst c d key. unfold DriftServiceImpl.ProcessDriftDetection.
    report_run; try exclusive; count_leaf; reflexivity.
  - refine (run_wp c s t (fun _ evs _ _ =>
      count (increments key) evs = count is_IncrementDrift evs) _).
    subst c d key. unfold DriftServiceImpl.ProcessDriftDetection.
    report_run; try exclusive; count_leaf; reflexivity.
  - intros env_default r c' r'.
    destruct (counter_after_report env_default tr cfg now payload r t)
      as (Hinc & Hnot & _).
    split; [exact Hinc | exact Hnot].
Qed.

(** C2. The reset procedure runs for a report exactly when its operation is
    apply (whatever the exit code), or its operation is plan with exit code 0
    on the comparison branch; no report meets this condition and the
    condition of the increment.  In the trace of a report there is one call
    of [ResetDrift] when the condition holds and the report came to step 5
    (the operation log was updated), and none otherwise; the call is for the
    key of the report.  The reset sets the counter to 0 whatever it was: on
    Redis, a [ResetDrift] that succeeds leaves the counter of the key at 0,
    and so does a report that resolves and is processed without error. *)
Theorem ProcessDriftDetection_resets_counter {S T : Type}
    (st : StorageRepository S) (tr : IssueTracker T) (cfg : Config.t)
    (now : string) (payload : Payload.t) (s : S) (t : T) :
  let d := wire st tr cfg in
  let key := DriftServiceImpl.GenerateKey (Payload.RepoName payload)
               (Payload.Environment payload) in
  let c := DriftServiceImpl.ProcessDriftDetection d now payload in
  let evs := events_of c s t in
  (DriftServiceImpl.resolves d payload = true
   <-> Payload.Operation payload = "apply"
       \/ (Payload.Operation payload = "plan"
           /\ Payload.ExitCode payload = 0
           /\ Payload.Branch payload = Config.ComparisonBranch cfg))
  /\ DriftServiceImpl.escalates d payload && DriftServiceImpl.resolves d payload
     = false
  /\ count is_ResetDrift evs
     = (if DriftServiceImpl.resolves d payload
           && (0 <? count log_updated evs)%nat then 1 else 0)%nat
  /\ count (resets key) evs = count is_ResetDrift evs
  /\ (forall (r r1 : redis.Server) (any : string),
        RedisRepository.ResetDrift any r = (Ok tt, r1) ->
        stored r1 any "driftIncrement" = Some "0")
  /\ (forall env_default (r : redis.Server),
        let c := DriftServiceImpl.ProcessDriftDetection
                   (wire (NewRedisRepository env_default) tr cfg) now payload in
        is_ok (result_of c r t) = true ->
        DriftServiceImpl.resolves d payload = true ->
        stored (store_after c r t) key "driftIncrement" = Some "0").
Proof.
  intros d key c evs. subst evs. split; [|split; [|split; [|split; [|split]]]].
  - unfold DriftServiceImpl.resolves. subst d. cbn [wire
      DriftServiceImpl.NewDriftService DriftServiceImpl.config].
    rewrite orb_true_iff, !andb_true_iff, !bool_decide_eq_true, Z.eqb_eq. tauto.
  - destruct (DriftServiceImpl.escalates d payload) eqn:He; [|reflexivity].
    now rewrite (escalates_resolves_exclusive d payload He).
  - refine (run_wp c s t (fun _ evs _ _ =>
      count is_ResetDrift evs
      = (if DriftServiceImpl.resolves d payload
            && (0 <? count log_updated evs)%nat then 1 else 0)%nat) _).
    subst c d key. unfold DriftServiceImpl.ProcessDriftDetection.
    report_run; try exclusive; count_leaf;
      try match goal with
      | He : DriftServiceImpl.escalates _ _ = true |- _ =>
          rewrite (escalates_resolves_exclusive _ _ He)
      end;
      reflexivity.
  - refine (run_wp c s t (fun _ evs _ _ =>
      count (resets key) evs = count is_ResetDrift evs) _).
    subst c d key. unfold DriftServiceImpl.ProcessDriftDetection.
    report_run; try exclusive; count_leaf; reflexivity.
  - intros r r1 any H. rewrite (ResetDrift_spec _ _ _ _ H). decide_names.
    reflexivity.
  - intros env_default r c'.
    destruct (counter_after_report env_default tr cfg now payload r t)
      as (_ & _ & Hres).
    exact Hres.
Qed.

(** ** Failures and the caller *)

Lemma wraps_trans (E' E x : error) : wraps E' E -> wraps E x -> wraps E' x.
Proof. induction 1; [trivial | intros; constructor; auto]. Qed.

Lemma Forall_surfaced_mono {A B} (dropped dropped' : Call -> bool)
    (res : result A) (res' : result B) (evs : list Event) :
  (forall c, dropped c = true -> dropped' c = true) ->
  (forall E, res = Err E -> exists E', res' = Err E' /\ wraps E' E) ->
  Forall (surfaced dropped res) evs -> Forall (surfaced dropped' res') evs.
Proof.
  intros Hd Hres Hall. eapply Forall_impl; [exact Hall|].
  intros e. unfold surfaced. destruct (returned e) as [v|x]; [trivial|].
  intros [H|(E & HE & Hw)]; [left; auto|right].
  destruct (Hres E HE) as (E' & HE' & Hw').
  exists E'. split; [assumption | eapply wraps_trans; eassumption].
Qed.

(** C3, as amended.  Every failure of a call of the storage or of the
    tracker made while a report is processed reaches the caller: the result
    of [ProcessDriftDetection] is then an error that wraps the error of the
    call.  Two reads are the exception, whose failure is dropped and does not
    stop the report: the read of planOutput in the breach procedure, and the
    read of issueID in the reset procedure. *)
Theorem ProcessDriftDetection_surfaces_failures {S T : Type}
    (st : StorageRepository S) (tr : IssueTracker T) (cfg : Config.t)
    (now : string) (payload : Payload.t) (s : S) (t : T) :
  let d := wire st tr cfg in
  let c := DriftServiceImpl.ProcessDriftDetection d now payload in
  Forall (surfaced (dropped_read (DriftServiceImpl.escalates d payload)
                                 (DriftServiceImpl.resolves d payload))
                   (result_of c s t))
         (events_of c s t).
Proof.
  intros d c.
  refine (run_wp c s t (fun res evs _ _ =>
    Forall (surfaced (dropped_read (DriftServiceImpl.escalates d payload)
                                   (DriftServiceImpl.resolves d payload)) res)
           evs) _).
  subst c d. unfold DriftServiceImpl.ProcessDriftDetection.
  report_run; try exclusive.
  all: repeat match goal with
       | H : trace ?w = _ |- context [trace ?w] => rewrite H
       end.
  all: repeat (rewrite ?Forall_app, ?Forall_cons, ?Forall_nil).
  all: repeat match goal with
       | H : Forall _ (_ :: _) |- _ => rewrite Forall_cons in H; destruct H
       end.
  all: repeat split.
  all: try exact I.
  all: try (right; eexists; split; [reflexivity | repeat constructor]; fail).
  all: try (eapply Forall_surfaced_mono; [| |eassumption];
            [ intros c Hc; unfold dropped_read; rewrite Hc; cbn;
              rewrite ?orb_true_r; reflexivity
            | first [ intros E HE; discriminate HE
                    | intros E [= <-]; eexists;
                      split; [reflexivity | repeat constructor] ] ]).
  all: match goal with
       | H : surfaced _ ?res0 ?e |- surfaced _ ?res1 ?e =>
           revert H; unfold surfaced; destruct (returned e); [trivial|];
           intros [Hd|(E & HE & Hw)];
           [ left; unfold dropped_read; rewrite Hd; cbn;
             rewrite ?orb_true_r; reflexivity
           | right; first [ discriminate HE
                          | injection HE as <-; eexists;
                            split; [reflexivity | repeat constructor; exact Hw] ] ]
       end.
Qed.

(** ** The identity fields of a record *)

(** The threshold that the initialization writes is the one the report asks
    for: the default of the environment never comes into play, the threshold
    handed over by the service being never empty. *)
Lemma threshold_written env_default cfg p :
  (if decide ((if decide (Payload.DriftThreshold p = "")
               then strconv.Itoa (Config.DriftThreshold cfg)
               else Payload.DriftThreshold p) = "")
   then (if decide (env_default = "") then "1" else env_default)
   else (if decide (Payload.DriftThreshold p = "")
         then strconv.Itoa (Config.DriftThreshold cfg)
         else Payload.DriftThreshold p))
  = effective_threshold cfg p.
Proof.
  unfold effective_threshold.
  destruct (decide (Payload.DriftThreshold p = "")) as [He|Hne].
  - destruct (decide (strconv.Itoa (Config.DriftThreshold cfg) = "")) as [H|H];
      [now apply Itoa_nonempty in H | reflexivity].
  - destruct (decide (Payload.DriftThreshold p = "")); [contradiction | reflexivity].
Qed.

(** A run of [ProcessDriftDetection] on Redis: the two procedures are run by
    their summaries and their frames together. *)
Ltac summary_and_frame_step :=
  lazymatch goal with
  | |- wp (DriftServiceImpl.HandleThresholdBreach _ _ _) _ _ =>
      eapply wp_mono;
      [apply wp_and;
       [apply HandleThresholdBreach_summary | apply HandleThresholdBreach_frame]|];
      cbn beta; intros [[]|?] ? [(? & ? & ? & ?) ?]
  | |- wp (DriftServiceImpl.ResetDriftIncrement _ _ _) _ _ =>
      eapply wp_mono;
      [apply wp_and;
       [apply ResetDriftIncrement_summary | apply ResetDriftIncrement_frame]|];
      cbn beta; intros [[]|?] ? [(? & ? & ? & ? & ? & ? & ?) (? & ? & ?)]
  end.

Ltac report_run_traced :=
  repeat first [ progress wp_wiring | wp_step | summary_and_frame_step ].

Section identity.
Context {T : Type}.
Variables (env_default : string) (tr : IssueTracker T) (cfg : Config.t).

(** No report changes an identity field that is there, of any record. *)
Lemma report_keeps_identity now p r t k f v :
  identity_field f ->
  stored r k f = Some v ->
  stored (store_after (DriftServiceImpl.ProcessDriftDetection
                         (wire (NewRedisRepository env_default) tr cfg) now p) r t) k f
  = Some v.
Proof.
  intros Hf Hv.
  refine (run_wp _ r t (fun _ _ r' _ => stored r' k f = Some v) _).
  unfold DriftServiceImpl.ProcessDriftDetection.
  remember (DriftServiceImpl.GenerateKey (Payload.RepoName p)
              (Payload.Environment p)) as key eqn:Hkey.
  clear Hkey.
  report_run_redis; try exclusive.
  all: cbn [NewRedisRepository InitializeEnvironment] in *.
  all: match goal with
       | H : RedisRepository.InitializeEnvironment _ _ _ _ _ _ = _ |- _ =>
           apply InitializeEnvironment_spec in H
       end.
  all: destruct Hf as [->|[->| ->]].
  all: match goal with |- stored _ _ ?f0 = _ => focus k f0 end.
  all: match goal with
       | |- stored _ ?k0 ?f0 = _ =>
           repeat match goal with
           | H : if ?a then _ else _ |- _ => destruct a
           | H : _ /\ _ |- _ => destruct H
           end;
           try (destruct (decide (k0 = key)) as [->|Hne]);
           repeat match goal with
           | H : forall f, stored _ _ f = None |- _ =>
               first [ rewrite H in Hv; discriminate | clear H ]
           | H : forall k f, k <> _ -> stored _ k f = stored _ k f |- _ =>
               first [ pose proof (H k0 f0 Hne) | idtac ]; clear H
           | H : forall k f, stored _ k f = stored _ k f |- _ =>
               pose proof (H k0 f0); clear H
           end
       end; congruence.
Qed.

(** No report initializes a record that is there. *)
Lemma report_initializes_not now p r t k f v :
  stored r k f = Some v ->
  count (initializes k)
    (events_of (DriftServiceImpl.ProcessDriftDetection
                  (wire (NewRedisRepository env_default) tr cfg) now p) r t) = 0%nat.
Proof.
  intros Hv.
  refine (run_wp _ r t (fun _ evs _ _ => count (initializes k) evs = 0%nat) _).
  unfold DriftServiceImpl.ProcessDriftDetection.
  remember (DriftServiceImpl.GenerateKey (Payload.RepoName p)
              (Payload.Environment p)) as key eqn:Hkey.
  clear Hkey.
  report_run; try exclusive.
  all: cbn [NewRedisRepository InitializeEnvironment] in *.
  all: match goal with
       | H : RedisRepository.InitializeEnvironment _ _ _ _ _ _ = _ |- _ =>
           apply InitializeEnvironment_spec in H
       end.
  all: count_leaf.
  all: try reflexivity.
  all: match goal with
       | H : if ?a then _ else _ |- _ =>
           destruct a; [destruct H as [Hnone _]|]
       end.
  all: try reflexivity.
  all: destruct (decide (key = k)) as [->|Hne];
       [rewrite Hnone in Hv; discriminate
       |rewrite bool_decide_eq_false_2 by assumption; reflexivity].
Qed.

(** The first report for a key, when its initialization does not fail. *)
Lemma first_report_initializes now p r t :
  let d := wire (NewRedisRepository env_default) tr cfg in
  let key := DriftServiceImpl.GenerateKey (Payload.RepoName p)
               (Payload.Environment p) in
  let c := DriftServiceImpl.ProcessDriftDetection d now p in
  let r' := store_after c r t in
  redis.hash (redis.db r) key = ∅ ->
  Forall (fun e => is_InitializeEnvironment e = true -> succeeded e = true)
    (events_of c r t) ->
  count (initializes key) (events_of c r t) = 1%nat
  /\ stored r' key "environmentTier" = Some (Payload.EnvironmentTier p)
  /\ stored r' key "projectID" = Some (Payload.ProjectID p)
  /\ stored r' key "driftThreshold" = Some (effective_threshold cfg p)
  /\ (stored r' key "driftIncrement" = Some "0"
      \/ DriftServiceImpl.escalates d p = true
         /\ stored r' key "driftIncrement" = Some "1").
Proof.
  intros d key c r' Hnew. subst r'.
  refine (run_wp c r t (fun _ evs r' _ =>
    Forall (fun e => is_InitializeEnvironment e = true -> succeeded e = true) evs ->
    count (initializes key) evs = 1%nat
    /\ stored r' key "environmentTier" = Some (Payload.EnvironmentTier p)
    /\ stored r' key "projectID" = Some (Payload.ProjectID p)
    /\ stored r' key "driftThreshold" = Some (effective_threshold cfg p)
    /\ (stored r' key "driftIncrement" = Some "0"
        \/ DriftServiceImpl.escalates d p = true
           /\ stored r' key "driftIncrement" = Some "1")) _).
  subst c d. unfold DriftServiceImpl.ProcessDriftDetection.
  fold key. clearbody key.
  report_run_traced; try exclusive.
  all: cbn [NewRedisRepository InitializeEnvironment] in *.
  all: match goal with
       | H : RedisRepository.InitializeEnvironment _ _ _ _ _ _ = _ |- _ =>
           apply InitializeEnvironment_spec in H
       end.
  all: intros Hall;
       repeat match goal with
       | H : trace ?w = _ |- _ => rewrite H in Hall
       end;
       rewrite <- ?app_assoc in Hall; cbn [app] in Hall;
       pose proof (Forall_inv Hall eq_refl) as Hinit; clear Hall;
       try discriminate Hinit; clear Hinit.
  all: match goal with
       | H : if ?a then _ else _ |- _ =>
           destruct a; [|destruct H as [H _]; contradiction];
           destruct H as (Hnone & Hthr & Htier & Hpid & Hzero & _)
       end.
  all: match type of Hthr with
       | stored ?s0 _ _ = _ =>
           assert (Hthr' : stored s0 key "driftThreshold"
                           = Some (effective_threshold cfg p))
             by (rewrite Hthr; f_equal; apply threshold_written);
           clear Hthr
       end.
  all: split; [count_leaf; now rewrite ?bool_decide_eq_true_2 by reflexivity|].
  all: split; [focus key "environmentTier"; congruence|].
  all: split; [focus key "projectID"; congruence|].
  all: split; [focus key "driftThreshold"; congruence|].
  all: focus key "driftIncrement".
  all: try match goal with
       | Hc : counter (stored ?s0 ?k0 _) = Some (?n - 1),
         Hn : stored _ _ _ = Some (strconv.Itoa ?n) |- _ =>
           replace (stored s0 k0 "driftIncrement") with (Some "0") in Hc
             by congruence;
           change (counter (Some "0")) with (Some 0) in Hc;
           assert (n = 1) as -> by (injection Hc; lia);
           change (strconv.Itoa 1) with "1" in Hn; clear Hc
       end.
  all: repeat match goal with
       | H : _ \/ _ |- _ => destruct H
       | H : is_ok (Ok _) = true -> _ |- _ => specialize (H eq_refl)
       end;
       first [ left; congruence | right; split; [reflexivity | congruence] ].
Qed.

(** Reports one after the other: none of them initializes a record that is
    there, and none changes its identity fields. *)
Lemma later_reports_keep_identity reports : forall r t k,
  (forall f, identity_field f -> is_Some (stored r k f)) ->
  let d := wire (NewRedisRepository env_default) tr cfg in
  count (initializes k) (events_of_all d reports r t) = 0%nat
  /\ forall f, identity_field f ->
       stored (process_all d reports r t).1 k f = stored r k f.
Proof.
  induction reports as [|[now p] rest IH]; intros r t k Hthere d.
  - split; [reflexivity | intros f _; reflexivity].
  - cbn [events_of_all process_all].
    assert (Hkept : forall f, identity_field f ->
              stored (store_after (DriftServiceImpl.ProcessDriftDetection d now p)
                        r t) k f = stored r k f).
    { intros f Hf. destruct (Hthere f Hf) as [v Hv]. rewrite Hv.
      now apply report_keeps_identity. }
    destruct (IH (store_after (DriftServiceImpl.ProcessDriftDetection d now p) r t)
                 (tracker_after (DriftServiceImpl.ProcessDriftDetection d now p) r t)
                 k) as [Hcount Hsame].
    { intros f Hf. rewrite (Hkept f Hf). now apply Hthere. }
    split.
    + rewrite count_app. fold d in Hcount. rewrite Hcount.
      destruct (Hthere "projectID") as [v Hv]; [right; now left|].
      subst d. now rewrite (report_initializes_not now p r t k _ v Hv).
    + intros f Hf. fold d in Hsame. rewrite (Hsame f Hf). now apply Hkept.
Qed.

End identity.

(** C5. The identity fields environmentTier, projectID and driftThreshold of
    a record are written once, by the first report for its key, which also
    sets driftIncrement to 0; the reports after it leave them as they are,
    whatever tier, project id or threshold they carry.  Here the first report
    of a list of reports meets no record for its key, and its initialization
    does not fail.  It is then the one event of its trace that creates the
    record; after it the three fields hold the tier and the project id of the
    report and the threshold it asks for, and driftIncrement is 0, or 1 when
    the same report went on to increment it.  In the trace of all the reports
    of the list that initialization is still the only one that creates the
    record of the key, and after all of them the three fields are what the
    first report made them. *)
Theorem ProcessDriftDetection_initializes_once {T : Type} (env_default : string)
    (tr : IssueTracker T) (cfg : Config.t) (now : string) (p : Payload.t)
    (reports : list (string * Payload.t)) (r : redis.Server) (t : T) :
  let d := wire (NewRedisRepository env_default) tr cfg in
  let key := DriftServiceImpl.GenerateKey (Payload.RepoName p)
               (Payload.Environment p) in
  let first := DriftServiceImpl.ProcessDriftDetection d now p in
  let r1 := store_after first r t in
  let r2 := (process_all d ((now, p) :: reports) r t).1 in
  redis.hash (redis.db r) key = ∅ ->
  Forall (fun e => is_InitializeEnvironment e = true -> succeeded e = true)
    (events_of first r t) ->
  (count (initializes key) (events_of first r t) = 1%nat
   /\ stored r1 key "environmentTier" = Some (Payload.EnvironmentTier p)
   /\ stored r1 key "projectID" = Some (Payload.ProjectID p)
   /\ stored r1 key "driftThreshold" = Some (effective_threshold cfg p)
   /\ (stored r1 key "driftIncrement" = Some "0"
       \/ DriftServiceImpl.escalates d p = true
          /\ stored r1 key "driftIncrement" = Some "1"))
  /\ count (initializes key) (events_of_all d ((now, p) :: reports) r t) = 1%nat
  /\ (forall f, identity_field f -> stored r2 key f = stored r1 key f).
Proof.
  intros d key first r1 r2 Hnew Hinit.
  pose proof (first_report_initializes env_default tr cfg now p r t Hnew Hinit)
    as Hfirst.
  fold d key first r1 in Hfirst.
  split; [exact Hfirst|].
  destruct Hfirst as (Hone & Htier & Hpid & Hthr & _).
  destruct (later_reports_keep_identity env_default tr cfg reports r1
              (tracker_after first r t) key) as [Hnone Hsame].
  { intros f [->|[->| ->]]; eauto. }
  split.
  - cbn [events_of_all]. rewrite count_app. fold d first r1. fold d in Hnone.
    rewrite Hone, Hnone. reflexivity.
  - exact Hsame.
Qed.

(** ** Runs on the test doubles *)

(** C3, the claim as it stands fails.  An apply report for a record that
    tracks issue 7: Redis serves the first three commands and loses the
    fourth, the read of issueID in the reset procedure; the report is
    processed with success all the same.  A drift report for the same record:
    Redis loses the sixth command, the read of planOutput in the breach
    procedure; the issue is updated and the report is processed with
    success. *)
Lemma ProcessDriftDetection_drops_read_failures :
  let d := wire (NewRedisRepository "") testing.gitlab testing.cfg in
  let reset := DriftServiceImpl.ProcessDriftDetection d "2025-01-31T11:00:00Z"
                 testing.apply_report in
  let r1 := testing.redis_with (testing.tracked "7")
              (testing.lost_after 3 "connection reset by peer") in
  let breach := DriftServiceImpl.ProcessDriftDetection d "2025-01-31T10:30:00Z"
                  testing.drift_report in
  let r2 := testing.redis_with (testing.tracked "7")
              (testing.lost_after 5 "i/o timeout") in
  let gitlab := [testing.issue 200 7 42 "opened"; testing.issue 200 7 42 "opened"] in
  (is_ok (result_of reset r1 []) = true
   /\ events_of reset r1 [] !! 3%nat
      = Some {| call := call_GetField "svc:prod" "issueID";
                returned := Err (wrapError "error getting field issueID"
                                   (redis.NetworkError "connection reset by peer")) |}
   /\ ~ Forall (surfaced (fun _ => false) (result_of reset r1 []))
          (events_of reset r1 []))
  /\ (is_ok (result_of breach r2 gitlab) = true
      /\ events_of breach r2 gitlab !! 5%nat
         = Some {| call := call_GetField "svc:prod" "planOutput";
                   returned := Err (wrapError "error getting field planOutput"
                                      (redis.NetworkError "i/o timeout")) |}
      /\ ~ Forall (surfaced (fun _ => false) (result_of breach r2 gitlab))
             (events_of breach r2 gitlab)).
Proof.
  cbv zeta. split.
  - split; [vm_compute; reflexivity|]. split; [vm_compute; reflexivity|].
    intros Hall. rewrite Forall_lookup in Hall.
    specialize (Hall 3%nat _ ltac:(vm_compute; reflexivity)).
    vm_compute in Hall. destruct Hall as [H|(E & H & _)]; discriminate H.
  - split; [vm_compute; reflexivity|]. split; [vm_compute; reflexivity|].
    intros Hall. rewrite Forall_lookup in Hall.
    specialize (Hall 5%nat _ ltac:(vm_compute; reflexivity)).
    vm_compute in Hall. destruct Hall as [H|(E & H & _)]; discriminate H.
Qed.

(** C4, the claim as it stands fails.  A breach for a record that tracks
    issue 7.  With a tracker that is not the GitLab client and that answers
    that the issue is open, the breach is handled with success and no
    description is updated; when it answers that the issue is closed, no
    issue is created and nothing is written.  With the GitLab client, for a
    report of project 43 whose issue 7 is not there: the issue that is
    created is issue 7 of project 43, and the stored issueID is the same
    after as before. *)
Lemma HandleThresholdBreach_not_as_claimed :
  let key := "svc:prod" in
  let r := testing.redis_with (testing.tracked "7") [] in
  let other is_open :=
    DriftServiceImpl.HandleThresholdBreach
      (wire (NewRedisRepository "")
         (OtherIssueTracker (testing.MockIssueTracker is_open)) testing.cfg)
      (testing.env "42") 1 in
  let c := DriftServiceImpl.HandleThresholdBreach
             (wire (NewRedisRepository "") testing.gitlab testing.cfg)
             (testing.env "43") 1 in
  let gitlab := [testing.not_found; testing.issue 201 7 43 "opened"] in
  tracked_issue (stored r key "issueID") = Some 7
  /\ result_of (CheckThreshold
                  (NewThresholdManager (T:=nat) (NewRedisRepository "") testing.cfg)
                  key 1) r 0%nat = Ok true
  /\ (result_of (other true) r 0%nat = Ok tt
      /\ status_answers (events_of (other true) r 0%nat) = [(42, 7, true)]
      /\ updated_issues (events_of (other true) r 0%nat) = [])
  /\ (result_of (other false) r 0%nat = Ok tt
      /\ status_answers (events_of (other false) r 0%nat) = [(42, 7, false)]
      /\ created_issues (events_of (other false) r 0%nat) = []
      /\ field_writes (events_of (other false) r 0%nat) = [])
  /\ (result_of c r gitlab = Ok tt
      /\ status_answers (events_of c r gitlab) = [(43, 7, false)]
      /\ fst <$> created_issues (events_of c r gitlab) = [43]
      /\ field_writes (events_of c r gitlab)
         = [(key, "issueID", "7");
            (key, "issueURL", "https://gitlab.example/43/issues/7")]
      /\ stored (store_after c r gitlab) key "issueID" = stored r key "issueID").
Proof.
  cbv zeta. repeat split; vm_compute; reflexivity.
Qed.



(** The breach of the example: the record tracks issue 7 of project 42, which
    GitLab reports open; the issue is updated and the record is as it was. *)
Lemma HandleThresholdBreach_with_GitLab_client_witness :
  let g := GitLabClient.NewGitLabClient testing.httptest testing.cfg in
  let st := NewRedisRepository "" in
  let c := DriftServiceImpl.HandleThresholdBreach
             (wire st (GitLabClientPtr g) testing.cfg) (testing.env "42") 1 in
  let r := testing.redis_with (testing.tracked "7") [] in
  let t := [testing.issue 200 7 42 "opened"; testing.issue 200 7 42 "opened"] in
  result_of (CheckThreshold (NewThresholdManager (T:=list http.Response) st
                               testing.cfg) "svc:prod" 1) r t = Ok true
  /\ result_of c r t = Ok tt
  /\ breach_updates 42 7 (events_of c r t) r (store_after c r t).
Proof.
  cbv zeta.
  assert (Hbreach : result_of (CheckThreshold
            (NewThresholdManager (T:=list http.Response) (NewRedisRepository "")
               testing.cfg) "svc:prod" 1)
            (testing.redis_with (testing.tracked "7") [])
            [testing.issue 200 7 42 "opened"; testing.issue 200 7 42 "opened"]
          = Ok true) by (vm_compute; reflexivity).
  assert (Hok : result_of (DriftServiceImpl.HandleThresholdBreach
            (wire (NewRedisRepository "")
               (GitLabClientPtr (GitLabClient.NewGitLabClient testing.httptest
                                   testing.cfg)) testing.cfg)
            (testing.env "42") 1)
            (testing.redis_with (testing.tracked "7") [])
            [testing.issue 200 7 42 "opened"; testing.issue 200 7 42 "opened"]
          = Ok tt) by (vm_compute; reflexivity).
  split; [exact Hbreach|]. split; [exact Hok|].
  destruct (HandleThresholdBreach_with_GitLab_client
              (GitLabClient.NewGitLabClient testing.httptest testing.cfg)
              testing.cfg "" (testing.env "42") 1
              (testing.redis_with (testing.tracked "7") [])
              [testing.issue 200 7 42 "opened"; testing.issue 200 7 42 "opened"]
              Hbreach Hok) as (projectID & Hproject & Hcases).
  vm_compute in Hproject. injection Hproject as <-.
  lazymatch type of Hcases with
  | match ?x with _ => _ end =>
      let v := eval vm_compute in x in change x with v in Hcases
  end.
  destruct Hcases as [Hupdated|[Hclosed _]]; [exact Hupdated|].
  vm_compute in Hclosed. discriminate Hclosed.
Defined.

(** The first report for svc:prod, a drift report of project 42 that opens
    issue 7, and after it a report that carries tier dev, project 43 and
    threshold 5: the record keeps the tier, the project and the threshold of
    the first. *)
Lemma ProcessDriftDetection_initializes_once_witness :
  let d := wire (NewRedisRepository "") testing.gitlab testing.cfg in
  let first := DriftServiceImpl.ProcessDriftDetection d "2025-01-31T10:30:00Z"
                 testing.drift_report in
  let reports := [("2025-01-31T10:30:00Z", testing.drift_report);
                  ("2025-01-31T12:00:00Z", testing.other_report)] in
  let r := testing.redis_with [] [] in
  let t := [testing.issue 201 7 42 "opened"] in
  let r2 := (process_all d reports r t).1 in
  redis.hash (redis.db r) "svc:prod" = ∅
  /\ Forall (fun e => is_InitializeEnvironment e = true -> succeeded e = true)
       (events_of first r t)
  /\ count (initializes "svc:prod") (events_of_all d reports r t) = 1%nat
  /\ stored r2 "svc:prod" "environmentTier" = Some "prod"
  /\ stored r2 "svc:prod" "projectID" = Some "42"
  /\ stored r2 "svc:prod" "driftThreshold" = Some "1".
Proof.
  cbv zeta.
  assert (Hnew : redis.hash (redis.db (testing.redis_with [] [])) "svc:prod" = ∅)
    by (vm_compute; reflexivity).
  assert (Hinit : Forall
            (fun e => is_InitializeEnvironment e = true -> succeeded e = true)
            (events_of (DriftServiceImpl.ProcessDriftDetection
                          (wire (NewRedisRepository "") testing.gitlab testing.cfg)
                          "2025-01-31T10:30:00Z" testing.drift_report)
               (testing.redis_with [] []) [testing.issue 201 7 42 "opened"])).
  { vm_compute. repeat (constructor; [intros _; reflexivity|]). constructor. }
  split; [exact Hnew|]. split; [exact Hinit|].
  destruct (ProcessDriftDetection_initializes_once "" testing.gitlab testing.cfg
              "2025-01-31T10:30:00Z" testing.drift_report
              [("2025-01-31T12:00:00Z", testing.other_report)]
              (testing.redis_with [] []) [testing.issue 201 7 42 "opened"]
              Hnew Hinit)
    as ((_ & Htier & Hproject & Hthreshold & _) & Honce & Hkept).
  split; [exact Honce|].
  split; [exact (eq_trans (Hkept _ (or_introl eq_refl)) Htier)|].
  split; [exact (eq_trans (Hkept _ (or_intror (or_introl eq_refl))) Hproject)|].
  exact (eq_trans (Hkept _ (or_intror (or_intror eq_refl))) Hthreshold).
Defined.

(** The drift report of the example, for a record whose counter is 1 and
    whose issue 7 is open: one increment, and the counter is 2. *)
Lemma ProcessDriftDetection_increments_counter_witness :
  let d := wire (NewRedisRepository "") testing.gitlab testing.cfg in
  let c := DriftServiceImpl.ProcessDriftDetection d "2025-01-31T10:30:00Z"
             testing.drift_report in
  let r := testing.redis_with (testing.tracked "7") [] in
  let t := [testing.issue 200 7 42 "opened"; testing.issue 200 7 42 "opened"] in
  DriftServiceImpl.escalates d testing.drift_report = true
  /\ is_ok (result_of c r t) = true
  /\ count is_IncrementDrift (events_of c r t) = 1%nat
  /\ stored (store_after c r t) "svc:prod" "driftIncrement" = Some "2".
Proof.
  cbv zeta.
  assert (Hesc : DriftServiceImpl.escalates
            (wire (NewRedisRepository "") testing.gitlab testing.cfg)
            testing.drift_report = true) by reflexivity.
  assert (Hok : is_ok (result_of
            (DriftServiceImpl.ProcessDriftDetection
               (wire (NewRedisRepository "") testing.gitlab testing.cfg)
               "2025-01-31T10:30:00Z" testing.drift_report)
            (testing.redis_with (testing.tracked "7") [])
            [testing.issue 200 7 42 "opened"; testing.issue 200 7 42 "opened"])
          = true) by (vm_compute; reflexivity).
  split; [exact Hesc|]. split; [exact Hok|].
  destruct (ProcessDriftDetection_increments_counter (NewRedisRepository "")
              testing.gitlab testing.cfg "2025-01-31T10:30:00Z"
              testing.drift_report (testing.redis_with (testing.tracked "7") [])
              [testing.issue 200 7 42 "opened"; testing.issue 200 7 42 "opened"])
    as (_ & Hcount & _ & Hredis).
  split.
  - etransitivity; [exact Hcount|]. vm_compute. reflexivity.
  - destruct (Hredis "" (testing.redis_with (testing.tracked "7") []))
      as [Hincremented _].
    destruct (Hincremented Hok Hesc) as (old & Hold & Hnew).
    vm_compute in Hold. injection Hold as <-. exact Hnew.
Defined.

(** The apply report of the example, for the same record: GitLab answers the
    status query, the comment and the close; the counter is 0. *)
Lemma ProcessDriftDetection_resets_counter_witness :
  let d := wire (NewRedisRepository "") testing.gitlab testing.cfg in
  let c := DriftServiceImpl.ProcessDriftDetection d "2025-01-31T11:00:00Z"
             testing.apply_report in
  let r := testing.redis_with (testing.tracked "7") [] in
  let t := [testing.issue 200 7 42 "opened"; testing.issue 201 7 42 "opened";
             testing.issue 200 7 42 "closed"] in
  DriftServiceImpl.resolves d testing.apply_report = true
  /\ is_ok (result_of c r t) = true
  /\ count is_ResetDrift (events_of c r t) = 1%nat
  /\ stored (store_after c r t) "svc:prod" "driftIncrement" = Some "0".
Proof.
  cbv zeta.
  assert (Hres : DriftServiceImpl.resolves
            (wire (NewRedisRepository "") testing.gitlab testing.cfg)
            testing.apply_report = true) by reflexivity.
  assert (Hok : is_ok (result_of
            (DriftServiceImpl.ProcessDriftDetection
               (wire (NewRedisRepository "") testing.gitlab testing.cfg)
               "2025-01-31T11:00:00Z" testing.apply_report)
            (testing.redis_with (testing.tracked "7") [])
            [testing.issue 200 7 42 "opened"; testing.issue 201 7 42 "opened";
             testing.issue 200 7 42 "closed"])
          = true) by (vm_compute; reflexivity).
  split; [exact Hres|]. split; [exact Hok|].
  destruct (ProcessDriftDetection_resets_counter (NewRedisRepository "")
              testing.gitlab testing.cfg "2025-01-31T11:00:00Z"
              testing.apply_report (testing.redis_with (testing.tracked "7") [])
              [testing.issue 200 7 42 "opened"; testing.issue 201 7 42 "opened";
             testing.issue 200 7 42 "closed"])
    as (_ & _ & Hcount & _ & _ & Hredis).
  split.
  - etransitivity; [exact Hcount|]. vm_compute. reflexivity.
  - exact (Hredis "" (testing.redis_with (testing.tracked "7") []) Hok Hres).
Defined.



Lemma command_reachable {A} d
    (run : gmap string (gmap string string) ->
           result A * gmap string (gmap string string)) :
  redis.command (reachable d) run = ((run d).1, reachable (run d).2).
Proof. unfold redis.command, reachable. simpl. destruct (run d). reflexivity. Qed.

Lemma write_fields_initial env_default tier projectID threshold :
  redis.write_fields
    [ ("driftThreshold",
       if decide (threshold = "")
       then (if decide (env_default = "") then "1" else env_default)
       else threshold);
      ("environmentTier", tier); ("projectID", projectID);
      ("driftIncrement", "0") ] ∅
  = initial_record env_default tier projectID threshold.
Proof.
  unfold redis.write_fields, initial_record. cbn [foldl fst snd].
  apply map_eq. intros f.
  destruct (decide (f = "driftIncrement")) as [->|H1];
    [now rewrite !lookup_insert|].
  destruct (decide (f = "projectID")) as [->|H2];
    [now rewrite !lookup_insert|].
  destruct (decide (f = "environmentTier")) as [->|H3];
    [now rewrite !lookup_insert|].
  destruct (decide (f = "driftThreshold")) as [->|H4];
    [now rewrite !lookup_insert|].
  rewrite !lookup_insert_ne by congruence.
  rewrite lookup_singleton_ne by congruence. apply lookup_empty.
Qed.

Lemma initial_record_not_empty env_default tier projectID threshold :
  initial_record env_default tier projectID threshold <> ∅.
Proof.
  intros H. apply (f_equal (fun m => m !! "environmentTier")) in H.
  unfold initial_record in H. rewrite lookup_insert_ne in H by discriminate.
  rewrite lookup_insert_eq, lookup_empty in H. discriminate.
Qed.

(** X1. [InitializeEnvironment] creates a record once.  On a server that
    every command reaches, the first call returns true exactly when the key
    has no record, and then stores the four fields of [initial_record] (the
    threshold as given, else the default of the environment, else 1; the
    counter at 0); a record that is there is left as it is.  A second call,
    whatever its arguments, returns false and changes nothing.
    [GetEnvironmentData] fails with the no-data error on a key without a
    record, and returns the record once the key is initialized. *)
Theorem InitializeEnvironment_creates_once (env_default key : string)
    (tier projectID threshold tier' projectID' threshold' : string)
    (d : gmap string (gmap string string)) :
  let init := RedisRepository.InitializeEnvironment env_default key in
  let first := init tier projectID threshold (reachable d) in
  let second := init tier' projectID' threshold' first.2 in
  let d1 := if decide (redis.hash d key = ∅)
            then <[key := initial_record env_default tier projectID threshold]> d
            else d in
  first = (Ok (bool_decide (redis.hash d key = ∅)), reachable d1)
  /\ second = (Ok false, reachable d1)
  /\ (RedisRepository.GetEnvironmentData key (reachable d)).1
     = (if decide (redis.hash d key = ∅)
        then Err (errorString ("no data found for key: " +:+ key))
        else Ok (redis.hash d key))
  /\ (RedisRepository.GetEnvironmentData key first.2).1
     = Ok (if decide (redis.hash d key = ∅)
           then initial_record env_default tier projectID threshold
           else redis.hash d key).
Proof.
  intros init first second d1.
  assert (Hfirst : first = (Ok (bool_decide (redis.hash d key = ∅)), reachable d1)).
  { subst first init d1. unfold RedisRepository.InitializeEnvironment, redis.Exists,
      redis.HMSet.
    rewrite command_reachable. cbn [fst snd].
    destruct (decide (redis.hash d key = ∅)) as [He|Hne].
    - rewrite bool_decide_eq_true_2 by assumption.
      change (0 <? 0) with false. cbn iota.
      rewrite command_reachable. cbn [fst snd]. rewrite He.
      now rewrite write_fields_initial.
    - rewrite bool_decide_eq_false_2 by assumption. reflexivity. }
  assert (Hthere : redis.hash d1 key <> ∅).
  { subst d1. destruct (decide (redis.hash d key = ∅)); [|assumption].
    rewrite hash_insert, decide_True by reflexivity.
    apply initial_record_not_empty. }
  split; [exact Hfirst|]. split; [|split].
  - subst second init. rewrite Hfirst. cbn [snd].
    unfold RedisRepository.InitializeEnvironment, redis.Exists.
    rewrite command_reachable. cbn [fst snd].
    now rewrite decide_False by assumption.
  - unfold RedisRepository.GetEnvironmentData, redis.HGetAll.
    rewrite command_reachable. cbn [fst snd].
    destruct (decide (redis.hash d key = ∅)) as [->|Hne].
    + rewrite decide_True by apply map_size_empty. reflexivity.
    + rewrite decide_False by (now rewrite map_size_empty_iff). reflexivity.
  - rewrite Hfirst. cbn [snd].
    unfold RedisRepository.GetEnvironmentData, redis.HGetAll.
    rewrite command_reachable. cbn [fst snd].
    rewrite decide_False by (now rewrite map_size_empty_iff).
    subst d1. destruct (decide (redis.hash d key = ∅)); [|reflexivity].
    now rewrite hash_insert, decide_True.
Qed.

Lemma HSet_reachable key field value d :
  redis.HSet key field value (reachable d)
  = (Ok tt, reachable (<[key := <[field := value]> (redis.hash d key)]> d)).
Proof.
  unfold redis.HSet, redis.HMSet. rewrite command_reachable. reflexivity.
Qed.

Lemma HGet_reachable key field d :
  redis.HGet key field (reachable d)
  = (match redis.hash d key !! field with
     | Some v => Ok v
     | None => Err redis.Nil
     end, reachable d).
Proof. unfold redis.HGet. rewrite command_reachable. reflexivity. Qed.

Lemma GetField_reachable key field d :
  RedisRepository.GetField key field (reachable d)
  = (Ok (default "" (redis.hash d key !! field)), reachable d).
Proof.
  unfold RedisRepository.GetField. rewrite HGet_reachable.
  destruct (redis.hash d key !! field); [reflexivity|].
  now rewrite decide_True.
Qed.

(** X2. [SetField] then [GetField], on a server that every command
    reaches: the field reads back as the value written, and every other field
    of every key reads as before.  A field that is not there reads as the
    empty string, with no error, and a read leaves the server as it was. *)
Theorem SetField_GetField_round_trip (key field value k f : string)
    (d : gmap string (gmap string string)) :
  let written := RedisRepository.SetField key field value (reachable d) in
  written.1 = Ok tt
  /\ (RedisRepository.GetField k f written.2).1
     = Ok (if decide (k = key /\ f = field) then value
           else default "" (redis.hash d k !! f))
  /\ (RedisRepository.GetField k f (reachable d)).1
     = Ok (default "" (redis.hash d k !! f))
  /\ (RedisRepository.GetField k f (reachable d)).2 = reachable d.
Proof.
  intros written. subst written. unfold RedisRepository.SetField.
  rewrite HSet_reachable. cbn [fst snd]. rewrite !GetField_reachable.
  cbn [fst snd]. repeat split.
  rewrite hash_insert. f_equal.
  destruct (decide (k = key)) as [->|Hk].
  - destruct (decide (f = field)) as [->|Hf].
    + rewrite lookup_insert_eq, decide_True by (split; reflexivity). reflexivity.
    + rewrite lookup_insert_ne by congruence.
      rewrite decide_False by (intros [_ ?]; congruence). reflexivity.
  - rewrite decide_False by (intros [? _]; congruence). reflexivity.
Qed.

Lemma InitializeEnvironment_existing env_default key tier projectID threshold d :
  redis.hash d key <> ∅ ->
  RedisRepository.InitializeEnvironment env_default key tier projectID threshold
    (reachable d) = (Ok false, reachable d).
Proof.
  intros Hne. unfold RedisRepository.InitializeEnvironment, redis.Exists.
  rewrite command_reachable. cbn [fst snd].
  now rewrite decide_False by assumption.
Qed.

Lemma hash_written key field value (h : gmap string string)
    (d : gmap string (gmap string string)) :
  redis.hash (<[key := <[field := value]> h]> d) key <> ∅.
Proof.
  rewrite hash_insert, decide_True by reflexivity.
  apply insert_non_empty.
Qed.

Lemma HIncrBy_reachable key field incr d :
  exists res d', redis.HIncrBy key field incr (reachable d) = (res, reachable d')
    /\ match res with
       | Ok n => d' = <[key := <[field := strconv.Itoa n]> (redis.hash d key)]> d
       | Err _ => d' = d
       end.
Proof.
  unfold redis.HIncrBy. rewrite command_reachable.
  destruct (match redis.hash d key !! field with
            | Some v => redis.string2ll v
            | None => Some 0
            end) as [n|]; cbn [fst snd].
  - destruct ((strconv.minInt <=? n + incr) && (n + incr <=? strconv.maxInt));
      cbn [fst snd]; eexists _, _; (split; [reflexivity|]); reflexivity.
  - eexists _, _; (split; [reflexivity|]); reflexivity.
Qed.

(** X3. A key that a write has touched is never initialized afterwards.
    On a server that every command reaches, after [SetField], [StorePlanOutput], [UpdateOperationLog], [ResetDrift] or
    an [IncrementDrift] that succeeded on the key, [InitializeEnvironment]
    returns false and writes nothing, also when the key had no record before
    the write (the record then has no tier, project or threshold).  An
    [IncrementDrift] that fails on a reachable server leaves it as it was. *)
Theorem InitializeEnvironment_after_a_write (env_default key : string)
    (tier projectID threshold : string) (d : gmap string (gmap string string)) :
  let init := RedisRepository.InitializeEnvironment env_default key tier
                projectID threshold in
  let untouched (r : redis.Server) := init r = (Ok false, r) in
  (forall field value,
     untouched (RedisRepository.SetField key field value (reachable d)).2)
  /\ (forall planOutput,
        untouched (RedisRepository.StorePlanOutput key planOutput (reachable d)).2)
  /\ (forall timestamp operation,
        untouched (RedisRepository.UpdateOperationLog key timestamp operation
                     (reachable d)).2)
  /\ untouched (RedisRepository.ResetDrift key (reachable d)).2
  /\ match RedisRepository.IncrementDrift key (reachable d) with
     | (Ok _, r) => untouched r
     | (Err _, r) => r = reachable d
     end.
Proof.
  intros init untouched. subst untouched init. cbn beta.
  repeat split; intros.
  - unfold RedisRepository.SetField. rewrite HSet_reachable. cbn [snd].
    apply InitializeEnvironment_existing, hash_written.
  - unfold RedisRepository.StorePlanOutput. rewrite HSet_reachable. cbn [snd].
    apply InitializeEnvironment_existing, hash_written.
  - unfold RedisRepository.UpdateOperationLog, redis.HMSet.
    rewrite command_reachable. cbn [fst snd redis.write_fields foldl].
    apply InitializeEnvironment_existing, hash_written.
  - unfold RedisRepository.ResetDrift. rewrite HSet_reachable. cbn [snd].
    apply InitializeEnvironment_existing, hash_written.
  - unfold RedisRepository.IncrementDrift.
    destruct (HIncrBy_reachable key "driftIncrement" 1 d) as (res & d' & -> & Hd).
    destruct res as [n|e]; subst d'; [|reflexivity].
    apply InitializeEnvironment_existing, hash_written.
Qed.

Lemma IncrementDrift_reachable key d c :
  counter (redis.hash d key !! "driftIncrement") = Some c ->
  c + 1 <= strconv.maxInt ->
  RedisRepository.IncrementDrift key (reachable d)
  = (Ok (c + 1),
     reachable (<[key := <["driftIncrement" := strconv.Itoa (c + 1)]>
                           (redis.hash d key)]> d)).
Proof.
  intros Hc Hmax.
  assert (Hmin : strconv.minInt <= c).
  { unfold counter in Hc. destruct (redis.hash d key !! "driftIncrement").
    - apply string2ll_canonical in Hc as [_ [? _]]. assumption.
    - injection Hc as <-. unfold strconv.minInt. lia. }
  unfold RedisRepository.IncrementDrift, redis.HIncrBy.
  rewrite command_reachable. unfold counter in Hc. rewrite Hc.
  replace ((strconv.minInt <=? c + 1) && (c + 1 <=? strconv.maxInt)) with true
    by (symmetry; apply andb_true_iff; split; apply Z.leb_le; lia).
  reflexivity.
Qed.

(** X4. [n] calls of [IncrementDrift] in a row that all reach the server,
    on a counter that reads as
    [c] (0 when the field is absent) and has room for them in a 64-bit
    integer, return [c + 1], ..., [c + n] in this order and leave the counter
    at [c + n]; no other field of any record changes. *)
Theorem IncrementDrift_times_counts (key : string)
    (d : gmap string (gmap string string)) (c : Z) (n : nat) :
  counter (redis.hash d key !! "driftIncrement") = Some c ->
  c + Z.of_nat n <= strconv.maxInt ->
  let run := IncrementDrift_times n key (reachable d) in
  run.1 = (fun i => Ok (c + Z.of_nat i)) <$> seq 1 n
  /\ counter (stored run.2 key "driftIncrement") = Some (c + Z.of_nat n)
  /\ (forall k f, k <> key \/ f <> "driftIncrement" ->
        stored run.2 k f = redis.hash d k !! f)
  /\ redis.faults run.2 = [].
Proof.
  revert d c. induction n as [|n IH]; intros d c Hc Hmax run; subst run.
  - cbn [IncrementDrift_times fst snd seq fmap list_fmap].
    rewrite Z.add_0_r. repeat split. exact Hc.
  - cbn [IncrementDrift_times].
    rewrite (IncrementDrift_reachable key d c Hc) by lia.
    set (d1 := <[key := <["driftIncrement" := strconv.Itoa (c + 1)]>
                          (redis.hash d key)]> d).
    assert (Hc1 : counter (redis.hash d1 key !! "driftIncrement") = Some (c + 1)).
    { subst d1. rewrite hash_insert, decide_True, lookup_insert_eq by reflexivity.
      apply string2ll_Itoa. split; [|lia].
      unfold counter in Hc. destruct (redis.hash d key !! "driftIncrement").
      - apply string2ll_canonical in Hc as [_ [? _]]. lia.
      - injection Hc as <-. unfold strconv.minInt. lia. }
    destruct (IH d1 (c + 1) Hc1 ltac:(lia)) as (Hres & Hcount & Hframe & Hfaults).
    destruct (IncrementDrift_times n key (reachable d1)) as [rest r2].
    cbn [fst snd] in *. split; [|split; [|split]].
    + rewrite Hres. cbn [seq fmap list_fmap].
      replace (c + Z.of_nat 1) with (c + 1) by lia. f_equal.
      rewrite <- (fmap_S_seq 1 n), <- list_fmap_compose.
      apply list_fmap_ext. intros _ i _. cbn. f_equal. lia.
    + rewrite Hcount. f_equal. lia.
    + intros k f Hkf. rewrite (Hframe k f Hkf). subst d1.
      rewrite hash_insert. destruct (decide (k = key)) as [->|]; [|reflexivity].
      destruct Hkf as [?|?]; [congruence|].
      now rewrite lookup_insert_ne by congruence.
    + exact Hfaults.
Qed.
Lemma separator_splits (c : ascii) (a a' b b' : string) :
  has_byte c a = false -> has_byte c a' = false ->
  a +:+ String c b = a' +:+ String c b' -> a = a' /\ b = b'.
Proof.
  revert a'. induction a as [|x a IH]; intros [|x' a'] Ha Ha' Heq; cbn in *.
  - injection Heq as ->. auto.
  - injection Heq as <- _. rewrite bool_decide_eq_true_2 in Ha' by reflexivity.
    discriminate.
  - injection Heq as -> _. rewrite bool_decide_eq_true_2 in Ha by reflexivity.
    discriminate.
  - injection Heq as -> Heq.
    apply orb_false_iff in Ha as [_ Ha]. apply orb_false_iff in Ha' as [_ Ha'].
    destruct (IH a' Ha Ha' Heq) as [-> ->]. auto.
Qed.

Lemma append_assoc (a b c : string) : (a +:+ b) +:+ c = a +:+ (b +:+ c).
Proof.
  induction a as [|x a IH]; [reflexivity|].
  change (String x ((a +:+ b) +:+ c) = String x (a +:+ b +:+ c)).
  now rewrite IH.
Qed.

(** X6. Two pairs of a repository name and an environment get the same key
    only when they are the same pair, as long as the repository names hold no
    colon.  With a colon in the name keys do collide: repository [a:b] with
    environment [c] has the key of repository [a] with environment [b:c]. *)
Theorem GenerateKey_collisions :
  (forall repoName environment repoName' environment',
     has_byte ":" repoName = false -> has_byte ":" repoName' = false ->
     DriftServiceImpl.GenerateKey repoName environment
       = DriftServiceImpl.GenerateKey repoName' environment' ->
     repoName = repoName' /\ environment = environment')
  /\ (forall a b c,
        DriftServiceImpl.GenerateKey (a +:+ ":" +:+ b) c
          = DriftServiceImpl.GenerateKey a (b +:+ ":" +:+ c)).
Proof.
  split.
  - intros r e r' e' Hr Hr'. unfold DriftServiceImpl.GenerateKey.
    apply separator_splits; assumption.
  - intros a b c. unfold DriftServiceImpl.GenerateKey.
    now rewrite append_assoc.
Qed.

Lemma bind_wrapf_ok {S T A B} (msg : string) (c : M S T A) (k : A -> M S T B)
    (w : World S T) (a : A) :
  (c w).1 = Ok a -> bind (wrapf msg c) k w = k a (c w).2.
Proof.
  unfold bind, wrapf. destruct (c w) as [res w']. cbn. now intros ->.
Qed.

Lemma CheckThreshold_only_reads {S T : Type} (st : StorageRepository S)
    (cfg : Config.t) (key : string) (n : Z) (s : S) (t : T) :
  let check := CheckThreshold (NewThresholdManager (T:=T) st cfg) key n in
  tracker_after check s t = t
  /\ count (fun e => is_tracker_call (call e)) (events_of check s t) = 0%nat
  /\ count (fun e => is_storage_write (call e)) (events_of check s t) = 0%nat.
Proof.
  intros check.
  refine (run_wp check s t (fun _ evs _ t' =>
    t' = t /\ count (fun e => is_tracker_call (call e)) evs = 0%nat
    /\ count (fun e => is_storage_write (call e)) evs = 0%nat) _).
  subst check. wp_run; cbn; auto.
Qed.

(** X7. When the threshold check answers that the count is below the
    threshold, [HandleThresholdBreach] returns success and has made the calls
    of the check and no other: no call of the tracker, no call that writes to
    the store; the store and the tracker are as the check left them. *)
Theorem HandleThresholdBreach_below_threshold {S T : Type}
    (st : StorageRepository S) (tr : IssueTracker T) (cfg : Config.t)
    (env : EnvironmentInfo.t) (driftCount : Z) (s : S) (t : T) :
  let check := CheckThreshold (NewThresholdManager (T:=T) st cfg)
                 (EnvironmentInfo.Key env) driftCount in
  let c := DriftServiceImpl.HandleThresholdBreach (wire st tr cfg) env driftCount in
  result_of check s t = Ok false ->
  result_of c s t = Ok tt
  /\ events_of c s t = events_of check s t
  /\ store_after c s t = store_after check s t
  /\ tracker_after c s t = t
  /\ count (fun e => is_tracker_call (call e)) (events_of c s t) = 0%nat
  /\ count (fun e => is_storage_write (call e)) (events_of c s t) = 0%nat.
Proof.
  intros check c Hbelow.
  destruct (CheckThreshold_only_reads st cfg (EnvironmentInfo.Key env)
              driftCount s t) as (Htracker & Hcalls & Hwrites).
  fold check in Htracker, Hcalls, Hwrites.
  assert (Hrun : run c s t = (Ok tt, (run check s t).2)).
  { subst c. unfold run, DriftServiceImpl.HandleThresholdBreach.
    cbn [wire DriftServiceImpl.NewDriftService DriftServiceImpl.threshold].
    fold check. now rewrite (bind_wrapf_ok _ _ _ _ false Hbelow). }
  unfold result_of, events_of, store_after, tracker_after in *.
  rewrite Hrun. cbn [fst snd]. auto 10.
Qed.


Lemma UpdateOperationLog_log key timestamp operation r r' :
  RedisRepository.UpdateOperationLog key timestamp operation r = (Ok tt, r') ->
  stored r' key "log" = Some (logEntry timestamp operation).
Proof.
  unfold RedisRepository.UpdateOperationLog.
  destruct (redis.HMSet _ _ r) as [[[]|e] r1] eqn:H; [|discriminate].
  intros [= <-]. rewrite (HMSet_spec _ _ _ _ _ H key "log").
  cbn [is_ok]. rewrite bool_decide_eq_true_2 by reflexivity.
  cbn [andb redis.write_fields foldl fst snd]. now rewrite lookup_insert_eq.
Qed.

Lemma GetEnvironmentData_ok key r data r' :
  RedisRepository.GetEnvironmentData key r = (Ok data, r') ->
  data = redis.hash (redis.db r') key.
Proof.
  unfold RedisRepository.GetEnvironmentData, redis.HGetAll, redis.command.
  pose proof (roundtrip_db r) as Hdb.
  destruct (redis.roundtrip r) as [[e|] r1]; cbn in *; [discriminate|].
  destruct (decide (size (redis.hash (redis.db r1) key) = 0%nat)); [discriminate|].
  intros [= <- <-]. reflexivity.
Qed.

Lemma report_returns_record {T : Type} (env_default : string)
    (tr : IssueTracker T) (cfg : Config.t) (now : string) (payload : Payload.t)
    (r : redis.Server) (t : T) (res : DriftResult.t) :
  let key := DriftServiceImpl.GenerateKey (Payload.RepoName payload)
               (Payload.Environment payload) in
  let c := DriftServiceImpl.ProcessDriftDetection
             (wire (NewRedisRepository env_default) tr cfg) now payload in
  let r' := store_after c r t in
  result_of c r t = Ok res ->
  res = result_of_record (redis.hash (redis.db r') key)
  /\ stored r' key "log"
     = Some (logEntry (if decide (Payload.Timestamp payload = "") then now
                       else Payload.Timestamp payload)
                      (Payload.Operation payload)).
Proof.
  intros key c r'. subst r'.
  refine (run_wp c r t (fun out _ r' _ =>
    out = Ok res ->
    res = result_of_record (redis.hash (redis.db r') key)
    /\ stored r' key "log"
       = Some (logEntry (if decide (Payload.Timestamp payload = "") then now
                         else Payload.Timestamp payload)
                        (Payload.Operation payload))) _).
  subst c. unfold DriftServiceImpl.ProcessDriftDetection. fold key.
  report_run_redis; try exclusive; try discriminate.
  all: intros [= <-].
  all: cbn [NewRedisRepository InitializeEnvironment UpdateOperationLog
            GetEnvironmentData] in *.
  all: match goal with
       | H : RedisRepository.GetEnvironmentData _ _ = (Ok ?a, _) |- _ =>
           pose proof (GetEnvironmentData_ok _ _ _ _ H) as Hdata
       end.
  all: (split; [rewrite Hdata; reflexivity|]).
  all: match goal with
       | H : RedisRepository.UpdateOperationLog _ _ _ _ = (Ok ?u, _) |- _ =>
           destruct u; apply UpdateOperationLog_log in H
       end.
  all: focus key "log".
  all: congruence.
Qed.

(** X9. The result that [ProcessDriftDetection] returns, when it returns
    one, is the record of
    the key as Redis holds it after the report: the tier, the project, the
    counter, the issue id and the issue URL of the record (empty where the
    record has none) and its log; and that log is the entry of this report,
    with the timestamp of the payload, or the time of processing when the
    payload has none. *)
Theorem ProcessDriftDetection_returns_record {T : Type} (env_default : string)
    (tr : IssueTracker T) (cfg : Config.t) (now : string) (payload : Payload.t)
    (r : redis.Server) (t : T) (res : DriftResult.t) :
  let key := DriftServiceImpl.GenerateKey (Payload.RepoName payload)
               (Payload.Environment payload) in
  let c := DriftServiceImpl.ProcessDriftDetection
             (wire (NewRedisRepository env_default) tr cfg) now payload in
  let r' := store_after c r t in
  result_of c r t = Ok res ->
  res = result_of_record (redis.hash (redis.db r') key)
  /\ stored r' key "log"
     = Some (logEntry (if decide (Payload.Timestamp payload = "") then now
                       else Payload.Timestamp payload)
                      (Payload.Operation payload)).
Proof. exact (report_returns_record env_default tr cfg now payload r t res). Qed.

Lemma counter_in_order_step (n : Z) (old : option string) :
  counter old = Some (n - 1) -> strconv.in_int n -> counter_in_order old = true ->
  counter_in_order (Some (strconv.Itoa n)) = true.
Proof.
  unfold counter_in_order. intros -> Hn Hold. cbn [counter].
  rewrite (string2ll_Itoa n Hn). apply Z.leb_le. apply Z.leb_le in Hold. lia.
Qed.

Section counter_invariant.
Context {T : Type}.
Variables (env_default : string) (tr : IssueTracker T) (cfg : Config.t).

Lemma report_keeps_counter_in_order now p r t k :
  counter_in_order (stored r k "driftIncrement") = true ->
  counter_in_order
    (stored (store_after (DriftServiceImpl.ProcessDriftDetection
                            (wire (NewRedisRepository env_default) tr cfg) now p)
               r t) k "driftIncrement") = true.
Proof.
  intros Hv.
  refine (run_wp _ r t (fun _ _ r' _ =>
    counter_in_order (stored r' k "driftIncrement") = true) _).
  unfold DriftServiceImpl.ProcessDriftDetection.
  remember (DriftServiceImpl.GenerateKey (Payload.RepoName p)
              (Payload.Environment p)) as key eqn:Hkey.
  clear Hkey.
  report_run_redis; try exclusive.
  all: cbn [NewRedisRepository InitializeEnvironment] in *.
  all: match goal with
       | H : RedisRepository.InitializeEnvironment _ _ _ _ _ _ = _ |- _ =>
           apply InitializeEnvironment_spec in H
       end.
  all: destruct (decide (k = key)) as [->|Hne].
  all: repeat match goal with
       | H : forall k f, k <> _ \/ _ -> stored _ k f = stored _ k f,
         Hne : ?k0 <> _ |- _ =>
           pose proof (H k0 "driftIncrement" (or_introl Hne)); clear H
       end.
  all: match goal with
       | |- counter_in_order (stored _ ?k0 _) = true => focus k0 "driftIncrement"
       end.
  all: rewrite ?bool_decide_eq_false_2 in * by assumption.
  all: cbn [andb] in *.
  all: repeat match goal with
       | H : if ?a then _ else _ |- _ => destruct a
       | H : _ /\ _ |- _ => destruct H
       | H : _ \/ _ |- _ => destruct H
       | H : is_ok (Ok _) = true -> _ |- _ => specialize (H eq_refl)
       | H : forall k f, k <> _ -> stored _ k f = stored _ k f, Hne : ?k0 <> _ |- _ =>
           pose proof (H k0 "driftIncrement" Hne); clear H
       | H : forall k f, stored _ k f = stored _ k f |- _ =>
           match goal with
           | |- counter_in_order (stored _ ?k0 _) = true =>
               pose proof (H k0 "driftIncrement"); clear H
           end
       end.
  all: repeat match goal with
       | Hz : stored ?b ?k0 "driftIncrement" = Some "0" |- _ =>
           assert (counter_in_order (stored b k0 "driftIncrement") = true)
             by (rewrite Hz; reflexivity);
           clear Hz
       | Hk : counter_in_order (stored ?a ?k0 _) = true,
         He : stored ?b ?k0 _ = stored ?a ?k0 _ |- _ =>
           assert (counter_in_order (stored b k0 "driftIncrement") = true)
             by (rewrite He; exact Hk);
           clear He
       | Hk : counter_in_order (stored ?a ?k0 _) = true,
         Hc : counter (stored ?a ?k0 _) = Some (?n - 1),
         Hn : stored ?b ?k0 _ = Some (strconv.Itoa ?n) |- _ =>
           assert (counter_in_order (stored b k0 "driftIncrement") = true)
             by (rewrite Hn; eapply counter_in_order_step; eassumption);
           clear Hn
       end.
  all: assumption.
Qed.

End counter_invariant.

(** X10. The drift counter of a key stays in order over any sequence of
    reports, whatever the answers of the tracker and the faults of the server:
    when it is absent or the canonical decimal form of an integer that is not
    negative before the reports, it is so after them. *)
Theorem process_all_keeps_counters_in_order {T : Type} (env_default : string)
    (tr : IssueTracker T) (cfg : Config.t) (reports : list (string * Payload.t))
    (r : redis.Server) (t : T) (k : string) :
  let d := wire (NewRedisRepository env_default) tr cfg in
  counter_in_order (stored r k "driftIncrement") = true ->
  counter_in_order (stored (process_all d reports r t).1 k "driftIncrement") = true.
Proof.
  intros d. revert r t.
  induction reports as [|[now p] rest IH]; intros r t Hr; [exact Hr|].
  cbn [process_all]. apply IH. now apply report_keeps_counter_in_order.
Qed.
(** ** Runs against a server that every command reaches *)

Lemma ResetDrift_reachable key d :
  RedisRepository.ResetDrift key (reachable d)
  = (Ok tt, reachable (<[key := <["driftIncrement" := "0"]> (redis.hash d key)]> d)).
Proof. unfold RedisRepository.ResetDrift. now rewrite HSet_reachable. Qed.

Lemma SetField_reachable key field value d :
  RedisRepository.SetField key field value (reachable d)
  = (Ok tt, reachable (<[key := <[field := value]> (redis.hash d key)]> d)).
Proof. unfold RedisRepository.SetField. now rewrite HSet_reachable. Qed.

Lemma StorePlanOutput_reachable key planOutput d :
  RedisRepository.StorePlanOutput key planOutput (reachable d)
  = (Ok tt, reachable (<[key := <["planOutput" := planOutput]> (redis.hash d key)]> d)).
Proof. unfold RedisRepository.StorePlanOutput. now rewrite HSet_reachable. Qed.

Lemma UpdateOperationLog_reachable key timestamp operation d :
  RedisRepository.UpdateOperationLog key timestamp operation (reachable d)
  = (Ok tt, reachable (<[key := <["log" := logEntry timestamp operation]>
                                  (redis.hash d key)]> d)).
Proof.
  unfold RedisRepository.UpdateOperationLog, redis.HMSet.
  rewrite command_reachable. reflexivity.
Qed.

Lemma storage_call_run {S T A} (c : Call) (inj : A -> Value)
    (method : S -> result A * S) (w : World S T) :
  storage_call c inj method w
  = ((method (store w)).1,
     {| store := (method (store w)).2; tracker := tracker w;
        trace := trace w ++ [record c inj (method (store w)).1] |}).
Proof. unfold storage_call. destruct (method (store w)). reflexivity. Qed.

Lemma bind_wrapf_err {S T A B} (msg : string) (c : M S T A) (k : A -> M S T B)
    (w : World S T) (e : error) :
  (c w).1 = Err e -> bind (wrapf msg c) k w = (Err (wrapError msg e), (c w).2).
Proof.
  unfold bind, wrapf. destruct (c w) as [res w']. cbn. now intros ->.
Qed.

(** X11. When the threshold is breached and the project id of the
    environment is not an integer, [HandleThresholdBreach] returns the error
    of the conversion, wrapped as an invalid project ID, after the calls of
    the threshold check and no other: no call of the tracker, no write to the
    store. *)
Theorem HandleThresholdBreach_project_id_not_a_number {S T : Type}
    (st : StorageRepository S) (tr : IssueTracker T) (cfg : Config.t)
    (env : EnvironmentInfo.t) (driftCount : Z) (s : S) (t : T) (e : error) :
  let check := CheckThreshold (NewThresholdManager (T:=T) st cfg)
                 (EnvironmentInfo.Key env) driftCount in
  let c := DriftServiceImpl.HandleThresholdBreach (wire st tr cfg) env driftCount in
  result_of check s t = Ok true ->
  strconv.Atoi (EnvironmentInfo.ProjectID env) = Err e ->
  result_of c s t = Err (wrapError "invalid project ID" e)
  /\ events_of c s t = events_of check s t
  /\ store_after c s t = store_after check s t
  /\ tracker_after c s t = t
  /\ count (fun e => is_tracker_call (call e)) (events_of c s t) = 0%nat
  /\ count (fun e => is_storage_write (call e)) (events_of c s t) = 0%nat.
Proof.
  intros check c Hbreach Hproject.
  destruct (CheckThreshold_only_reads st cfg (EnvironmentInfo.Key env)
              driftCount s t) as (Htracker & Hcalls & Hwrites).
  fold check in Htracker, Hcalls, Hwrites.
  assert (Hrun : run c s t
                 = (Err (wrapError "invalid project ID" e), (run check s t).2)).
  { subst c. unfold run, DriftServiceImpl.HandleThresholdBreach.
    cbn [wire DriftServiceImpl.NewDriftService DriftServiceImpl.threshold].
    fold check. rewrite (bind_wrapf_ok _ _ _ _ true Hbreach). cbn [negb].
    now rewrite (bind_wrapf_err "invalid project ID"
                   (pure (strconv.Atoi (EnvironmentInfo.ProjectID env)))
                   _ _ e Hproject). }
  unfold result_of, events_of, store_after, tracker_after in *.
  rewrite Hrun. cbn [fst snd]. auto 10.
Qed.

(** What a call on a reachable server returned. *)
Ltac reached :=
  cbn [NewRedisRepository InitializeEnvironment UpdateOperationLog
       IncrementDrift ResetDrift GetEnvironmentData SetField GetField
       StorePlanOutput] in *;
  repeat match goal with
  | H : RedisRepository.ResetDrift _ (reachable _) = _ |- _ =>
      rewrite ResetDrift_reachable in H; first [discriminate H | injection H as <- <-]
  | H : RedisRepository.SetField _ _ _ (reachable _) = _ |- _ =>
      rewrite SetField_reachable in H; first [discriminate H | injection H as <- <-]
  | H : RedisRepository.StorePlanOutput _ _ (reachable _) = _ |- _ =>
      rewrite StorePlanOutput_reachable in H; first [discriminate H | injection H as <- <-]
  | H : RedisRepository.UpdateOperationLog _ _ _ (reachable _) = _ |- _ =>
      rewrite UpdateOperationLog_reachable in H; first [discriminate H | injection H as <- <-]
  | H : RedisRepository.GetField _ _ (reachable _) = _ |- _ =>
      rewrite GetField_reachable in H; first [discriminate H | injection H as <- <-]
  end.

(** X12. [ResetDriftIncrement] resets the counter before it looks at the
    project id.  On a server that every command reaches, for a record that tracks an issue and an environment whose
    project id is not an integer, it returns the invalid-project-ID error,
    and by then the counter of the record is 0; the issue id and the issue URL
    stay as they were, and the tracker is not called. *)
Theorem ResetDriftIncrement_project_id_not_a_number {T : Type}
    (env_default : string) (tr : IssueTracker T) (cfg : Config.t)
    (env : EnvironmentInfo.t) (operation : string)
    (d : gmap string (gmap string string)) (t : T) (issueID : Z) (e : error) :
  let key := EnvironmentInfo.Key env in
  let c := DriftServiceImpl.ResetDriftIncrement
             (wire (NewRedisRepository env_default) tr cfg) env operation in
  let r' := store_after c (reachable d) t in
  tracked_issue (redis.hash d key !! "issueID") = Some issueID ->
  strconv.Atoi (EnvironmentInfo.ProjectID env) = Err e ->
  result_of c (reachable d) t = Err (wrapError "invalid project ID" e)
  /\ stored r' key "driftIncrement" = Some "0"
  /\ stored r' key "issueID" = redis.hash d key !! "issueID"
  /\ stored r' key "issueURL" = redis.hash d key !! "issueURL"
  /\ tracker_after c (reachable d) t = t
  /\ count (fun e => is_tracker_call (call e)) (events_of c (reachable d) t) = 0%nat.
Proof.
  intros key c r' Hissue Hproject. subst r'.
  destruct (redis.hash d key !! "issueID") as [v|] eqn:Hv; [|discriminate].
  unfold tracked_issue in Hissue.
  destruct (strconv.Atoi v) as [n|] eqn:Hatoi; [|discriminate].
  destruct (0 <? n) eqn:Hpos; [|discriminate]. injection Hissue as ->.
  assert (Hv' : v <> "") by (intros ->; discriminate).
  refine (run_wp c (reachable d) t (fun res evs r' t' =>
    res = Err (wrapError "invalid project ID" e)
    /\ stored r' key "driftIncrement" = Some "0"
    /\ stored r' key "issueID" = Some v
    /\ stored r' key "issueURL" = redis.hash d key !! "issueURL"
    /\ t' = t
    /\ count (fun e => is_tracker_call (call e)) evs = 0%nat) _).
  subst c. unfold DriftServiceImpl.ResetDriftIncrement. fold key.
  assert (Hread : default ""
            (redis.hash (<[key := <["driftIncrement" := "0"]> (redis.hash d key)]> d)
               key !! "issueID") = v).
  { rewrite hash_insert, decide_True by reflexivity.
    rewrite lookup_insert_ne by discriminate. now rewrite Hv. }
  repeat (first [ progress wp_wiring | wp_step ]; reached; rewrite ?Hread).
  all: try congruence.
  all: try (rewrite Hatoi in *; simplify_eq; lia).
  all: unfold stored; cbn [redis.db reachable];
       rewrite hash_insert, decide_True by reflexivity.
  all: rewrite lookup_insert_eq, !lookup_insert_ne by discriminate.
  all: repeat split; congruence.
Qed.

Lemma hash_insert_same (d : gmap string (gmap string string)) key h :
  redis.hash (<[key := h]> d) key = h.
Proof. now rewrite hash_insert, decide_True. Qed.

(** X13. A report that escalates, for a record whose stored threshold is
    not an integer, on a server that every command reaches: [ProcessDriftDetection] returns the error of the
    conversion under the four messages that wrap it on its way up, the
    counter has been incremented all the same, the threshold stays as it was
    and the tracker is not called. *)
Theorem ProcessDriftDetection_threshold_not_a_number {T : Type}
    (env_default : string) (tr : IssueTracker T) (cfg : Config.t)
    (now : string) (payload : Payload.t)
    (d : gmap string (gmap string string)) (t : T) (v : string) (e : error)
    (n : Z) :
  let d0 := wire (NewRedisRepository env_default) tr cfg in
  let key := DriftServiceImpl.GenerateKey (Payload.RepoName payload)
               (Payload.Environment payload) in
  let c := DriftServiceImpl.ProcessDriftDetection d0 now payload in
  let r' := store_after c (reachable d) t in
  redis.hash d key !! "driftThreshold" = Some v ->
  v <> "" ->
  strconv.Atoi v = Err e ->
  DriftServiceImpl.escalates d0 payload = true ->
  counter (redis.hash d key !! "driftIncrement") = Some n ->
  n + 1 <= strconv.maxInt ->
  result_of c (reachable d) t
    = Err (wrapError "failed to handle threshold breach"
             (wrapError "failed to check threshold"
                (wrapError "failed to get threshold"
                   (wrapError "invalid threshold value" e))))
  /\ stored r' key "driftIncrement" = Some (strconv.Itoa (n + 1))
  /\ stored r' key "driftThreshold" = Some v
  /\ tracker_after c (reachable d) t = t.
Proof.
  intros d0 key c r' Hv Hv' Hatoi Hesc Hn Hmax. subst r'.
  assert (Hthere : redis.hash d key <> ∅).
  { intros H. rewrite H, lookup_empty in Hv. discriminate. }
  refine (run_wp c (reachable d) t (fun res _ r' t' =>
    res = Err (wrapError "failed to handle threshold breach"
                 (wrapError "failed to check threshold"
                    (wrapError "failed to get threshold"
                       (wrapError "invalid threshold value" e))))
    /\ stored r' key "driftIncrement" = Some (strconv.Itoa (n + 1))
    /\ stored r' key "driftThreshold" = Some v
    /\ t' = t) _).
  subst c d0. unfold DriftServiceImpl.ProcessDriftDetection. fold key.
  unfold DriftServiceImpl.HandleThresholdBreach.
  repeat (first [ progress wp_wiring | wp_step
                | progress unfold ThresholdManagerImpl.CheckThreshold,
                                  ThresholdManagerImpl.GetThreshold ];
          cbn [NewRedisRepository InitializeEnvironment UpdateOperationLog
               IncrementDrift ResetDrift GetEnvironmentData SetField GetField
               StorePlanOutput] in *;
          repeat match goal with
          | H : RedisRepository.InitializeEnvironment _ _ _ _ _ (reachable d) = _
            |- _ =>
              rewrite (InitializeEnvironment_existing _ _ _ _ _ _ Hthere) in H;
              first [discriminate H | injection H as <- <-]
          | H : RedisRepository.IncrementDrift _ (reachable _) = _ |- _ =>
              rewrite (IncrementDrift_reachable _ _ n) in H
                by first [ assumption
                         | rewrite hash_insert_same;
                           rewrite lookup_insert_ne by discriminate; assumption ];
              first [discriminate H | injection H as <- <-]
          end;
          reached;
          rewrite ?hash_insert_same;
          rewrite ?lookup_insert_ne by discriminate;
          rewrite ?Hv; cbn [default from_option id] in *;
          try congruence; try exclusive).
  all: unfold stored; cbn [redis.db reachable]; rewrite hash_insert_same.
  all: repeat split; try congruence.
  all: repeat first [ rewrite lookup_insert_eq
                    | rewrite lookup_insert_ne by discriminate ].
  all: congruence.
Qed.
(** ** The GitLab client *)

(** X14. Without a token the GitLab client sends nothing: each of its five
    methods returns the error that names the missing GITLAB_API_TOKEN, the
    list of requests sent and the server are as they were. *)
Theorem GitLabClient_without_token {T : Type} (tr : Transport T)
    (baseURL : string) (s : T) (sent : list http.Request) :
  let g := {| GitLabClient.httpClient := recording tr;
              GitLabClient.baseURL := baseURL;
              GitLabClient.token := "" |} in
  (forall projectID title description,
     GitLabClient.CreateIssue g projectID title description (s, sent)
     = (Err token_missing, (s, sent)))
  /\ (forall projectID issueID operation,
        GitLabClient.CloseIssue g projectID issueID operation (s, sent)
        = (Err token_missing, (s, sent)))
  /\ (forall projectID issueID,
        GitLabClient.GetIssueStatus g projectID issueID (s, sent)
        = (Err token_missing, (s, sent)))
  /\ (forall projectID repoName environment driftIncrement threshold planOutput,
        GitLabClient.CreateDriftIssue g projectID repoName environment
          driftIncrement threshold planOutput (s, sent)
        = (Err token_missing, (s, sent)))
  /\ (forall projectID issueID repoName environment driftIncrement threshold
        planOutput,
        GitLabClient.UpdateIssueDescription g projectID issueID repoName
          environment driftIncrement threshold planOutput (s, sent)
        = (Err token_missing, (s, sent))).
Proof. intros g. repeat split. Qed.

Lemma non_success_success (code : Z) :
  GitLabClient.non_success code = false <-> success code.
Proof.
  unfold GitLabClient.non_success, success.
  rewrite orb_false_iff, Z.ltb_ge, Z.leb_gt. lia.
Qed.

(** The two directions of the characterisations below, case by case. *)
Ltac answers :=
  repeat split; intros;
  repeat match goal with
  | H : exists _, _ |- _ => destruct H
  | H : _ /\ _ |- _ => destruct H
  | H : _ \/ _ |- _ => destruct H
  end;
  simplify_eq;
  first [ discriminate
        | exfalso; first [ congruence | contradiction
                         | unfold success in *; lia ]
        | eauto 10
        | eexists; split; [reflexivity|]; eauto 10 ].

(** The header of a request after its fields were set. *)
Ltac set_headers :=
  repeat match goal with
  | |- context [filter ?P ?l] =>
      let v := eval cbv in (filter P l) in change (filter P l) with v
  end.

Section with_token.
Context {T : Type}.
Variables (tr : Transport T) (baseURL token : string).
Hypothesis Htoken : token <> "".
Hypothesis Hrequests : accepts_requests tr.

Let g : GitLabClient.t (T * list http.Request) :=
  {| GitLabClient.httpClient := recording tr;
     GitLabClient.baseURL := baseURL;
     GitLabClient.token := token |}.

(** The URL of an issue, and the requests about it. *)
Let url (projectID issueID : Z) : string :=
  (baseURL +:+ "/projects/" +:+ strconv.Itoa projectID +:+ "/issues")
  +:+ "/" +:+ strconv.Itoa issueID.

Lemma GetIssueStatus_run (projectID issueID : Z) (s : T) :
  let req := {| http.Method := "GET"; http.URL := url projectID issueID;
                http.Header := [("PRIVATE-TOKEN", token)];
                http.Body := [] |} in
  GitLabClient.GetIssueStatus g projectID issueID (s, [])
  = (match (Do tr req s).1 with
     | Err err => Err (wrapError "error sending request" err)
     | Ok resp =>
         if http.StatusCode resp =? 404 then Ok false
         else if GitLabClient.non_success (http.StatusCode resp) then
           Err (errorString ("received non-success status code: " +:+
                             strconv.Itoa (http.StatusCode resp)))
         else match http.Decoded resp with
              | Err err => Err (wrapError "error decoding response" err)
              | Ok issueResp => Ok (bool_decide (Issue.State issueResp = "opened"))
              end
     end, ((Do tr req s).2, [req])).
Proof.
  intros req. subst req. unfold url, g, GitLabClient.GetIssueStatus.
  cbn [GitLabClient.token GitLabClient.httpClient GitLabClient.baseURL].
  rewrite decide_False by exact Htoken.
  cbn [recording NewRequestWithContext Do]. rewrite Hrequests.
  unfold http.Header_Set. cbn [http.Header http.Method http.URL http.Body filter
    list_filter fst snd app].
  unfold GitLabClient.issue_url, GitLabClient.issues_url.
  cbn [GitLabClient.baseURL].
  match goal with |- context [Do tr ?r s] =>
    destruct (Do tr r s) as [[resp|err] s'] end; cbn [fst snd]; [|reflexivity].
  destruct (http.StatusCode resp =? 404); [reflexivity|].
  destruct (GitLabClient.non_success (http.StatusCode resp)); [reflexivity|].
  destruct (http.Decoded resp); reflexivity.
Qed.

(** X15. With a token, and a transport that builds the requests it is
    asked for, [GetIssueStatus] sends one request, a GET of the
    URL of the issue that carries the token in PRIVATE-TOKEN.  It answers
    true exactly when the response has a 2xx status and decodes to an issue
    in state opened; it answers false exactly when the status is 404, or 2xx
    with an issue in another state. *)
Theorem GetIssueStatus_answers (projectID issueID : Z) (s : T) :
  let req := {| http.Method := "GET"; http.URL := url projectID issueID;
                http.Header := [("PRIVATE-TOKEN", token)];
                http.Body := [] |} in
  let out := GitLabClient.GetIssueStatus g projectID issueID (s, []) in
  out.2 = ((Do tr req s).2, [req])
  /\ (out.1 = Ok true
      <-> exists resp issue,
            (Do tr req s).1 = Ok resp /\ success (http.StatusCode resp)
            /\ http.Decoded resp = Ok issue /\ Issue.State issue = "opened")
  /\ (out.1 = Ok false
      <-> exists resp,
            (Do tr req s).1 = Ok resp
            /\ (http.StatusCode resp = 404
                \/ success (http.StatusCode resp)
                   /\ exists issue, http.Decoded resp = Ok issue
                                    /\ Issue.State issue <> "opened")).
Proof.
  intros req out. subst out. rewrite GetIssueStatus_run. fold req.
  cbn [fst snd]. split; [reflexivity|].
  destruct (Do tr req s) as [[resp|err] s']; cbn [fst snd]; [|answers].
  pose proof (non_success_success (http.StatusCode resp)) as Hcode.
  destruct (http.StatusCode resp =? 404) eqn:H404;
    [apply Z.eqb_eq in H404 | apply Z.eqb_neq in H404].
  { answers. }
  destruct (GitLabClient.non_success (http.StatusCode resp)) eqn:Hns.
  { assert (~ success (http.StatusCode resp))
      by (intros Hs; apply Hcode in Hs; discriminate).
    answers. }
  assert (Hs : success (http.StatusCode resp)) by now apply Hcode.
  destruct (http.Decoded resp) as [issue|err] eqn:Hdec; [|answers].
  destruct (decide (Issue.State issue = "opened")) as [Hopen|Hclosed].
  - rewrite bool_decide_eq_true_2 by assumption. answers.
  - rewrite bool_decide_eq_false_2 by assumption. answers.
Qed.

(** X16. With a token, and a transport that builds the requests it is
    asked for, [CloseIssue] sends two requests, in this order: a
    POST of the comment to the notes of the issue, then a PUT of the issue
    with state_event close; the second is sent whatever became of the first.
    The call succeeds exactly when the response to the PUT has a 2xx status:
    a comment that failed does not fail it. *)
Theorem CloseIssue_comments_then_closes (projectID issueID : Z)
    (operation : string) (s : T) :
  let headers := [("Content-Type", "application/json"); ("PRIVATE-TOKEN", token)] in
  let comment :=
    {| http.Method := "POST"; http.URL := url projectID issueID +:+ "/notes";
       http.Header := headers;
       http.Body :=
         [("body", http.JString
            ("**Drift Resolved** - Infrastructure drift has been resolved through successful Terraform `" +:+
             operation +:+
             "` operation. Issue automatically closed by Drift Guardian."))] |} in
  let close :=
    {| http.Method := "PUT"; http.URL := url projectID issueID;
       http.Header := headers;
       http.Body := [("state_event", http.JString "close")] |} in
  let out := GitLabClient.CloseIssue g projectID issueID operation (s, []) in
  let closed := Do tr close (Do tr comment s).2 in
  out.2 = (closed.2, [comment; close])
  /\ (out.1 = Ok tt
      <-> exists resp, closed.1 = Ok resp /\ success (http.StatusCode resp)).
Proof.
  intros headers comment close out closed.
  subst out closed comment close headers. unfold url, g, GitLabClient.CloseIssue.
  cbn [GitLabClient.token GitLabClient.httpClient GitLabClient.baseURL].
  rewrite decide_False by exact Htoken.
  cbn [recording NewRequestWithContext Do]. rewrite !Hrequests.
  unfold http.Header_Set. cbn [http.Header http.Method http.URL http.Body fst snd].
  set_headers.
  unfold GitLabClient.issue_url, GitLabClient.issues_url.
  cbn [GitLabClient.baseURL].
  match goal with |- context [Do tr ?r s] =>
    destruct (Do tr r s) as [res1 s1] end; cbn [fst snd app].
  match goal with |- context [Do tr ?r s1] =>
    destruct (Do tr r s1) as [[resp|err] s2] end; cbn [fst snd]; [|answers].
  pose proof (non_success_success (http.StatusCode resp)) as Hcode.
  destruct (GitLabClient.non_success (http.StatusCode resp)) eqn:Hns.
  - assert (~ success (http.StatusCode resp))
      by (intros Hs; apply Hcode in Hs; discriminate).
    answers.
  - assert (Hs : success (http.StatusCode resp)) by now apply Hcode.
    answers.
Qed.

End with_token.

Lemma Header_Set_sets (name value : string) (req : http.Request) :
  (name, value) ∈ http.Header (http.Header_Set name value req).
Proof. unfold http.Header_Set. cbn. apply list_elem_of_here. Qed.

Lemma Header_Set_keeps (name value name' value' : string) (req : http.Request) :
  name' <> name ->
  (name', value') ∈ http.Header req ->
  (name', value') ∈ http.Header (http.Header_Set name value req).
Proof.
  intros Hne Hin. unfold http.Header_Set. cbn. apply list_elem_of_further.
  apply list_elem_of_filter. split; [exact Hne | exact Hin].
Qed.

(** X17. Whatever the transport answers, a call of the GitLab client sends
    at most one request (two for [CloseIssue]), and every request it sends
    carries the token of the client in its PRIVATE-TOKEN header. *)
Theorem GitLabClient_requests {T : Type} (tr : Transport T)
    (baseURL token : string) (s : T) :
  let g := {| GitLabClient.httpClient := recording tr;
              GitLabClient.baseURL := baseURL;
              GitLabClient.token := token |} in
  let at_most (n : nat) {A} (out : result A * (T * list http.Request)) :=
    (length out.2.2 <= n)%nat
    /\ Forall (fun req => ("PRIVATE-TOKEN", token) ∈ http.Header req) out.2.2 in
  (forall projectID title description,
     at_most 1%nat (GitLabClient.CreateIssue g projectID title description (s, [])))
  /\ (forall projectID issueID operation,
        at_most 2%nat (GitLabClient.CloseIssue g projectID issueID operation (s, [])))
  /\ (forall projectID issueID,
        at_most 1%nat (GitLabClient.GetIssueStatus g projectID issueID (s, [])))
  /\ (forall projectID repoName environment driftIncrement threshold planOutput,
        at_most 1%nat (GitLabClient.CreateDriftIssue g projectID repoName environment
                     driftIncrement threshold planOutput (s, [])))
  /\ (forall projectID issueID repoName environment driftIncrement threshold
        planOutput,
        at_most 1%nat (GitLabClient.UpdateIssueDescription g projectID issueID
                     repoName environment driftIncrement threshold planOutput
                     (s, []))).
Proof.
  intros g at_most. subst at_most g. cbn beta.
  repeat split; intros;
    unfold GitLabClient.CreateDriftIssue, GitLabClient.CreateIssue,
      GitLabClient.CloseIssue, GitLabClient.GetIssueStatus,
      GitLabClient.UpdateIssueDescription;
    cbn [GitLabClient.token GitLabClient.httpClient GitLabClient.baseURL
         recording NewRequestWithContext Do fst snd];
    repeat match goal with
    | |- context [decide (token = "")] => destruct (decide (token = ""))
    | |- context [NewRequestWithContext tr ?m ?u ?b] =>
        destruct (NewRequestWithContext tr m u b)
    | |- context [Do tr ?r ?x] => destruct (Do tr r x) as [[?|?] ?]
    | |- context [if ?b then _ else _] => destruct b
    | |- context [match http.Decoded ?r with _ => _ end] =>
        destruct (http.Decoded r)
    end;
    cbn [fst snd app length];
    try lia;
    repeat first
      [ apply Forall_nil_2
      | apply Forall_cons_2
      | apply Header_Set_sets
      | apply Header_Set_keeps; [discriminate|] ].
Qed.
(** ** The /environments endpoint *)

Section endpoint.
Context {X W : Type}.
Variables (Unmarshal : string -> result Payload.t) (Quote : string -> string)
  (http_Error : string -> Z -> W -> W) (h : handler.EnvironmentHandlerImpl X W).

Let handle := handler.HandleEnvironments Unmarshal Quote http_Error h.

(** X18. The status of the response of [HandleEnvironments].  It is 405
    exactly when the method is not POST, and 400 exactly when a POST carries
    no report that the validation accepts (the body cannot be read, does not
    decode, or lacks a required field); in both cases the service is not run
    and nothing else is written.  Otherwise the system is left as
    [ProcessDriftDetection] leaves it, and the status is 500 exactly when the
    processing failed and 200 exactly when it succeeded. *)
Theorem HandleEnvironments_status (r : handler.Request) (x : X) (w0 : W) :
  let hw := {| handler.system := x; handler.w := w0; handler.written := [] |} in
  let out := handle r hw in
  let service := handler.driftService h in
  exists first rest,
    handler.written out = first :: rest
    /\ (status_of first = 405 <-> handler.Method r <> "POST")
    /\ (status_of first = 400
        <-> handler.Method r = "POST"
            /\ accepted_report Unmarshal service r = None)
    /\ match accepted_report Unmarshal service r with
       | None => handler.system out = x /\ rest = []
       | Some payload =>
           let processed := handler.ProcessDriftDetection service payload x in
           handler.system out = processed.2
           /\ (status_of first = 500 <-> is_ok processed.1 = false)
           /\ (status_of first = 200 <-> is_ok processed.1 = true)
       end.
Proof.
  intros hw out service. subst out handle hw service.
  unfold handler.HandleEnvironments, accepted_report, handler.respond_error.
  cbn [handler.system handler.w handler.written].
  destruct (decide (handler.Method r <> "POST")) as [Hm|Hm].
  { rewrite decide_False by assumption. cbn.
    eexists _, _. split; [reflexivity|]. cbn. intuition (try discriminate). }
  apply dec_stable in Hm. rewrite decide_True by assumption.
  destruct (handler.Body r) as [body|e];
    [|cbn; eexists _, _; split; [reflexivity|];
      cbn; intuition (try discriminate; try congruence)].
  destruct (Unmarshal body) as [payload|e];
    [|cbn; eexists _, _; split; [reflexivity|];
      cbn; intuition (try discriminate; try congruence)].
  destruct (handler.ValidatePayload (handler.driftService h) payload) as [e|];
    [cbn; eexists _, _; split; [reflexivity|];
     cbn; intuition (try discriminate; try congruence)|].
  destruct (handler.ProcessDriftDetection (handler.driftService h) payload x)
    as [[result|e] x'].
  - cbn.
    match goal with |- context [handler.WriteSuccess ?a ?b ?c ?d] =>
      destruct (handler.WriteSuccess a b c d) as [[[]|e] w1] end; cbn;
      eexists _, _; (split; [reflexivity|]);
      cbn; intuition (try discriminate; try congruence).
  - cbn. eexists _, _. split; [reflexivity|].
    cbn; intuition (try discriminate; try congruence).
Qed.

(** X19. [HandleEnvironments] writes one response to a request, through
    the response writer; the one exception is a success that the writer
    failed to write, which http.Error follows with a 500 and the text
    [Internal server error]. *)
Theorem HandleEnvironments_one_response (r : handler.Request)
    (hw : handler.World X W) :
  let out := handle r hw in
  (exists c, handler.written out = handler.written hw ++ [c]
             /\ forall e code, c <> handler.call_http_Error e code)
  \/ (exists payload headers e,
        (handler.WriteSuccess (handler.writer h) (handler.w hw) payload headers).1
          = Err e
        /\ handler.written out
           = handler.written hw
             ++ [handler.call_WriteSuccess payload headers;
                 handler.call_http_Error "Internal server error" 500]).
Proof.
  intros out. subst out handle.
  unfold handler.HandleEnvironments, handler.respond_error.
  repeat match goal with
  | |- context [decide ?P] => destruct (decide P)
  | |- context [match handler.Body r with _ => _ end] => destruct (handler.Body r)
  | |- context [match Unmarshal ?b with _ => _ end] => destruct (Unmarshal b)
  | |- context [match handler.ValidatePayload ?s ?p with _ => _ end] =>
      destruct (handler.ValidatePayload s p)
  | |- context [handler.ProcessDriftDetection ?s ?p ?x] =>
      destruct (handler.ProcessDriftDetection s p x) as [[?|?] ?]
  end;
  cbn [handler.written];
  try (left; eexists; split; [reflexivity | discriminate]).
  match goal with |- context [handler.WriteSuccess ?a ?b ?c ?d] =>
    destruct (handler.WriteSuccess a b c d) as [[[]|e] w1] eqn:Hw end;
    cbn [handler.written].
  - left. eexists. split; [reflexivity | discriminate].
  - right. eexists _, _, _. rewrite Hw. split; [reflexivity|].
    now rewrite <- app_assoc.
Qed.

End endpoint.

Lemma response_headers_lookup (result : DriftResult.t) :
  let headers := handler.response_headers result in
  headers !! "X-Environment-Tier" = nonempty (DriftResult.EnvironmentTier result)
  /\ headers !! "X-Drift-Increment" = nonempty (DriftResult.DriftIncrement result)
  /\ headers !! "X-Project-ID" = nonempty (DriftResult.ProjectID result)
  /\ headers !! "X-Issue-ID" = nonempty (DriftResult.IssueID result)
  /\ headers !! "X-Issue-URL" = nonempty (DriftResult.IssueURL result).
Proof.
  unfold handler.response_headers, nonempty.
  repeat case_decide;
    repeat split;
    repeat first [ rewrite lookup_insert_eq
                 | rewrite lookup_insert_ne by discriminate
                 | rewrite lookup_empty ];
    reflexivity.
Qed.

Lemma nonempty_default (o : option string) :
  nonempty (default "" o) = o ≫= nonempty.
Proof. destruct o; reflexivity. Qed.

(** X20. The success response shows the record.  When the endpoint answers
    a request with a success, over the service on Redis, the request carried
    an accepted report, and each of the five X- headers of the response is
    there exactly when the field of the record of that report in Redis, as it
    is after the request, is there and not empty, and it has its value; the
    body is the text made of the same record. *)
Theorem HandleEnvironments_shows_record {T W : Type}
    (Unmarshal : string -> result Payload.t) (Quote : string -> string)
    (http_Error : string -> Z -> W -> W) (writer : handler.ResponseWriter W)
    (env_default : string) (tr : IssueTracker T) (cfg : Config.t) (now : string)
    (r : handler.Request) (rds : redis.Server) (t : T) (w0 : W)
    (text : string) (headers : gmap string string) :
  let service :=
    DriftService_of now (wire (NewRedisRepository env_default) tr cfg) in
  let h := handler.NewEnvironmentHandler service writer in
  let hw := {| handler.system := {| store := rds; tracker := t; trace := [] |};
               handler.w := w0; handler.written := [] |} in
  let out := handler.HandleEnvironments Unmarshal Quote http_Error h r hw in
  head (handler.written out) = Some (handler.call_WriteSuccess text headers) ->
  exists payload,
    accepted_report Unmarshal service r = Some payload
    /\ let key := DriftServiceImpl.GenerateKey (Payload.RepoName payload)
                    (Payload.Environment payload) in
       let record := redis.hash (redis.db (store (handler.system out))) key in
       let shown (field : string) := record !! field ≫= nonempty in
       headers !! "X-Environment-Tier" = shown "environmentTier"
       /\ headers !! "X-Drift-Increment" = shown "driftIncrement"
       /\ headers !! "X-Project-ID" = shown "projectID"
       /\ headers !! "X-Issue-ID" = shown "issueID"
       /\ headers !! "X-Issue-URL" = shown "issueURL"
       /\ text = handler.response_body payload (result_of_record record).
Proof.
  intros service h hw out. subst out hw h.
  unfold handler.HandleEnvironments, accepted_report, handler.respond_error.
  cbn [handler.system handler.w handler.written handler.driftService
       handler.writer handler.NewEnvironmentHandler].
  destruct (decide (handler.Method r <> "POST")) as [Hm|Hm]; [discriminate|].
  apply dec_stable in Hm. rewrite decide_True by assumption.
  destruct (handler.Body r) as [body|e]; [|discriminate].
  destruct (Unmarshal body) as [payload|e]; [|discriminate].
  destruct (handler.ValidatePayload service payload) as [e|]; [discriminate|].
  subst service. cbn [DriftService_of handler.ProcessDriftDetection].
  destruct (DriftServiceImpl.ProcessDriftDetection _ now payload _)
    as [[result|e] x'] eqn:Hrun; [|discriminate].
  pose proof (report_returns_record env_default tr cfg now payload rds t result)
    as Hrecord.
  unfold result_of, store_after, run in Hrecord. rewrite Hrun in Hrecord.
  destruct (Hrecord eq_refl) as [Hresult _]. cbn [fst snd] in Hresult.
  intros Hfirst. exists payload. split; [reflexivity|].
  assert (Hcall : handler.call_WriteSuccess
                    (handler.response_body payload result)
                    (handler.response_headers result)
                  = handler.call_WriteSuccess text headers
                  /\ store (handler.system
                       (let '(err, w1) :=
                          handler.WriteSuccess writer w0
                            (handler.response_body payload result)
                            (handler.response_headers result) in
                        match err with
                        | Ok _ =>
                            {| handler.system := x'; handler.w := w1;
                               handler.written :=
                                 [] ++ [handler.call_WriteSuccess
                                          (handler.response_body payload result)
                                          (handler.response_headers result)] |}
                        | Err _ =>
                            {| handler.system := x';
                               handler.w := http_Error "Internal server error" 500 w1;
                               handler.written :=
                                 ([] ++ [handler.call_WriteSuccess
                                           (handler.response_body payload result)
                                           (handler.response_headers result)])
                                 ++ [handler.call_http_Error
                                       "Internal server error" 500] |}
                        end)) = store x').
  { destruct (handler.WriteSuccess writer w0 _ _) as [[[]|e] w1];
      cbn in Hfirst |- *; (split; [congruence | reflexivity]). }
  destruct Hcall as [[= <- <-] Hstore]. cbn zeta. rewrite Hstore.
  destruct (response_headers_lookup result) as (H1 & H2 & H3 & H4 & H5).
  rewrite H1, H2, H3, H4, H5, Hresult. cbn [result_of_record
    DriftResult.EnvironmentTier DriftResult.ProjectID DriftResult.DriftIncrement
    DriftResult.IssueID DriftResult.IssueURL].
  rewrite !nonempty_default. repeat split.
Qed.

(** ** Bearer token authentication *)

Lemma prefix_slice (p s : string) :
  String.prefix p s = true -> s = p +:+ middleware.slice_from (String.length p) s.
Proof.
  revert s. induction p as [|c p IH]; intros [|c' s]; cbn; try discriminate;
    try reflexivity.
  destruct (Ascii.ascii_dec c c') as [<-|]; [|discriminate].
  intros H. change (String c s = String c (p +:+ middleware.slice_from (String.length p) s)).
  now rewrite <- (IH s H).
Qed.

Lemma prefix_append (p rest : string) :
  String.prefix p (p +:+ rest) = true
  /\ middleware.slice_from (String.length p) (p +:+ rest) = rest.
Proof.
  induction p as [|c p [IH1 IH2]].
  - split; [now destruct rest | reflexivity].
  - change (String c p +:+ rest) with (String c (p +:+ rest)). cbn.
    destruct (Ascii.ascii_dec c c); [|congruence]. now split.
Qed.

Lemma append_cancel (p a b : string) : p +:+ a = p +:+ b -> a = b.
Proof.
  induction p as [|c p IH]; [trivial|].
  change (String c (p +:+ a) = String c (p +:+ b) -> a = b).
  intros [= H]. auto.
Qed.

(** X21. The authentication middleware.  A request reaches the next
    handler when authentication is disabled, or when a token is configured
    and the Authorization header of the request is [Bearer ] followed by text
    that trims to that token.  Any other request, with authentication
    enabled, is answered with a 401 through http.Error and the next handler
    is not run; so with authentication enabled and no token configured, every
    request is refused. *)
Theorem AuthenticationMiddleware_guards {X W : Type}
    (TrimSpace : string -> string) (http_Error : string -> Z -> W -> W)
    (cfg : config.Config)
    (next : handler.Request -> handler.World X W -> handler.World X W)
    (r : handler.Request) (hw : handler.World X W) :
  let out := middleware.AuthenticationMiddleware TrimSpace http_Error cfg next r hw in
  let authorized :=
    config.BearerToken cfg <> ""
    /\ carries_token TrimSpace r (config.BearerToken cfg) in
  (out = next r hw
   /\ (config.EnableAuthentication cfg = false \/ authorized))
  \/ (config.EnableAuthentication cfg = true /\ ~ authorized
      /\ exists message,
           out = {| handler.system := handler.system hw;
                    handler.w := http_Error message 401 (handler.w hw);
                    handler.written :=
                      handler.written hw
                      ++ [handler.call_http_Error message 401] |}).
Proof.
  intros out authorized. subst out authorized.
  unfold middleware.AuthenticationMiddleware, middleware.unauthorized,
    middleware.extractBearerToken, middleware.validateToken, carries_token.
  destruct (config.EnableAuthentication cfg); cbn [negb]; [|left; auto].
  destruct (decide (handler.Authorization r = "")) as [Hnone|Hsome].
  { rewrite decide_True by reflexivity. right. split; [reflexivity|].
    split; [|eauto]. intros [_ (rest & Hrest & _)]. rewrite Hrest in Hnone.
    discriminate. }
  destruct (String.prefix middleware.bearerPrefix (handler.Authorization r))
    eqn:Hprefix; cbn [negb].
  2:{ rewrite decide_True by reflexivity. right. split; [reflexivity|].
      split; [|eauto]. intros [_ (rest & Hrest & _)].
      rewrite Hrest, (proj1 (prefix_append _ _)) in Hprefix. discriminate. }
  pose proof (prefix_slice middleware.bearerPrefix (handler.Authorization r)
                Hprefix) as Hshape.
  set (rest := middleware.slice_from _ _) in *.
  assert (Hcarried : forall token,
            (exists rest', handler.Authorization r
                           = middleware.bearerPrefix +:+ rest'
                           /\ TrimSpace rest' = token)
            <-> TrimSpace rest = token).
  { intros token. split; [|eauto]. intros (rest' & Hrest' & <-).
    rewrite Hshape in Hrest'. now apply append_cancel in Hrest' as ->. }
  destruct (decide (TrimSpace rest = "")) as [Hempty|Hfull].
  { right. split; [reflexivity|]. split; [|eauto].
    intros [Hset Htoken]. apply Hcarried in Htoken. congruence. }
  destruct (decide (config.BearerToken cfg = "")) as [Hunset|Hset]; cbn [negb].
  { right. split; [reflexivity|]. split; [|eauto]. now intros [? _]. }
  destruct (bool_decide_reflect (TrimSpace rest = config.BearerToken cfg))
    as [Heq|Hne]; cbn [negb].
  - left. split; [reflexivity|]. right. split; [assumption|].
    now apply Hcarried.
  - right. split; [reflexivity|]. split; [|eauto].
    intros [_ Htoken]. now apply Hcarried in Htoken.
Qed.

(** ** The command-line wrapper *)



Section wrapper.
Context {N : Type}.
Variables (url_Parse : string -> option error)
  (Do : ci.Request -> N -> result Z * N).

(** The request of a webhook. *)
Let webhook (endpoint : string) (payload : ci.Payload) : ci.Request :=
  {| ci.Method := "POST"; ci.URL := endpoint +:+ "/environments";
     ci.Header := [("Content-Type", "application/json")];
     ci.Body := payload |}.

Lemma sendWebhook_run (endpoint : string) (payload : ci.Payload) (n : ci.Net N) :
  let out := ci.sendWebhook url_Parse Do endpoint payload n in
  match url_Parse (endpoint +:+ "/environments") with
  | Some _ => out = n
  | None =>
      exists answers,
        ci.requests out
        = ci.requests n ++ ((fun a => (webhook endpoint payload, a)) <$> answers)
        /\ (1 <= length answers <= 3)%nat
        /\ ci.slept out = ci.slept n ++ take (length answers - 1) [1; 2]
        /\ Forall (fun a => failed a = true) (removelast answers)
        /\ ((length answers < 3)%nat ->
            exists a, last answers = Some a /\ failed a = false)
  end.
Proof.
  intros out. subst out. unfold ci.sendWebhook, ci.NewRequest.
  destruct (url_Parse (endpoint +:+ "/environments")); [reflexivity|].
  change (ci.Header_Set "Content-Type" "application/json" _)
    with (webhook endpoint payload).
  generalize (webhook endpoint payload). intros req.
  cbn [ci.attempts].
  destruct (Do req (ci.server n)) as [a1 s1].
  destruct (failed a1) eqn:F1.
  2:{ exists [a1]. destruct a1 as [c1|e1]; [|discriminate]. cbn in F1.
      rewrite F1. cbn. rewrite app_nil_r.
      repeat split; auto; try lia. eauto. }
  assert (R1 : forall (A : Type) (x y : A),
             match a1 with
             | Ok StatusCode =>
                 if (StatusCode <? 200) || (300 <=? StatusCode) then x else y
             | Err _ => x
             end = x).
  { intros. destruct a1 as [c1|e1]; [|reflexivity]. cbn in F1. now rewrite F1. }
  rewrite R1. cbn [ci.server ci.requests ci.slept Z.ltb Z.compare].
  destruct (Do req s1) as [a2 s2].
  destruct (failed a2) eqn:F2.
  2:{ exists [a1; a2]. destruct a2 as [c2|e2]; [|discriminate]. cbn in F2.
      rewrite F2. cbn. rewrite <- !app_assoc.
      repeat split; auto; try lia. eauto. }
  assert (R2 : forall (A : Type) (x y : A),
             match a2 with
             | Ok StatusCode =>
                 if (StatusCode <? 200) || (300 <=? StatusCode) then x else y
             | Err _ => x
             end = x).
  { intros. destruct a2 as [c2|e2]; [|reflexivity]. cbn in F2. now rewrite F2. }
  rewrite R2. cbn [ci.server ci.requests ci.slept Z.ltb Z.compare Z.add
                   Pos.compare Pos.compare_cont].
  destruct (Do req s2) as [a3 s3].
  exists [a1; a2; a3].
  assert (R3 : forall (x : ci.Net N),
             match a3 with
             | Ok StatusCode =>
                 if (StatusCode <? 200) || (300 <=? StatusCode) then x else x
             | Err _ => x
             end = x).
  { intros. destruct a3 as [c3|e3]; [|reflexivity]. now destruct (_ || _). }
  cbn. rewrite R3. cbn. rewrite <- !app_assoc.
  repeat split; auto; try lia.
Qed.

(** X22. [sendWebhook] tries at most three times.  Every attempt hands the
    same request to the client: a POST to the endpoint followed by
    /environments, with the JSON content type and the payload.  There is no
    attempt when the URL does not parse.  An attempt is the last one when it
    is answered with a 2xx status, or when it is the third; the wrapper
    sleeps 1 second after a first attempt that failed and 2 seconds after a
    second one, and not after the third. *)
Theorem sendWebhook_attempts (endpoint : string) (payload : ci.Payload) (s : N) :
  let out := ci.sendWebhook url_Parse Do endpoint payload
               {| ci.server := s; ci.requests := []; ci.slept := [] |} in
  let answers := (ci.requests out).*2 in
  Forall (fun ra => ra.1 = webhook endpoint payload) (ci.requests out)
  /\ (length answers <= 3)%nat
  /\ (answers = [] <-> url_Parse (endpoint +:+ "/environments") <> None)
  /\ ci.slept out = take (length answers - 1) [1; 2]
  /\ Forall (fun a => failed a = true) (removelast answers)
  /\ ((0 < length answers < 3)%nat ->
      exists a, last answers = Some a /\ failed a = false).
Proof.
  intros out answers. subst answers out.
  pose proof (sendWebhook_run endpoint payload
                {| ci.server := s; ci.requests := []; ci.slept := [] |}) as Hrun.
  cbn zeta in Hrun.
  destruct (url_Parse (endpoint +:+ "/environments")) as [e|].
  { rewrite Hrun. cbn. repeat split; auto; try lia; try discriminate. }
  destruct Hrun as (answers & -> & Hlen & -> & Hfailed & Hlast).
  cbn [ci.requests ci.slept app].
  rewrite <- list_fmap_compose.
  replace ((snd ∘ (fun a => (webhook endpoint payload, a))) <$> answers)
    with answers by (now rewrite <- (list_fmap_id answers) at 1).
  repeat split; auto; try lia.
  - apply Forall_fmap, Forall_true. reflexivity.
  - intros ->. cbn in Hlen. lia.
  - intros Hnone. now contradiction Hnone.
  - intros [_ Hshort]. auto.
Qed.

Variables (exec_Command : string -> list string -> gmap string string -> ci.Run)
  (now : string).

Let main := ci.main url_Parse Do exec_Command now.

(** X23. The wrapper never exits with the exit code of terraform.  When
    flag.Parse refuses the command line it runs nothing and exits with 2, or
    with 0 when help was asked for.  Without arguments after the flags it
    exits with 1 and runs nothing.  With arguments it runs one command, with
    the arguments it was given, in their order, followed by
    -detailed-exitcode when the operation is plan and the flag is not among
    them; its exit status is 1 exactly when the command could not be run (an
    error that is not an exit error), and 0 otherwise, also when terraform
    exits with an error. *)
Theorem main_exit_status (parse : ci.Parse) (env : gmap string string)
    (n : ci.Net N) :
  let out := main parse env n in
  match parse with
  | ci.ErrHelp => ci.status out = 0 /\ ci.commands out = [] /\ ci.net out = n
  | ci.ParseError => ci.status out = 2 /\ ci.commands out = [] /\ ci.net out = n
  | ci.Parsed flags =>
  match ci.Args flags with
  | [] => ci.status out = 1 /\ ci.commands out = [] /\ ci.net out = n
  | operation :: rest =>
      exists binary args env',
        ci.commands out = [(binary, args, env')]
        /\ (args = operation :: rest
            \/ operation = "plan" /\ ("-detailed-exitcode" ∉ rest)
               /\ args = operation :: rest ++ ["-detailed-exitcode"])
        /\ (operation = "plan" -> "-detailed-exitcode" ∈ tail args)
        /\ (ci.status out = 0 \/ ci.status out = 1)
        /\ (ci.status out = 1
            <-> ci.err (exec_Command binary args env') = Some ci.OtherError)
  end
  end.
Proof.
  intros out. subst out main. unfold ci.main.
  destruct parse as [| |flags]; [auto | auto |].
  destruct (ci.Args flags) as [|operation rest]; [auto|].
  match goal with
  | |- context [exec_Command ?b ?a ?e] =>
      exists b, a, e; generalize (exec_Command b a e); intros cmd
  end.
  destruct (decide (operation = "plan")) as [->|Hop].
  - split; [reflexivity|].
    destruct (bool_decide_reflect ("-detailed-exitcode" ∈ rest)) as [Hin|Hout];
      (split; [auto|]); (split; [intros _; cbn [tail]; set_solver|]);
      destruct (ci.err cmd) as [[code|]|]; cbn;
      intuition (try discriminate; try congruence).
  - split; [reflexivity|]. split; [auto|]. split; [congruence|].
    destruct (ci.err cmd) as [[code|]|]; cbn;
      intuition (try discriminate; try congruence).
Qed.

Lemma or_default_set (value : string) :
  (if decide (value = "") then "default" else value) <> "".
Proof. now destruct (decide (value = "")). Qed.

(** What the wrapper sends comes from one call of sendWebhook. *)
Lemma main_requests (parse : ci.Parse) (env : gmap string string) (s : N) :
  let out := main parse env
               {| ci.server := s; ci.requests := []; ci.slept := [] |} in
  ci.requests (ci.net out) = []
  \/ exists flags operation rest endpoint payload cmd,
       parse = ci.Parsed flags
       /\ ci.Args flags = operation :: rest
       /\ endpoint <> ""
       /\ Forall (fun ra => ra.1 = webhook endpoint payload)
            (ci.requests (ci.net out))
       /\ (exists binary args env',
             ci.commands out = [(binary, args, env')]
             /\ cmd = exec_Command binary args env')
       /\ operation ∈ ["plan"; "apply"; "destroy"]
       /\ ci.Operation payload = operation
       /\ ci.ExitCode payload = ci.exitCode_of (ci.err cmd)
       /\ ci.RepoName payload <> "" /\ ci.Branch payload <> ""
       /\ ci.Environment payload <> "" /\ ci.EnvironmentTier payload <> ""
       /\ ci.ProjectID payload <> ""
       /\ ci.PlanOutput payload
          = if bool_decide (operation = "plan") && (ci.ExitCode payload =? 2) then
              let output := ci.Stdout cmd +:+ ci.Stderr cmd in
              if (ci.maxOutputSize <? String.length output)%nat then
                substring 0 ci.maxOutputSize output +:+ ci.truncated
              else output
            else "".
Proof.
  intros out. subst out main. unfold ci.main.
  destruct parse as [| |flags]; [left; reflexivity | left; reflexivity |].
  destruct (ci.Args flags) as [|operation rest] eqn:Hargs; [left; reflexivity|].
  set (env' := <["TFENV_TERRAFORM_VERSION" := _]> env).
  match goal with
  | |- context [exec_Command ?b ?a env'] =>
      set (binary := b); set (args := a);
      remember (exec_Command binary args env') as cmd eqn:Hcmd
  end.
  match goal with
  | |- context [if decide (?endpoint = "") then _ else _] =>
      lazymatch endpoint with
      | context [ci.drift_endpoint] => set (to := endpoint)
      end
  end.
  assert (Hsplit : (if decide (operation = "plan")
                    then (ci.Stdout cmd +:+ ci.Stderr cmd,
                          ci.exitCode_of (ci.err cmd))
                    else ("", ci.exitCode_of (ci.err cmd)))
                   = (if decide (operation = "plan")
                      then ci.Stdout cmd +:+ ci.Stderr cmd else "",
                      ci.exitCode_of (ci.err cmd)))
    by now destruct (decide (operation = "plan")).
  rewrite Hsplit. clear Hsplit. cbn [ci.net ci.commands].
  destruct (decide (to = "")) as [|Hto]; [left; reflexivity|].
  destruct (bool_decide (operation = "plan") || bool_decide (operation = "apply")
            || bool_decide (operation = "destroy")) eqn:Hop;
    [|left; reflexivity].
  match goal with
  | |- context [ci.sendWebhook _ _ _ ?p _] => set (payload := p)
  end.
  pose proof (sendWebhook_run to payload
                {| ci.server := s; ci.requests := []; ci.slept := [] |}) as Hrun.
  cbn zeta in Hrun.
  destruct (url_Parse (to +:+ "/environments")) as [e|];
    [rewrite Hrun; left; reflexivity|].
  destruct Hrun as (answers & Hrequests & _).
  right. exists flags, operation, rest, to, payload, cmd.
  rewrite Hrequests. clear Hrequests. cbn [ci.requests app].
  split; [reflexivity|]. split; [exact Hargs|]. split; [assumption|].
  split; [apply Forall_fmap, Forall_true; reflexivity|].
  split; [eauto|].
  split.
  { apply orb_prop in Hop as [Hop|Hop]; [apply orb_prop in Hop as [Hop|Hop]|];
      apply bool_decide_eq_true_1 in Hop; subst operation; set_solver. }
  subst payload. cbn [ci.Operation ci.ExitCode ci.RepoName ci.Branch
    ci.Environment ci.EnvironmentTier ci.ProjectID ci.PlanOutput].
  split; [reflexivity|]. split; [reflexivity|].
  clearbody binary args env'. clear Hcmd.
  split; [destruct (decide (ci.Getenv env' "CI_PROJECT_NAME" = ""));
          [apply or_default_set | assumption]|].
  do 4 (split; [apply or_default_set|]).
  destruct (decide (operation = "plan")) as [->|Hother].
  - rewrite bool_decide_eq_true_2 by reflexivity. reflexivity.
  - rewrite bool_decide_eq_false_2 by assumption. reflexivity.
Qed.

(** X24. Every request the wrapper sends carries a payload that the
    validation of the service accepts: none of the six required fields is
    empty, whatever the environment of the process lacks.  Its operation is
    the first argument after the flags and one of plan, apply and
    destroy, and its exit code is the one of the command that was run (1 when
    the command could not be run). *)
Theorem main_reports_valid_payloads (parse : ci.Parse)
    (env : gmap string string) (s : N) :
  let out := main parse env
               {| ci.server := s; ci.requests := []; ci.slept := [] |} in
  Forall (fun ra =>
            let payload := ci.Body ra.1 in
            DriftServiceImpl.ValidatePayload (received payload) = None
            /\ (exists flags,
                  parse = ci.Parsed flags
                  /\ head (ci.Args flags) = Some (ci.Operation payload))
            /\ ci.Operation payload ∈ ["plan"; "apply"; "destroy"]
            /\ exists binary args env',
                 ci.commands out = [(binary, args, env')]
                 /\ ci.ExitCode payload
                    = ci.exitCode_of (ci.err (exec_Command binary args env')))
    (ci.requests (ci.net out)).
Proof.
  intros out.
  destruct (main_requests parse env s)
    as [Hnone|(flags & operation & rest & endpoint & payload & cmd & Hparse
               & Hargs & Hto
               & Hsent & (binary & args & env' & Hcommands & ->) & Hop
               & Hoperation & Hcode & H1 & H2 & H3 & H4 & H5 & _)];
    fold out in Hnone || fold out in Hsent, Hcommands.
  { rewrite Hnone. constructor. }
  eapply Forall_impl; [exact Hsent|]. intros [req answer] Hreq.
  cbn [fst] in Hreq. subst req. cbn [fst ci.Body webhook].
  split.
  { unfold DriftServiceImpl.ValidatePayload, received.
    cbn [Payload.RepoName Payload.Branch Payload.Environment
         Payload.EnvironmentTier Payload.ProjectID Payload.Operation].
    rewrite !decide_False; try assumption; [reflexivity|].
    rewrite Hoperation. intros ->.
    repeat (apply elem_of_cons in Hop as [Hop|Hop]; [discriminate Hop|]).
    now apply elem_of_nil in Hop. }
  split; [exists flags; split; [assumption|]; now rewrite Hargs, Hoperation|].
  split; [now rewrite Hoperation|].
  eauto.
Qed.


End wrapper.

(** ** Runs of the repository, the client and the endpoint on the test doubles *)

Lemma IncrementDrift_times_counts_witness :
  counter (redis.hash (fixtures.tracked "7") "svc:prod" !! "driftIncrement")
    = Some 1
  /\ 1 + Z.of_nat 3 <= strconv.maxInt
  /\ (IncrementDrift_times 3 "svc:prod" (reachable (fixtures.tracked "7"))).1
     = [Ok 2; Ok 3; Ok 4].
Proof.
  assert (Hcounter : counter (redis.hash (fixtures.tracked "7") "svc:prod"
                                !! "driftIncrement") = Some 1)
    by (vm_compute; reflexivity).
  assert (Hrange : 1 + Z.of_nat 3 <= strconv.maxInt)
    by (vm_compute; discriminate).
  split; [exact Hcounter|]. split; [exact Hrange|].
  exact (proj1 (IncrementDrift_times_counts "svc:prod" (fixtures.tracked "7")
                  1 3 Hcounter Hrange)).
Defined.

Lemma HandleThresholdBreach_below_threshold_witness :
  let st := NewRedisRepository "" in
  let r := testing.redis_with (testing.tracked "7") [] in
  let check := CheckThreshold (NewThresholdManager (T:=list http.Response)
                                 st testing.cfg) "svc:prod" 0 in
  let c := DriftServiceImpl.HandleThresholdBreach
             (wire st testing.gitlab testing.cfg) (testing.env "42") 0 in
  result_of check r [] = Ok false
  /\ result_of c r [] = Ok tt
  /\ count (fun e => is_tracker_call (call e)) (events_of c r []) = 0%nat.
Proof.
  cbv zeta.
  assert (Hbelow : result_of
            (CheckThreshold (NewThresholdManager (T:=list http.Response)
                               (NewRedisRepository "") testing.cfg)
               (EnvironmentInfo.Key (testing.env "42")) 0)
            (testing.redis_with (testing.tracked "7") []) [] = Ok false)
    by (vm_compute; reflexivity).
  split; [exact Hbelow|].
  destruct (HandleThresholdBreach_below_threshold (NewRedisRepository "")
              testing.gitlab testing.cfg (testing.env "42") 0
              (testing.redis_with (testing.tracked "7") []) [] Hbelow)
    as (Hok & _ & _ & _ & Hnone & _).
  split; [exact Hok | exact Hnone].
Defined.


Lemma ProcessDriftDetection_returns_record_witness :
  let d := wire (NewRedisRepository "") testing.gitlab testing.cfg in
  let c := DriftServiceImpl.ProcessDriftDetection d "2025-01-31T13:00:05Z"
             fixtures.destroy_report in
  let r := testing.redis_with (testing.tracked "7") [] in
  exists res,
    result_of c r [] = Ok res
    /\ res = result_of_record
               (redis.hash (redis.db (store_after c r [])) "svc:prod").
Proof.
  cbv zeta.
  assert (Hok : is_ok (result_of
            (DriftServiceImpl.ProcessDriftDetection
               (wire (NewRedisRepository "") testing.gitlab testing.cfg)
               "2025-01-31T13:00:05Z" fixtures.destroy_report)
            (testing.redis_with (testing.tracked "7") []) []) = true)
    by (vm_compute; reflexivity).
  destruct (result_of _ _ _) as [res|e] eqn:Hres; [|discriminate Hok].
  exists res. split; [reflexivity|].
  exact (proj1 (ProcessDriftDetection_returns_record "" testing.gitlab
                  testing.cfg "2025-01-31T13:00:05Z" fixtures.destroy_report
                  (testing.redis_with (testing.tracked "7") []) [] res Hres)).
Defined.

Lemma process_all_keeps_counters_in_order_witness :
  let d := wire (NewRedisRepository "") testing.gitlab testing.cfg in
  let r := testing.redis_with (testing.tracked "7") [] in
  let t := [testing.issue 200 7 42 "opened"; testing.issue 200 7 42 "opened"] in
  let reports := [("2025-01-31T10:30:05Z", testing.drift_report);
                  ("2025-01-31T13:00:05Z", fixtures.destroy_report)] in
  counter_in_order (stored r "svc:prod" "driftIncrement") = true
  /\ counter_in_order
       (stored (process_all d reports r t).1 "svc:prod" "driftIncrement") = true.
Proof.
  cbv zeta.
  assert (Hbefore : counter_in_order
            (stored (testing.redis_with (testing.tracked "7") [])
               "svc:prod" "driftIncrement") = true)
    by (vm_compute; reflexivity).
  split; [exact Hbefore|].
  exact (process_all_keeps_counters_in_order "" testing.gitlab testing.cfg
           [("2025-01-31T10:30:05Z", testing.drift_report);
            ("2025-01-31T13:00:05Z", fixtures.destroy_report)]
           (testing.redis_with (testing.tracked "7") [])
           [testing.issue 200 7 42 "opened"; testing.issue 200 7 42 "opened"]
           "svc:prod" Hbefore).
Defined.

Lemma HandleThresholdBreach_project_id_not_a_number_witness :
  let st := NewRedisRepository "" in
  let r := testing.redis_with (testing.tracked "7") [] in
  let e := NumError "Atoi" "default" ErrSyntax in
  let check := CheckThreshold (NewThresholdManager (T:=list http.Response)
                                 st testing.cfg) "svc:prod" 1 in
  let c := DriftServiceImpl.HandleThresholdBreach
             (wire st testing.gitlab testing.cfg) (testing.env "default") 1 in
  result_of check r [] = Ok true
  /\ strconv.Atoi "default" = Err e
  /\ result_of c r [] = Err (wrapError "invalid project ID" e).
Proof.
  cbv zeta.
  assert (Hbreach : result_of
            (CheckThreshold (NewThresholdManager (T:=list http.Response)
                               (NewRedisRepository "") testing.cfg)
               (EnvironmentInfo.Key (testing.env "default")) 1)
            (testing.redis_with (testing.tracked "7") []) [] = Ok true)
    by (vm_compute; reflexivity).
  assert (Hproject : strconv.Atoi
                       (EnvironmentInfo.ProjectID (testing.env "default"))
                     = Err (NumError "Atoi" "default" ErrSyntax))
    by (vm_compute; reflexivity).
  split; [exact Hbreach|]. split; [exact Hproject|].
  exact (proj1 (HandleThresholdBreach_project_id_not_a_number
                  (NewRedisRepository "") testing.gitlab testing.cfg
                  (testing.env "default") 1
                  (testing.redis_with (testing.tracked "7") []) []
                  (NumError "Atoi" "default" ErrSyntax) Hbreach Hproject)).
Defined.

Lemma ResetDriftIncrement_project_id_not_a_number_witness :
  let d := wire (NewRedisRepository "") testing.gitlab testing.cfg in
  let e := NumError "Atoi" "default" ErrSyntax in
  let c := DriftServiceImpl.ResetDriftIncrement d (testing.env "default")
             "apply" in
  let r := reachable (fixtures.tracked "7") in
  tracked_issue (redis.hash (fixtures.tracked "7") "svc:prod" !! "issueID")
    = Some 7
  /\ strconv.Atoi "default" = Err e
  /\ result_of c r [] = Err (wrapError "invalid project ID" e)
  /\ stored (store_after c r []) "svc:prod" "driftIncrement" = Some "0".
Proof.
  cbv zeta.
  assert (Hissue : tracked_issue
            (redis.hash (fixtures.tracked "7")
               (EnvironmentInfo.Key (testing.env "default")) !! "issueID")
          = Some 7) by (vm_compute; reflexivity).
  assert (Hproject : strconv.Atoi
                       (EnvironmentInfo.ProjectID (testing.env "default"))
                     = Err (NumError "Atoi" "default" ErrSyntax))
    by (vm_compute; reflexivity).
  split; [exact Hissue|]. split; [exact Hproject|].
  destruct (ResetDriftIncrement_project_id_not_a_number "" testing.gitlab
              testing.cfg (testing.env "default") "apply"
              (fixtures.tracked "7") [] 7
              (NumError "Atoi" "default" ErrSyntax) Hissue Hproject)
    as (Herr & Hzero & _).
  split; [exact Herr | exact Hzero].
Defined.

Lemma ProcessDriftDetection_threshold_not_a_number_witness :
  let d := wire (NewRedisRepository "") testing.gitlab testing.cfg in
  let e := NumError "Atoi" "many" ErrSyntax in
  let c := DriftServiceImpl.ProcessDriftDetection d "2025-01-31T10:30:05Z"
             testing.drift_report in
  let r := reachable fixtures.unreadable_threshold in
  redis.hash fixtures.unreadable_threshold "svc:prod" !! "driftThreshold"
    = Some "many"
  /\ strconv.Atoi "many" = Err e
  /\ DriftServiceImpl.escalates d testing.drift_report = true
  /\ is_ok (result_of c r []) = false
  /\ stored (store_after c r []) "svc:prod" "driftIncrement" = Some "2".
Proof.
  cbv zeta.
  assert (Hthreshold : redis.hash fixtures.unreadable_threshold
            (DriftServiceImpl.GenerateKey
               (Payload.RepoName testing.drift_report)
               (Payload.Environment testing.drift_report))
            !! "driftThreshold" = Some "many") by (vm_compute; reflexivity).
  assert (Hset : "many" <> "") by discriminate.
  assert (Hparse : strconv.Atoi "many" = Err (NumError "Atoi" "many" ErrSyntax))
    by (vm_compute; reflexivity).
  assert (Hesc : DriftServiceImpl.escalates
            (wire (NewRedisRepository "") testing.gitlab testing.cfg)
            testing.drift_report = true) by reflexivity.
  assert (Hcounter : counter
            (redis.hash fixtures.unreadable_threshold
               (DriftServiceImpl.GenerateKey
                  (Payload.RepoName testing.drift_report)
                  (Payload.Environment testing.drift_report))
               !! "driftIncrement") = Some 1) by (vm_compute; reflexivity).
  assert (Hrange : 1 + 1 <= strconv.maxInt) by (vm_compute; discriminate).
  split; [exact Hthreshold|]. split; [exact Hparse|]. split; [exact Hesc|].
  destruct (ProcessDriftDetection_threshold_not_a_number "" testing.gitlab
              testing.cfg "2025-01-31T10:30:05Z" testing.drift_report
              fixtures.unreadable_threshold [] "many"
              (NumError "Atoi" "many" ErrSyntax) 1
              Hthreshold Hset Hparse Hesc Hcounter Hrange)
    as (Herr & Hcount & _).
  split; [now rewrite Herr | exact Hcount].
Defined.

Lemma accepts_requests_httptest : accepts_requests testing.httptest.
Proof. intros method url body. reflexivity. Defined.

Lemma GetIssueStatus_answers_witness :
  let g := {| GitLabClient.httpClient := recording testing.httptest;
              GitLabClient.baseURL := "https://gitlab.example/api/v4";
              GitLabClient.token := "glpat-test" |} in
  let out := GitLabClient.GetIssueStatus g 42 7
               ([testing.issue 200 7 42 "closed"], []) in
  "glpat-test" <> ""
  /\ accepts_requests testing.httptest
  /\ out.1 = Ok false
  /\ http.URL <$> out.2.2
     = ["https://gitlab.example/api/v4/projects/42/issues/7"].
Proof.
  cbv zeta.
  assert (Htoken : "glpat-test" <> "") by discriminate.
  split; [exact Htoken|]. split; [exact accepts_requests_httptest|].
  destruct (GetIssueStatus_answers testing.httptest
              "https://gitlab.example/api/v4" "glpat-test" Htoken
              accepts_requests_httptest 42 7 [testing.issue 200 7 42 "closed"])
    as (Hsent & _ & Hclosed).
  split.
  - apply Hclosed. eexists. split; [reflexivity|]. right.
    split; [vm_compute; split; [discriminate | reflexivity]|].
    eexists. split; [reflexivity|]. intros Hstate. vm_compute in Hstate.
    discriminate Hstate.
  - rewrite Hsent. vm_compute. reflexivity.
Defined.

Lemma CloseIssue_comments_then_closes_witness :
  let g := {| GitLabClient.httpClient := recording testing.httptest;
              GitLabClient.baseURL := "https://gitlab.example/api/v4";
              GitLabClient.token := "glpat-test" |} in
  let out := GitLabClient.CloseIssue g 42 7 "apply"
               ([testing.issue 201 7 42 "opened";
                 testing.issue 200 7 42 "closed"], []) in
  "glpat-test" <> ""
  /\ accepts_requests testing.httptest
  /\ out.1 = Ok tt
  /\ http.Method <$> out.2.2 = ["POST"; "PUT"].
Proof.
  cbv zeta.
  assert (Htoken : "glpat-test" <> "") by discriminate.
  split; [exact Htoken|]. split; [exact accepts_requests_httptest|].
  destruct (CloseIssue_comments_then_closes testing.httptest
              "https://gitlab.example/api/v4" "glpat-test" Htoken
              accepts_requests_httptest 42 7 "apply"
              [testing.issue 201 7 42 "opened"; testing.issue 200 7 42 "closed"])
    as (Hsent & Hclosed).
  split.
  - apply Hclosed. eexists. split; [reflexivity|]. vm_compute.
    split; [discriminate | reflexivity].
  - rewrite Hsent. reflexivity.
Defined.

Lemma HandleEnvironments_shows_record_witness :
  let service := DriftService_of "2025-01-31T13:00:05Z"
                   (wire (NewRedisRepository "") testing.gitlab testing.cfg) in
  let h := handler.NewEnvironmentHandler service fixtures.writer in
  let hw := {| handler.system :=
                 {| store := testing.redis_with (testing.tracked "7") [];
                    tracker := []; trace := [] |};
               handler.w := tt; handler.written := [] |} in
  let out := handler.HandleEnvironments fixtures.Unmarshal id (fun _ _ w => w)
               h fixtures.post hw in
  exists text headers,
    head (handler.written out) = Some (handler.call_WriteSuccess text headers)
    /\ headers !! "X-Issue-ID"
       = redis.hash (redis.db (store (handler.system out))) "svc:prod"
           !! "issueID" ≫= nonempty.
Proof.
  cbv zeta.
  assert (Hsuccess : fixtures.is_WriteSuccess
            (head (handler.written
               (handler.HandleEnvironments fixtures.Unmarshal id (fun _ _ w => w)
                  (handler.NewEnvironmentHandler
                     (DriftService_of "2025-01-31T13:00:05Z"
                        (wire (NewRedisRepository "") testing.gitlab testing.cfg))
                     fixtures.writer)
                  fixtures.post
                  {| handler.system :=
                       {| store := testing.redis_with (testing.tracked "7") [];
                          tracker := []; trace := [] |};
                     handler.w := tt; handler.written := [] |}))) = true)
    by (vm_compute; reflexivity).
  destruct (head _) as [[| text headers |]|] eqn:Hfirst;
    try discriminate Hsuccess.
  exists text, headers. split; [reflexivity|].
  destruct (HandleEnvironments_shows_record fixtures.Unmarshal id
              (fun _ _ w => w) fixtures.writer "" testing.gitlab testing.cfg
              "2025-01-31T13:00:05Z" fixtures.post
              (testing.redis_with (testing.tracked "7") []) [] tt
              text headers Hfirst)
    as (payload & Haccepted & _ & _ & _ & Hissue & _).
  vm_compute in Haccepted. injection Haccepted as <-. exact Hissue.
Defined.
